(** * Azure Resource Manager provider: resource adapters

    A shallow embedding of the CRUD adapters of the [azurerm] package
    (scheduler job collection, event hub consumer group, metric alert rule,
    data lake store file, role assignment, log analytics solution, key vault
    key, DNS AAAA record, traffic manager profile) and of the load balancer
    lookup helpers, together with the properties the specification states
    about them.

    Conventions of the embedding:
    - a Go pointer [*T] is an [option T]; dereferencing [None] panics;
    - Go's [int] is the 64-bit signed integer of the platforms the provider
      is built for, [int32]/[int64] conversions are written with their
      wrap-around;
    - [error] is [option Error], [None] being Go's [nil];
    - the remote API is an abstract world [W]; every SDK client method is a
      function [W -> result * W] held by the [ArmClient] record, so theorems
      hold for every behaviour of the remote side;
    - [*schema.ResourceData] is mutated in place by the Go code and is
      therefore part of the threaded state. *)

From Stdlib Require Import ZArith Lia.
From stdpp Require Import gmap strings list fin_maps.

Set Warnings "-register-all".
Open Scope Z_scope.

(** ** Go primitives *)

Module Go.

(** Two's complement wrap-around of a [w]-bit signed integer. *)
Definition wrap (w : Z) (z : Z) : Z :=
  (z + 2 ^ (w - 1)) mod 2 ^ w - 2 ^ (w - 1).

Definition int32 (z : Z) : Z := wrap 32 z.
Definition int64 (z : Z) : Z := wrap 64 z.
Definition int (z : Z) : Z := wrap 64 z.

Definition is_int32 (z : Z) : Prop := - 2 ^ 31 <= z < 2 ^ 31.

(** [float64] values are only carried around, never computed with; they
    are kept as their IEEE-754 bit pattern. *)
Record float64 := { float64_bits : Z }.

(** [len(s)] for slices. *)
Definition len {A} (l : list A) : Z := Z.of_nat (length l).

End Go.

(** ** Load balancer lookup helpers ([loadbalancer.go]) *)

Module Network.

(** The fields of the SDK structs that the helpers and their callers touch. *)
Record FrontendIPConfiguration := {
  feip_Name : option string;
  feip_ID : option string;
  feip_Etag : option string }.

Record LoadBalancingRule := {
  lbr_Name : option string;
  lbr_ID : option string;
  lbr_Etag : option string }.

Record LoadBalancerPropertiesFormat := {
  FrontendIPConfigurations : option (list FrontendIPConfiguration);
  LoadBalancingRules : option (list LoadBalancingRule);
  ProvisioningState : option string }.

Record LoadBalancer := {
  lb_ID : option string;
  lb_Name : option string;
  lb_LoadBalancerPropertiesFormat : option LoadBalancerPropertiesFormat }.

End Network.
Import Network.

(** [name != nil && *name == wanted] *)
Definition nameIs (n : option string) (wanted : string) : bool :=
  match n with
  | Some s => String.eqb s wanted
  | None => false
  end.

(** The [for i, x := range xs] loop shared by the two helpers: the first
    element whose name matches is returned (by value, as [&x] points to the
    loop variable's copy) with its index. *)
Fixpoint rangeFind {A} (getName : A -> option string)
    (i : Z) (xs : list A) (name : string) : option A * Z * bool :=
  match xs with
  | [] => (None, -1, false)
  | x :: rest =>
      if nameIs (getName x) name then (Some x, i, true)
      else rangeFind getName (i + 1) rest name
  end.

Definition findLoadBalancerFrontEndIpConfigurationByName
    (lb : option LoadBalancer) (name : string)
    : option FrontendIPConfiguration * Z * bool :=
  match lb with
  | None => (None, -1, false)
  | Some l =>
      match lb_LoadBalancerPropertiesFormat l with
      | None => (None, -1, false)
      | Some props =>
          match FrontendIPConfigurations props with
          | None => (None, -1, false)
          | Some feips => rangeFind feip_Name 0 feips name
          end
      end
  end.

Definition findLoadBalancerRuleByName
    (lb : option LoadBalancer) (name : string)
    : option LoadBalancingRule * Z * bool :=
  match lb with
  | None => (None, -1, false)
  | Some l =>
      match lb_LoadBalancerPropertiesFormat l with
      | None => (None, -1, false)
      | Some props =>
          match LoadBalancingRules props with
          | None => (None, -1, false)
          | Some rules => rangeFind lbr_Name 0 rules name
          end
      end
  end.

(** The collection a lookup ranges over, or [None] when the load balancer,
    its properties or the collection pointer is nil. *)
Definition lbCollection {A} (sel : LoadBalancerPropertiesFormat -> option (list A))
    (lb : option LoadBalancer) : option (list A) :=
  match lb with
  | Some l =>
      match lb_LoadBalancerPropertiesFormat l with
      | Some props => sel props
      | None => None
      end
  | None => None
  end.

(** What a lookup over the collection [xs] must answer. *)
Definition LookupSpec {A} (getName : A -> option string) (xs : list A)
    (name : string) (res : option A * Z * bool) : Prop :=
  let '(r, i, found) := res in
  (found = true <-> exists x, In x xs /\ getName x = Some name) /\
  (found = true ->
     exists x, r = Some x /\ 0 <= i < Go.len xs /\
       xs !! Z.to_nat i = Some x /\ getName x = Some name /\
       forall j y, (j < Z.to_nat i)%nat -> xs !! j = Some y -> getName y <> Some name) /\
  (found = false -> r = None /\ i = -1).

(** ** Results of code that may panic *)

(** A Go function either returns or panics (nil dereference, failed type
    assertion, index out of range). *)
Inductive Res (A : Type) : Type :=
| Val (a : A)
| Panic (reason : string).
Arguments Val {A} a.
Arguments Panic {A} reason.

Definition Res_bind {A B} (r : Res A) (k : A -> Res B) : Res B :=
  match r with
  | Val a => k a
  | Panic m => Panic m
  end.

Declare Scope res_scope.
Delimit Scope res_scope with res.
Notation "'let!' x := r 'in' k" := (Res_bind r (fun x => k))
  (at level 10, x pattern, r at level 100, k at level 200) : res_scope.

Definition isSome {A} (o : option A) : bool :=
  match o with Some _ => true | None => false end.

(** [*p] *)
Definition deref {A} (p : option A) : Res A :=
  match p with
  | Some a => Val a
  | None => Panic "invalid memory address or nil pointer dereference"
  end.

(** [xs[0]] *)
Definition index0 {A} (xs : list A) : Res A :=
  match xs with
  | x :: _ => Val x
  | [] => Panic "index out of range [0] with length 0"
  end.

(** ** Values held by [interface{}] *)

Inductive Value :=
| VNil
| VString (s : string)
| VInt (n : Z)
| VInt32 (n : Z)
| VInt64 (n : Z)
| VBool (b : bool)
| VFloat64 (f : Go.float64)
| VStrings (l : list string)
| VStringMap (m : gmap string string)
| VList (l : list Value)
| VSet (l : list Value)
| VMap (m : gmap string Value).

(** [v.(string)], [v.(int)], [v.(map[string]interface{})]: the one-result
    forms panic on a mismatch, a missing map key giving the nil interface. *)
Definition assertString (v : option Value) : Res string :=
  match v with
  | Some (VString s) => Val s
  | _ => Panic "interface conversion: interface {} is not string"
  end.

Definition assertInt (v : option Value) : Res Z :=
  match v with
  | Some (VInt n) => Val n
  | _ => Panic "interface conversion: interface {} is not int"
  end.

Definition assertBool (v : option Value) : Res bool :=
  match v with
  | Some (VBool b) => Val b
  | _ => Panic "interface conversion: interface {} is not bool"
  end.

Definition assertMap (v : Value) : Res (gmap string Value) :=
  match v with
  | VMap m => Val m
  | _ => Panic "interface conversion: interface {} is not map[string]interface {}"
  end.

Definition assertList (v : option Value) : Res (list Value) :=
  match v with
  | Some (VList l) => Val l
  | _ => Panic "interface conversion: interface {} is not []interface {}"
  end.

(** [v, ok := m[k].(int)] and [v, ok := m[k].(string)] *)
Definition intOk (v : option Value) : Z * bool :=
  match v with
  | Some (VInt n) => (n, true)
  | _ => (0, false)
  end.

Definition stringOk (v : option Value) : string * bool :=
  match v with
  | Some (VString s) => (s, true)
  | _ => (EmptyString, false)
  end.

(** ** Errors *)

(** [fmt.Errorf] keeps its format string and its rendered arguments; errors
    coming back from the SDK are opaque messages; [tf.ImportAsExistsError]
    is the import-required error of the [helpers/tf] package. *)
Inductive Error :=
| SdkError (msg : string)
| Errorf (format : string) (args : list string)
| ImportAsExistsError (resourceName resourceId : string).

Abbreviation error := (option Error).

Definition Error_text (e : Error) : string :=
  match e with
  | SdkError m => m
  | Errorf f args => String.concat "|" (f :: args)
  | ImportAsExistsError n i => String.concat "|" ["A resource with the ID already exists - to be managed via Terraform this resource needs to be imported into the State"; n; i]
  end.

(** How [%v] / [%+v] render an [error] and a [*string] argument. *)
Definition fmt_error (e : error) : string :=
  match e with
  | Some x => Error_text x
  | None => "<nil>"
  end.

Definition fmt_pointer (p : option string) : string :=
  match p with
  | Some _ => "0xc000000000"
  | None => "<nil>"
  end.

Definition isImportAsExistsError (e : error) : bool :=
  match e with
  | Some (ImportAsExistsError _ _) => true
  | _ => false
  end.

(** ** The [strings] package *)

Module strings.

Definition HasPrefix (s prefix : string) : bool := String.prefix prefix s.

Fixpoint HasSuffix (s suffix : string) : bool :=
  String.eqb s suffix ||
  match s with
  | String _ r => HasSuffix r suffix
  | EmptyString => false
  end.

Fixpoint Contains (s substr : string) : bool :=
  String.prefix substr s ||
  match s with
  | String _ r => Contains r substr
  | EmptyString => false
  end.

Definition TrimPrefix (s prefix : string) : string :=
  if HasPrefix s prefix
  then String.substring (String.length prefix) (String.length s - String.length prefix) s
  else s.

Definition TrimSuffix (s suffix : string) : string :=
  if HasSuffix s suffix
  then String.substring 0 (String.length s - String.length suffix) s
  else s.

(** [Split] for a non-empty separator: the piece being read and the pieces
    after it; [skip] counts the separator bytes still to be consumed. *)
Fixpoint Split_from (sep s : string) (skip : nat) : string * list string :=
  match s with
  | EmptyString => (EmptyString, [])
  | String c r =>
      match skip with
      | S k => Split_from sep r k
      | O =>
          if String.prefix sep s
          then (EmptyString,
                let '(p, ps) := Split_from sep r (String.length sep - 1) in p :: ps)
          else let '(p, ps) := Split_from sep r 0 in (String c p, ps)
      end
  end.

Definition Split (s sep : string) : list string :=
  let '(p, ps) := Split_from sep s 0 in p :: ps.

(** [Replace(s, old, new, -1)] for a non-empty [old]. *)
Fixpoint ReplaceAll_from (old new s : string) (skip : nat) : string :=
  match s with
  | EmptyString => EmptyString
  | String c r =>
      match skip with
      | S k => ReplaceAll_from old new r k
      | O =>
          if String.prefix old s
          then new +:+ ReplaceAll_from old new r (String.length old - 1)
          else String c (ReplaceAll_from old new r 0)
      end
  end.

Definition ReplaceAll (s old new : string) : string := ReplaceAll_from old new s 0.

Definition lowerAscii (c : Ascii.ascii) : Ascii.ascii :=
  let n := Ascii.N_of_ascii c in
  if ((65 <=? n) && (n <=? 90))%N then Ascii.ascii_of_N (n + 32) else c.

Fixpoint ToLower (s : string) : string :=
  match s with
  | EmptyString => EmptyString
  | String c r => String (lowerAscii c) (ToLower r)
  end.

(** [EqualFold] under simple case folding of the ASCII letters. The only
    runes outside ASCII that fold onto an ASCII letter are the Kelvin sign
    (onto k) and the long s (onto s), so this is Go's answer whenever one
    argument contains neither k nor s, as the reserved tag name does. *)
Definition EqualFold (s t : string) : bool := String.eqb (ToLower s) (ToLower t).

End strings.

(** ** [schema.ResourceData] *)

(** The local state document: the stored identifier, the new-resource flag
    and the configuration/state fields. *)
Record ResourceData := {
  rd_Id : string;
  rd_IsNewResource : bool;
  rd_fields : gmap string Value }.

Definition rd_SetId (id : string) (d : ResourceData) : ResourceData :=
  {| rd_Id := id; rd_IsNewResource := rd_IsNewResource d; rd_fields := rd_fields d |}.

Definition rd_Set (k : string) (v : Value) (d : ResourceData) : ResourceData :=
  {| rd_Id := rd_Id d; rd_IsNewResource := rd_IsNewResource d;
     rd_fields := <[k := v]> (rd_fields d) |}.

Definition rd_Get (d : ResourceData) (k : string) : option Value := rd_fields d !! k.

(** [d.Get(k).(T)] for a key the schema declares of type [T]: the framework
    hands back a value of the declared type, the zero value when the key is
    unset, so the assertion cannot fail. *)
Definition rd_GetString (d : ResourceData) (k : string) : string :=
  match rd_Get d k with Some (VString s) => s | _ => EmptyString end.

Definition rd_GetInt (d : ResourceData) (k : string) : Z :=
  match rd_Get d k with Some (VInt n) => n | _ => 0 end.

Definition rd_GetBool (d : ResourceData) (k : string) : bool :=
  match rd_Get d k with Some (VBool b) => b | _ => false end.

Definition rd_GetFloat64 (d : ResourceData) (k : string) : Go.float64 :=
  match rd_Get d k with Some (VFloat64 f) => f | _ => {| Go.float64_bits := 0 |} end.

Definition rd_GetList (d : ResourceData) (k : string) : list Value :=
  match rd_Get d k with Some (VList l) => l | _ => [] end.

Definition rd_GetMap (d : ResourceData) (k : string) : gmap string Value :=
  match rd_Get d k with Some (VMap m) => m | _ => ∅ end.

(** [List()] of the [schema.Set] stored under [k]. *)
Definition rd_GetSetList (d : ResourceData) (k : string) : list Value :=
  match rd_Get d k with Some (VSet l) => l | _ => [] end.

(** [schema.NewSet(hash, items)]; [List()] enumerates by hash code, which is
    immaterial for the one-element sets the adapters build. *)
Definition schema_NewSet (items : list Value) : Value := VSet items.

Definition isZeroValue (v : Value) : bool :=
  match v with
  | VNil => true
  | VString s => String.eqb s EmptyString
  | VInt n | VInt32 n | VInt64 n => n =? 0
  | VBool b => negb b
  | VFloat64 f => Go.float64_bits f =? 0
  | VStrings l => match l with [] => true | _ => false end
  | VStringMap m => bool_decide (m = ∅)
  | VList l | VSet l => match l with [] => true | _ => false end
  | VMap m => bool_decide (dom m = ∅)
  end.

(** [v, ok := d.GetOk(k)]: [ok] when the key is set to a non-zero value. *)
Definition rd_GetOk (d : ResourceData) (k : string) : Value * bool :=
  match rd_Get d k with
  | Some v => (v, negb (isZeroValue v))
  | None => (VNil, false)
  end.

(** How [d.Set] stores a [*string], a [*bool] and a [*int64]. *)
Definition ofStringPtr (p : option string) : Value :=
  match p with Some s => VString s | None => VNil end.

Definition ofBoolPtr (p : option bool) : Value :=
  match p with Some b => VBool b | None => VNil end.

Definition ofInt64Ptr (p : option Z) : Value :=
  match p with Some n => VInt64 n | None => VNil end.

(** ** Tags ([tags.go]) *)

(** The SDK's [map[string]*string]. *)
Abbreviation Tags := (gmap string (option string)).

(** Modelled from the spec: [expandTags], [flattenAndSetTags] and
    [filterTags] live in the package's [tags.go], which is not among the
    sources; tags are "an optional string-to-string mapping ... with
    provider-wide reserved-key filtering" that Read flattens back into the
    local fields. *)
Definition expandTags (tagsMap : gmap string Value) : Tags :=
  (fun v => match v with VString s => Some s | _ => Some EmptyString end) <$> tagsMap.

Definition flattenTags (tagsMap : Tags) : gmap string Value :=
  (fun p => match p with Some s => VString s | None => VString EmptyString end) <$> tagsMap.

Definition flattenAndSetTags (tagsMap : Tags) (d : ResourceData) : ResourceData :=
  rd_Set "tags" (VMap (flattenTags tagsMap)) d.

Definition filterTags (tagsMap : Tags) (tagName : string) : Tags :=
  filter (fun kv => strings.ToLower (fst kv) <> strings.ToLower tagName) tagsMap.

(** ** The vendor SDK's data *)

(** [*http.Response], and the [autorest.Response] that embeds it. *)
Record HttpResponse := { StatusCode : Z }.

Abbreviation autorest_Response := (option HttpResponse).

Definition StatusOK : Z := 200.
Definition StatusCreated : Z := 201.
Definition StatusNotFound : Z := 404.

(** [resp.StatusCode] through the embedded pointer. *)
Definition statusCodeOf (resp : autorest_Response) : Res Z :=
  match resp with
  | Some r => Val (StatusCode r)
  | None => Panic "invalid memory address or nil pointer dereference"
  end.

(** Modelled from the spec: [utils.ResponseWasNotFound] and
    [response.WasNotFound] belong to helper packages that are not among the
    sources; "not found" is the remote 404, and a call that produced no HTTP
    response at all is not a not-found. *)
Definition ResponseWasNotFound (resp : autorest_Response) : bool :=
  match resp with
  | Some r => StatusCode r =? StatusNotFound
  | None => false
  end.

Module scheduler.

Record Sku := { sku_Name : string }.

Record JobMaxRecurrence := {
  Frequency : string;
  Interval : option Z }.

Record JobCollectionQuota := {
  MaxJobCount : option Z;
  MaxRecurrence : option JobMaxRecurrence }.

Record JobCollectionProperties := {
  Sku_ : option Sku;
  State : string;
  Quota : option JobCollectionQuota }.

Record JobCollectionDefinition := {
  Response : autorest_Response;
  ID : option string;
  Name : option string;
  Location : option string;
  Tags_ : Tags;
  Properties : option JobCollectionProperties }.

(** [JobCollectionsDeleteFuture]: the response of the long-running call as
    last polled. *)
Record Future := { future_Response : autorest_Response }.

End scheduler.

Module eventhub.

Record ConsumerGroupProperties := { UserMetadata : option string }.

Record ConsumerGroup := {
  Response : autorest_Response;
  ID : option string;
  Name : option string;
  Properties : option ConsumerGroupProperties }.

End eventhub.

Module insights.

(** [BasicRuleDataSource] and the one variant the adapter narrows to. *)
Record RuleMetricDataSource := {
  ResourceURI : option string;
  MetricName : option string }.

Inductive BasicRuleDataSource :=
| AsRuleMetricDataSource (ds : RuleMetricDataSource)
| OtherRuleDataSource.

Record ThresholdRuleCondition := {
  DataSource : option BasicRuleDataSource;
  Operator : string;
  Threshold : option Go.float64;
  WindowSize : option string;
  TimeAggregation : string }.

Inductive BasicRuleCondition :=
| AsThresholdRuleCondition (c : ThresholdRuleCondition)
| OtherRuleCondition.

Record RuleEmailAction := {
  SendToServiceOwners : option bool;
  CustomEmails : option (list string) }.

Record RuleWebhookAction := {
  ServiceURI : option string;
  WebhookProperties : gmap string (option string) }.

Inductive BasicRuleAction :=
| AsRuleEmailAction (a : RuleEmailAction)
| AsRuleWebhookAction (a : RuleWebhookAction)
| OtherRuleAction.

Record AlertRule := {
  rule_Name : option string;
  Description : option string;
  IsEnabled : option bool;
  Condition : option BasicRuleCondition;
  Actions : option (list BasicRuleAction) }.

Record AlertRuleResource := {
  Response : autorest_Response;
  ID : option string;
  Name : option string;
  Location : option string;
  Tags_ : Tags;
  AlertRule_ : option AlertRule }.

End insights.

Module filesystem.

Record FileStatusResult := { Response : autorest_Response }.

Record FileOperationResult := {
  op_Response : autorest_Response;
  OperationResult : option bool }.

End filesystem.

Module authorization.

Record RoleAssignmentPropertiesWithScope := {
  Scope : option string;
  RoleDefinitionID : option string;
  PrincipalID : option string }.

Record RoleAssignment := {
  Response : autorest_Response;
  ID : option string;
  Name : option string;
  Properties : option RoleAssignmentPropertiesWithScope }.

Record RoleAssignmentProperties := {
  create_RoleDefinitionID : option string;
  create_PrincipalID : option string }.

Record RoleAssignmentCreateParameters := {
  CreateProperties : option RoleAssignmentProperties }.

Record RoleDefinition := {
  def_ID : option string;
  def_Name : option string }.

End authorization.

Module operationsmanagement.

Record SolutionPlan := {
  plan_Name : option string;
  Publisher : option string;
  PromotionCode : option string;
  Product : option string }.

Record SolutionProperties := { WorkspaceResourceID : option string }.

Record Solution := {
  Response : autorest_Response;
  ID : option string;
  Name : option string;
  Location : option string;
  Plan : option SolutionPlan;
  Properties : option SolutionProperties }.

Record Future := { future_Response : autorest_Response }.

End operationsmanagement.

Module keyvault.

Record JSONWebKey := {
  Kid : option string;
  Kty : string;
  KeyOps : option (list string);
  N : option string;
  E : option string }.

Record KeyBundle := {
  Response : autorest_Response;
  Key : option JSONWebKey;
  Tags_ : Tags }.

Record KeyAttributes := { Enabled : option bool }.

Record KeyCreateParameters := {
  create_Kty : string;
  create_KeySize : option Z;
  create_KeyOps : option (list string);
  create_KeyAttributes : option KeyAttributes;
  create_Tags : Tags }.

Record KeyUpdateParameters := {
  update_KeyOps : option (list string);
  update_KeyAttributes : option KeyAttributes;
  update_Tags : Tags }.

End keyvault.

Module dns.

Record AaaaRecord := { Ipv6Address : option string }.

Record RecordSetProperties := {
  Metadata : Tags;
  TTL : option Z;
  AaaaRecords : option (list AaaaRecord) }.

Record RecordSet := {
  Response : autorest_Response;
  ID : option string;
  Name : option string;
  Properties : option RecordSetProperties }.

End dns.

Module trafficmanager.

Record DNSConfig := {
  RelativeName : option string;
  Fqdn : option string;
  TTL : option Z }.

Record MonitorConfig := {
  Protocol : string;
  Port : option Z;
  Path : option string }.

Record ProfileProperties := {
  ProfileStatus : string;
  TrafficRoutingMethod : string;
  DNSConfig_ : option DNSConfig;
  MonitorConfig_ : option MonitorConfig }.

Record Profile := {
  Response : autorest_Response;
  ID : option string;
  Name : option string;
  Location : option string;
  Tags_ : Tags;
  Properties : option ProfileProperties }.

End trafficmanager.

(** ** Expand / flatten helper pairs *)

Open Scope res_scope.

(** *** Scheduler job collection quota
    ([resource_arm_scheduler_job_collection.go]) *)

Definition expandAzureArmSchedulerJobCollectionQuota (d : ResourceData)
    : Res (option scheduler.JobCollectionQuota) :=
  match rd_Get d "quota" with
  | Some (VList (b0 :: _)) =>
      let! quotaBlock := assertMap b0 in
      let maxJobCount :=
        let '(v, ok) := intOk (quotaBlock !! "max_job_count") in
        if ok then Some (Go.int32 v) else None in
      let frequency :=
        let '(v, ok) := stringOk (quotaBlock !! "max_recurrence_frequency") in
        if ok then v else EmptyString in
      let interval :=
        let '(v, ok) := intOk (quotaBlock !! "max_recurrence_interval") in
        if ok && (0 <? v) then Some (Go.int32 v)
        else
          let '(v, ok) := intOk (quotaBlock !! "max_retry_interval") in
          if ok && (0 <? v) then Some (Go.int32 v) else None in
      Val (Some {| scheduler.MaxJobCount := maxJobCount;
                   scheduler.MaxRecurrence :=
                     Some {| scheduler.Frequency := frequency;
                             scheduler.Interval := interval |} |})
  | _ => Val None
  end.

(** The result is Go's [[]interface{}]; [None] is the nil slice. *)
Definition flattenAzureArmSchedulerJobCollectionQuota
    (quota : option scheduler.JobCollectionQuota) : option (list Value) :=
  match quota with
  | None => None
  | Some q =>
      let quotaBlock : gmap string Value := ∅ in
      let quotaBlock :=
        match scheduler.MaxJobCount q with
        | Some v => <["max_job_count" := VInt32 v]> quotaBlock
        | None => quotaBlock
        end in
      let quotaBlock :=
        match scheduler.MaxRecurrence q with
        | Some recurrence =>
            let quotaBlock :=
              match scheduler.Interval recurrence with
              | Some v =>
                  <["max_retry_interval" := VInt32 v]>
                    (<["max_recurrence_interval" := VInt32 v]> quotaBlock)
              | None => quotaBlock
              end in
            <["max_recurrence_frequency" := VString (scheduler.Frequency recurrence)]> quotaBlock
        | None => quotaBlock
        end in
      Some [VMap quotaBlock]
  end.

Definition ofSlice (s : option (list Value)) : Value :=
  match s with Some l => VList l | None => VNil end.

(** *** DNS AAAA records *)

Definition flattenAzureRmDnsAaaaRecords (records : option (list dns.AaaaRecord))
    : list string :=
  match records with
  | Some rs =>
      foldl (fun results record =>
               match dns.Ipv6Address record with
               | Some a => results ++ [a]
               | None => results
               end) [] rs
  | None => []
  end.

(** The [for _, v := range recordStrings] loop. *)
Fixpoint expandAaaaLoop (recordStrings : list Value) (records : list dns.AaaaRecord)
    : Res (list dns.AaaaRecord) :=
  match recordStrings with
  | [] => Val records
  | v :: rest =>
      let! ipv6 := assertString (Some v) in
      expandAaaaLoop rest (records ++ [ {| dns.Ipv6Address := Some ipv6 |} ])
  end.

Definition expandAzureRmDnsAaaaRecords (d : ResourceData)
    : Res (list dns.AaaaRecord * error) :=
  let recordStrings := rd_GetSetList d "records" in
  let! records := expandAaaaLoop recordStrings [] in
  Val (records, None).

(** *** Traffic manager profile nested blocks
    ([resource_arm_traffic_manager_profile.go]) *)

Definition expandArmTrafficManagerMonitorConfig (d : ResourceData)
    : Res (option trafficmanager.MonitorConfig) :=
  let monitorSets := rd_GetSetList d "monitor_config" in
  let! m0 := index0 monitorSets in
  let! monitor := assertMap m0 in
  let! proto := assertString (monitor !! "protocol") in
  let! port := assertInt (monitor !! "port") in
  let port := Go.int64 port in
  let! path := assertString (monitor !! "path") in
  Val (Some {| trafficmanager.Protocol := proto;
               trafficmanager.Port := Some port;
               trafficmanager.Path := Some path |}).

Definition expandArmTrafficManagerDNSConfig (d : ResourceData)
    : Res (option trafficmanager.DNSConfig) :=
  let dnsSets := rd_GetSetList d "dns_config" in
  let! d0 := index0 dnsSets in
  let! dns := assertMap d0 in
  let! name := assertString (dns !! "relative_name") in
  let! ttl := assertInt (dns !! "ttl") in
  let ttl := Go.int64 ttl in
  Val (Some {| trafficmanager.RelativeName := Some name;
               trafficmanager.Fqdn := None;
               trafficmanager.TTL := Some ttl |}).

Definition flattenAzureRMTrafficManagerProfileDNSConfig
    (dns : option trafficmanager.DNSConfig) : Res (list Value) :=
  let! dns := deref dns in
  let result : gmap string Value := ∅ in
  let! relativeName := deref (trafficmanager.RelativeName dns) in
  let result := <["relative_name" := VString relativeName]> result in
  let! ttl := deref (trafficmanager.TTL dns) in
  let result := <["ttl" := VInt (Go.int ttl)]> result in
  Val [VMap result].

Definition flattenAzureRMTrafficManagerProfileMonitorConfig
    (cfg : option trafficmanager.MonitorConfig) : Res (list Value) :=
  let! cfg := deref cfg in
  let result : gmap string Value := ∅ in
  let result := <["protocol" := VString (trafficmanager.Protocol cfg)]> result in
  let! port := deref (trafficmanager.Port cfg) in
  let result := <["port" := VInt (Go.int port)]> result in
  let result :=
    match trafficmanager.Path cfg with
    | Some path => <["path" := VString path]> result
    | None => result
    end in
  Val [VMap result].

Definition getArmTrafficManagerProfileProperties (d : ResourceData)
    : Res (option trafficmanager.ProfileProperties) :=
  let routingMethod := rd_GetString d "traffic_routing_method" in
  let! dnsConfig := expandArmTrafficManagerDNSConfig d in
  let! monitorConfig := expandArmTrafficManagerMonitorConfig d in
  let status :=
    let '(status, ok) := rd_GetOk d "profile_status" in
    if ok then match status with VString s => s | _ => EmptyString end
    else EmptyString in
  Val (Some {| trafficmanager.ProfileStatus := status;
               trafficmanager.TrafficRoutingMethod := routingMethod;
               trafficmanager.DNSConfig_ := dnsConfig;
               trafficmanager.MonitorConfig_ := monitorConfig |}).

(** *** Log analytics solution plan *)

Definition expandAzureRmLogAnalyticsSolutionPlan (d : ResourceData)
    : Res operationsmanagement.SolutionPlan :=
  let plans := rd_GetList d "plan" in
  let! p0 := index0 plans in
  let! plan := assertMap p0 in
  let! name := assertString (plan !! "name") in
  let! publisher := assertString (plan !! "publisher") in
  let! promotionCode := assertString (plan !! "promotion_code") in
  let! product := assertString (plan !! "product") in
  Val {| operationsmanagement.plan_Name := Some name;
         operationsmanagement.Publisher := Some publisher;
         operationsmanagement.PromotionCode := Some promotionCode;
         operationsmanagement.Product := Some product |}.

Definition flattenAzureRmLogAnalyticsSolutionPlan (plan : operationsmanagement.SolutionPlan)
    : Res (list Value) :=
  let values : gmap string Value := ∅ in
  let! name := deref (operationsmanagement.plan_Name plan) in
  let values := <["name" := VString name]> values in
  let! product := deref (operationsmanagement.Product plan) in
  let values := <["product" := VString product]> values in
  let! promotionCode := deref (operationsmanagement.PromotionCode plan) in
  let values := <["promotion_code" := VString promotionCode]> values in
  let! publisher := deref (operationsmanagement.Publisher plan) in
  let values := <["publisher" := VString publisher]> values in
  Val ([] ++ [VMap values]).

(** The remote name of a log analytics solution:
    [fmt.Sprintf("%s(%s)", solutionName, workspaceName)]. *)
Definition solutionRemoteName (solutionName workspaceName : string) : string :=
  solutionName +:+ "(" +:+ workspaceName +:+ ")".

(** *** Key vault key options *)

Fixpoint assertStrings (options : list Value) (results : list string) : Res (list string) :=
  match options with
  | [] => Val results
  | option :: rest =>
      let! s := assertString (Some option) in
      assertStrings rest (results ++ [s])
  end.

Definition expandKeyVaultKeyOptions (d : ResourceData) : Res (option (list string)) :=
  let options := rd_GetList d "key_opts" in
  let! results := assertStrings options [] in
  Val (Some results).

Definition flattenKeyVaultKeyOptions (input : option (list string)) : Res (list Value) :=
  let! input := deref input in
  Val (foldl (fun results option => results ++ [VString option]) [] input).

(** ** The remote side and the state threaded through an operation *)

(** One entry of the list of SDK calls an operation has issued so far: which
    client, what kind of request, the identifying arguments, and what came
    back (the HTTP response, the identifier carried by the body, the error).
    The list is bookkeeping only: the code never reads it. *)
Inductive Client :=
| schedulerJobCollectionsClient
| eventHubConsumerGroupClient
| monitorAlertRulesClient
| dataLakeStoreFilesClient
| roleAssignmentsClient
| roleDefinitionsClient
| solutionsClient
| keyVaultManagementClient
| dnsClient
| trafficManagerProfilesClient.

Inductive Verb := GET | WRITE | DELETE | LIST | WAIT.

Record Outcome := {
  out_response : autorest_Response;
  out_id : option string;
  out_err : error }.

Record Call := {
  call_client : Client;
  call_verb : Verb;
  call_args : list string;
  call_outcome : Outcome }.

(** A call reports not-found when it failed and its response is a 404: the
    SDK turns every status it does not expect, 404 included, into an error. *)
Definition reportsNotFound (c : Call) : bool :=
  isSome (out_err (call_outcome c)) && ResponseWasNotFound (out_response (call_outcome c)).

Definition failed (c : Call) : bool := isSome (out_err (call_outcome c)).

(** What each kind of SDK result shows of itself in the list of calls. *)
Definition viewOf {A} (response : A -> autorest_Response) (id : A -> option string)
    (x : A * error) : Outcome :=
  {| out_response := response (fst x); out_id := id (fst x); out_err := snd x |}.

Definition viewResponse (x : autorest_Response * error) : Outcome :=
  viewOf (fun r => r) (fun _ => None) x.

Definition viewJobCollection := viewOf scheduler.Response scheduler.ID.
Definition viewSchedulerFuture :=
  viewOf scheduler.future_Response (fun _ : scheduler.Future => None).
Definition viewConsumerGroup := viewOf eventhub.Response eventhub.ID.
Definition viewAlertRule := viewOf insights.Response insights.ID.
Definition viewFileStatus :=
  viewOf filesystem.Response (fun _ : filesystem.FileStatusResult => None).
Definition viewFileOperation :=
  viewOf filesystem.op_Response (fun _ : filesystem.FileOperationResult => None).
Definition viewRoleAssignment := viewOf authorization.Response authorization.ID.
Definition viewRoleDefinitions :=
  viewOf (fun _ : list authorization.RoleDefinition => None) (fun _ => None).
Definition viewSolution := viewOf operationsmanagement.Response operationsmanagement.ID.
Definition viewSolutionFuture :=
  viewOf operationsmanagement.future_Response (fun _ : operationsmanagement.Future => None).
Definition viewKeyBundle :=
  viewOf keyvault.Response (fun b => keyvault.Key b ≫= keyvault.Kid).
Definition viewRecordSet := viewOf dns.Response dns.ID.
Definition viewProfile := viewOf trafficmanager.Response trafficmanager.ID.

Definition isWrite (c : Call) : bool :=
  match call_verb c with WRITE => true | _ => false end.

Definition isGet (c : Call) : bool :=
  match call_verb c with GET => true | _ => false end.

Definition countWrites (cs : list Call) : nat := length (filter (fun c => isWrite c = true) cs).

(** What [parseAzureResourceID], [parseKeyVaultChildID] and [url.Parse]
    hand back. *)
Record ResourceID := {
  ResourceGroup : string;
  Path : gmap string string }.

(** [id.Path[k]]: the empty string for a missing segment. *)
Definition pathOf (id : ResourceID) (k : string) : string :=
  default EmptyString (Path id !! k).

Record KeyVaultChildID := {
  KeyVaultBaseUrl : string;
  kv_Name : string;
  kv_Version : string }.

Record URL := {
  url_Host : string;
  url_Path : string }.

Section Remote.
Context {W : Type}.

(** The SDK clients reached through the [ArmClient] behind [meta]. Every method takes
    the state of the remote side and returns its results together with the
    new state; the [context] argument and the deadline it carries are not
    represented. *)
Record ArmClient := {
  jobCollections_Get :
    string -> string -> W -> scheduler.JobCollectionDefinition * error * W;
  jobCollections_CreateOrUpdate :
    string -> string -> scheduler.JobCollectionDefinition -> W ->
    scheduler.JobCollectionDefinition * error * W;
  jobCollections_Delete :
    string -> string -> W -> scheduler.Future * error * W;
  jobCollections_WaitForCompletionRef :
    scheduler.Future -> W -> scheduler.Future * error * W;

  consumerGroups_Get :
    string -> string -> string -> string -> W -> eventhub.ConsumerGroup * error * W;
  consumerGroups_CreateOrUpdate :
    string -> string -> string -> string -> eventhub.ConsumerGroup -> W ->
    eventhub.ConsumerGroup * error * W;
  consumerGroups_Delete :
    string -> string -> string -> string -> W -> autorest_Response * error * W;

  alertRules_Get :
    string -> string -> W -> insights.AlertRuleResource * error * W;
  alertRules_CreateOrUpdate :
    string -> string -> insights.AlertRuleResource -> W ->
    insights.AlertRuleResource * error * W;
  alertRules_Delete :
    string -> string -> W -> autorest_Response * error * W;

  AdlsFileSystemDNSSuffix : string;
  files_Create :
    string -> string -> string -> W -> autorest_Response * error * W;
  files_GetFileStatus :
    string -> string -> W -> filesystem.FileStatusResult * error * W;
  files_Delete :
    string -> string -> W -> filesystem.FileOperationResult * error * W;

  roleAssignments_Get :
    string -> string -> W -> authorization.RoleAssignment * error * W;
  roleAssignments_GetByID :
    string -> W -> authorization.RoleAssignment * error * W;
  roleAssignments_Create :
    string -> string -> authorization.RoleAssignmentCreateParameters -> W ->
    authorization.RoleAssignment * error * W;
  roleAssignments_Delete :
    string -> string -> W -> authorization.RoleAssignment * error * W;
  roleDefinitions_List :
    string -> string -> W -> list authorization.RoleDefinition * error * W;

  solutions_Get :
    string -> string -> W -> operationsmanagement.Solution * error * W;
  solutions_CreateOrUpdate :
    string -> string -> operationsmanagement.Solution -> W ->
    operationsmanagement.Future * error * W;
  solutions_Delete :
    string -> string -> W -> operationsmanagement.Future * error * W;
  solutions_WaitForCompletionRef :
    operationsmanagement.Future -> W -> operationsmanagement.Future * error * W;

  keys_GetKey :
    string -> string -> string -> W -> keyvault.KeyBundle * error * W;
  keys_CreateKey :
    string -> string -> keyvault.KeyCreateParameters -> W -> keyvault.KeyBundle * error * W;
  keys_UpdateKey :
    string -> string -> string -> keyvault.KeyUpdateParameters -> W ->
    keyvault.KeyBundle * error * W;
  keys_DeleteKey :
    string -> string -> W -> keyvault.KeyBundle * error * W;

  recordSets_Get :
    string -> string -> string -> W -> dns.RecordSet * error * W;
  recordSets_CreateOrUpdate :
    string -> string -> string -> dns.RecordSet -> string -> string -> W ->
    dns.RecordSet * error * W;
  recordSets_Delete :
    string -> string -> string -> string -> W -> autorest_Response * error * W;

  profiles_Get :
    string -> string -> W -> trafficmanager.Profile * error * W;
  profiles_CreateOrUpdate :
    string -> string -> trafficmanager.Profile -> W -> trafficmanager.Profile * error * W;
  profiles_Delete :
    string -> string -> W -> autorest_Response * error * W }.

(** Helpers of the package and of the libraries that are not among the
    sources, taken as they come: the identifier parsers, the location
    normaliser, the generic tag validator, UUID generation, the local file
    system, and the number of further attempts [resource.Retry] gets to
    make before its timeout expires. *)
Record Env := {
  parseAzureResourceID : string -> ResourceID + Error;
  parseKeyVaultChildID : string -> KeyVaultChildID + Error;
  url_Parse : string -> URL + Error;
  azureRMNormalizeLocation : string -> string;
  validateAzureRMTags : gmap string Value -> string -> list string * list Error;
  uuid_GenerateUUID : W -> string * error * W;
  os_Open : string -> W -> string * error * W;
  ioutil_ReadAll : string -> W -> string * error * W;
  retryBudget : nat }.

(** The state an operation runs in: the remote side, the resource data the
    framework passed by pointer, and the calls issued so far. *)
Record State := {
  world : W;
  rd : ResourceData;
  calls : list Call }.

Definition M (A : Type) : Type := State -> Res A * State.

Definition ret {A} (a : A) : M A := fun st => (Val a, st).

Definition bind {A B} (m : M A) (k : A -> M B) : M B :=
  fun st =>
    match m st with
    | (Val a, st') => k a st'
    | (Panic msg, st') => (Panic msg, st')
    end.

Definition liftRes {A} (r : Res A) : M A := fun st => (r, st).

Definition getD : M ResourceData := fun st => (Val (rd st), st).

Definition modifyD (f : ResourceData -> ResourceData) : M unit :=
  fun st => (Val tt, {| world := world st; rd := f (rd st); calls := calls st |}).

(** [d.SetId] *)
Definition SetId (id : string) : M unit := modifyD (rd_SetId id).

(** [d.Set]; the error it returns for a value the schema rejects is not
    represented, so it is always nil. *)
Definition Set_ (k : string) (v : Value) : M error :=
  fun st => (Val None, {| world := world st; rd := rd_Set k v (rd st); calls := calls st |}).

(** An SDK call: runs against the remote side and is appended to the list of
    calls issued. *)
Definition remote {X} (c : Outcome -> Call) (view : X -> Outcome) (f : W -> X * W) : M X :=
  fun st =>
    let '(x, w') := f (world st) in
    (Val x, {| world := w'; rd := rd st; calls := calls st ++ [c (view x)] |}).

(** A library call that touches the world but not the remote API. *)
Definition local {X} (f : W -> X * W) : M X :=
  fun st =>
    let '(x, w') := f (world st) in
    (Val x, {| world := w'; rd := rd st; calls := calls st |}).

End Remote.

Arguments ArmClient W : clear implicits.
Arguments Env W : clear implicits.
Arguments State W : clear implicits.
Arguments M W A : clear implicits.

Declare Scope go_scope.
Delimit Scope go_scope with go.
Notation "'let*' x := m 'in' k" := (bind m (fun x => k))
  (at level 10, x pattern, m at level 100, k at level 200) : go_scope.
Notation "m ;* k" := (bind m (fun _ => k))
  (at level 100, right associativity) : go_scope.
(** [if err := m; err != nil { return err }] followed by [k]. *)
Notation "'try*' m 'in' k" :=
  (bind m (fun e => match e with Some x => ret (Some x) | None => k end))
  (at level 10, m at level 100, k at level 200) : go_scope.

Definition mkCall (c : Client) (v : Verb) (args : list string) (o : Outcome) : Call :=
  {| call_client := c; call_verb := v; call_args := args; call_outcome := o |}.

(** ** The resource adapters *)

Open Scope go_scope.

Section Adapters.
Context {W : Type} (env : Env W) (meta : ArmClient W).

(** *** Scheduler job collection
    ([resource_arm_scheduler_job_collection.go]) *)

Definition resourceArmSchedulerJobCollectionRead : M W error :=
  let* d := getD in
  match parseAzureResourceID env (rd_Id d) with
  | inr err => ret (Some err)
  | inl id =>
      let name := pathOf id "jobCollections" in
      let resourceGroup := ResourceGroup id in
      let* (collection, err) :=
        remote (mkCall schedulerJobCollectionsClient GET [resourceGroup; name]) viewJobCollection
               (jobCollections_Get meta resourceGroup name) in
      match err with
      | Some e =>
          if ResponseWasNotFound (scheduler.Response collection)
          then SetId EmptyString ;* ret None
          else ret (Some (Errorf "Error making Read request on Scheduler Job Collection %q (Resource Group %q): %+v"
                                 [name; resourceGroup; fmt_error err]))
      | None =>
          Set_ "name" (ofStringPtr (scheduler.Name collection)) ;*
          Set_ "resource_group_name" (VString resourceGroup) ;*
          match scheduler.Location collection with
          | Some location => Set_ "location" (VString (azureRMNormalizeLocation env location))
          | None => ret None
          end ;*
          modifyD (flattenAndSetTags (scheduler.Tags_ collection)) ;*
          match scheduler.Properties collection with
          | Some properties =>
              match scheduler.Sku_ properties with
              | Some sku => Set_ "sku" (VString (scheduler.sku_Name sku))
              | None => ret None
              end ;*
              Set_ "state" (VString (scheduler.State properties)) ;*
              let* err :=
                Set_ "quota" (ofSlice (flattenAzureArmSchedulerJobCollectionQuota
                                         (scheduler.Quota properties))) in
              match err with
              | Some _ =>
                  let* name := liftRes (deref (scheduler.Name collection)) in
                  ret (Some (Errorf "Error flattening quota for Job Collection %q (Resource Group %q): %+v"
                                    [name; resourceGroup; fmt_error err]))
              | None => ret None
              end
          | None => ret None
          end
      end
  end.

Definition resourceArmSchedulerJobCollectionCreateUpdate : M W error :=
  let* d := getD in
  let name := rd_GetString d "name" in
  let resourceGroup := rd_GetString d "resource_group_name" in
  try* (if rd_IsNewResource d then
          let* (resp, err) :=
            remote (mkCall schedulerJobCollectionsClient GET [resourceGroup; name]) viewJobCollection
                   (jobCollections_Get meta resourceGroup name) in
          if isSome err && negb (ResponseWasNotFound (scheduler.Response resp))
          then ret (Some (Errorf "Error checking for the existence of Scheduler Job Collection %q (Resource Group %q): %+v"
                                 [name; resourceGroup; fmt_error err]))
          else
            match scheduler.ID resp with
            | Some id => ret (Some (ImportAsExistsError "azurerm_scheduler_job_collection" id))
            | None => ret None
            end
        else ret None) in
  let location := azureRMNormalizeLocation env (rd_GetString d "location") in
  let tags := rd_GetMap d "tags" in
  let state :=
    let '(state, ok) := stringOk (rd_Get d "state") in
    if ok then state else EmptyString in
  let* quota := liftRes (expandAzureArmSchedulerJobCollectionQuota d) in
  let collection :=
    {| scheduler.Response := None;
       scheduler.ID := None;
       scheduler.Name := None;
       scheduler.Location := Some location;
       scheduler.Tags_ := expandTags tags;
       scheduler.Properties :=
         Some {| scheduler.Sku_ := Some {| scheduler.sku_Name := rd_GetString d "sku" |};
                 scheduler.State := state;
                 scheduler.Quota := quota |} |} in
  let* (collection, err) :=
    remote (mkCall schedulerJobCollectionsClient WRITE [resourceGroup; name]) viewJobCollection
           (jobCollections_CreateOrUpdate meta resourceGroup name collection) in
  match err with
  | Some _ =>
      ret (Some (Errorf "Error creating/updating Scheduler Job Collection %q (Resource Group %q): %+v"
                        [name; resourceGroup; fmt_error err]))
  | None =>
      let* (collection, err) :=
        remote (mkCall schedulerJobCollectionsClient GET [resourceGroup; name]) viewJobCollection
               (jobCollections_Get meta resourceGroup name) in
      match err with
      | Some _ =>
          ret (Some (Errorf "Error reading Scheduler Job Collection %q after create/update (Resource Group %q): %+v"
                            [name; resourceGroup; fmt_error err]))
      | None =>
          let* id := liftRes (deref (scheduler.ID collection)) in
          SetId id ;*
          resourceArmSchedulerJobCollectionRead
      end
  end.

Definition resourceArmSchedulerJobCollectionDelete : M W error :=
  let* d := getD in
  match parseAzureResourceID env (rd_Id d) with
  | inr err => ret (Some err)
  | inl id =>
      let name := pathOf id "jobCollections" in
      let resourceGroup := ResourceGroup id in
      let* (future, err) :=
        remote (mkCall schedulerJobCollectionsClient DELETE [resourceGroup; name]) viewSchedulerFuture
               (jobCollections_Delete meta resourceGroup name) in
      if isSome err && negb (ResponseWasNotFound (scheduler.future_Response future))
      then ret (Some (Errorf "Error issuing delete request for Scheduler Job Collection %q (Resource Group %q): %+v"
                             [name; resourceGroup; fmt_error err]))
      else
        let* (future, err) :=
          remote (mkCall schedulerJobCollectionsClient WAIT [resourceGroup; name]) viewSchedulerFuture
                 (jobCollections_WaitForCompletionRef meta future) in
        if isSome err && negb (ResponseWasNotFound (scheduler.future_Response future))
        then ret (Some (Errorf "Error waiting for deletion of Scheduler Job Collection %q (Resource Group %q): %+v"
                               [name; resourceGroup; fmt_error err]))
        else ret None
  end.

(** *** Event hub consumer group
    ([resource_arm_eventhub_consumer_group.go]) *)

Definition resourceArmEventHubConsumerGroupRead : M W error :=
  let* d := getD in
  match parseAzureResourceID env (rd_Id d) with
  | inr err => ret (Some err)
  | inl id =>
      let resGroup := ResourceGroup id in
      let namespaceName := pathOf id "namespaces" in
      let eventHubName := pathOf id "eventhubs" in
      let name := pathOf id "consumergroups" in
      let* (resp, err) :=
        remote (mkCall eventHubConsumerGroupClient GET [resGroup; namespaceName; eventHubName; name]) viewConsumerGroup
               (consumerGroups_Get meta resGroup namespaceName eventHubName name) in
      match err with
      | Some _ =>
          if ResponseWasNotFound (eventhub.Response resp)
          then SetId EmptyString ;* ret None
          else ret (Some (Errorf "Error making Read request on Azure EventHub Consumer Group %s: %+v"
                                 [name; fmt_error err]))
      | None =>
          Set_ "name" (VString name) ;*
          Set_ "eventhub_name" (VString eventHubName) ;*
          Set_ "namespace_name" (VString namespaceName) ;*
          Set_ "resource_group_name" (VString resGroup) ;*
          let* props := liftRes (deref (eventhub.Properties resp)) in
          Set_ "user_metadata" (ofStringPtr (eventhub.UserMetadata props)) ;*
          ret None
      end
  end.

Definition resourceArmEventHubConsumerGroupCreateUpdate : M W error :=
  let* d := getD in
  let name := rd_GetString d "name" in
  let namespaceName := rd_GetString d "namespace_name" in
  let eventHubName := rd_GetString d "eventhub_name" in
  let resGroup := rd_GetString d "resource_group_name" in
  try* (if rd_IsNewResource d then
          let* (resp, err) :=
            remote (mkCall eventHubConsumerGroupClient GET [resGroup; namespaceName; eventHubName; name]) viewConsumerGroup
                   (consumerGroups_Get meta resGroup namespaceName eventHubName name) in
          if isSome err && negb (ResponseWasNotFound (eventhub.Response resp))
          then ret (Some (Errorf "Error checking for the existence of Consumer Group %q (EventHub %q / Namespace %q / Resource Group %q): %+v"
                                 [name; eventHubName; namespaceName; resGroup; fmt_error err]))
          else
            match eventhub.ID resp with
            | Some id => ret (Some (ImportAsExistsError "azurerm_eventhub_consumer_group" id))
            | None => ret None
            end
        else ret None) in
  let userMetaData := rd_GetString d "user_metadata" in
  let parameters :=
    {| eventhub.Response := None;
       eventhub.ID := None;
       eventhub.Name := Some name;
       eventhub.Properties := Some {| eventhub.UserMetadata := Some userMetaData |} |} in
  let* (_, err) :=
    remote (mkCall eventHubConsumerGroupClient WRITE [resGroup; namespaceName; eventHubName; name]) viewConsumerGroup
           (consumerGroups_CreateOrUpdate meta resGroup namespaceName eventHubName name parameters) in
  match err with
  | Some e => ret (Some e)
  | None =>
      let* (read, err) :=
        remote (mkCall eventHubConsumerGroupClient GET [resGroup; namespaceName; eventHubName; name]) viewConsumerGroup
               (consumerGroups_Get meta resGroup namespaceName eventHubName name) in
      match err with
      | Some e => ret (Some e)
      | None =>
          match eventhub.ID read with
          | None =>
              ret (Some (Errorf "Cannot read EventHub Consumer Group %s (resource group %s) ID"
                                [name; resGroup]))
          | Some id =>
              SetId id ;*
              resourceArmEventHubConsumerGroupRead
          end
      end
  end.

Definition resourceArmEventHubConsumerGroupDelete : M W error :=
  let* d := getD in
  match parseAzureResourceID env (rd_Id d) with
  | inr err => ret (Some err)
  | inl id =>
      let resGroup := ResourceGroup id in
      let namespaceName := pathOf id "namespaces" in
      let eventHubName := pathOf id "eventhubs" in
      let name := pathOf id "consumergroups" in
      let* (resp, err) :=
        remote (mkCall eventHubConsumerGroupClient DELETE [resGroup; namespaceName; eventHubName; name]) viewResponse
               (consumerGroups_Delete meta resGroup namespaceName eventHubName name) in
      if isSome err && negb (ResponseWasNotFound resp)
      then ret (Some (Errorf "Error issuing Azure ARM delete request of EventHub Consumer Group '%s': %+v"
                             [name; fmt_error err]))
      else ret None
  end.

(** *** Metric alert rule *)

Definition isVString (v : Value) : bool :=
  match v with VString _ => true | _ => false end.

(** [for k, v := range m { out[k] = v.(string) }]: panics when some value
    is not a string, whatever the iteration order. *)
Definition assertStringValues (m : gmap string Value) : Res (gmap string (option string)) :=
  if bool_decide (map_Forall (fun _ v => isVString v = true) m)
  then Val ((fun v => match v with VString s => Some s | _ => None end) <$> m)
  else Panic "interface conversion: interface {} is not string".

(** [for k, v := range props { if k != "$type" { properties[k] = *v } }] *)
Definition webhookProperties (props : gmap string (option string)) : Res (gmap string string) :=
  let kept := filter (fun kv => fst kv <> "$type") props in
  if bool_decide (map_Forall (fun _ v => isSome v = true) kept)
  then Val (omap (fun v => v) kept)
  else Panic "invalid memory address or nil pointer dereference".

(** One round of the [for _, ruleAction := range *alertRule.Actions] loop. *)
Definition flattenRuleAction (acc : list Value * list Value) (ruleAction : insights.BasicRuleAction)
    : Res (list Value * list Value) :=
  let '(email_actions, webhook_actions) := acc in
  match ruleAction with
  | insights.AsRuleEmailAction emailAction =>
      let email_action : gmap string Value := ∅ in
      let email_action :=
        match insights.SendToServiceOwners emailAction with
        | Some sendToOwners => <["send_to_service_owners" := VBool sendToOwners]> email_action
        | None => email_action
        end in
      let! emails := deref (insights.CustomEmails emailAction) in
      let custom_emails := foldl (fun acc custom_email => acc ++ [custom_email]) [] emails in
      let email_action := <["custom_emails" := VStrings custom_emails]> email_action in
      Val (email_actions ++ [VMap email_action], webhook_actions)
  | insights.AsRuleWebhookAction webhookAction =>
      let webhook_action : gmap string Value := ∅ in
      let! uri := deref (insights.ServiceURI webhookAction) in
      let webhook_action := <["service_uri" := VString uri]> webhook_action in
      let! properties := webhookProperties (insights.WebhookProperties webhookAction) in
      let webhook_action := <["properties" := VStringMap properties]> webhook_action in
      Val (email_actions, webhook_actions ++ [VMap webhook_action])
  | insights.OtherRuleAction => Val acc
  end.

Fixpoint flattenRuleActions (actions : list insights.BasicRuleAction)
    (acc : list Value * list Value) : Res (list Value * list Value) :=
  match actions with
  | [] => Val acc
  | a :: rest =>
      let! acc := flattenRuleAction acc a in
      flattenRuleActions rest acc
  end.

Definition resourceArmMetricAlertRuleRead : M W error :=
  let* d := getD in
  match parseAzureResourceID env (rd_Id d) with
  | inr err => ret (Some err)
  | inl id =>
      let name := pathOf id "alertrules" in
      let resourceGroup := ResourceGroup id in
      let* (resp, err) :=
        remote (mkCall monitorAlertRulesClient GET [resourceGroup; name]) viewAlertRule
               (alertRules_Get meta resourceGroup name) in
      match err with
      | Some _ =>
          if ResponseWasNotFound (insights.Response resp)
          then SetId EmptyString ;* ret None
          else ret (Some (Errorf "Error making Read request on AzureRM Metric Alert Rule %q: %+v"
                                 [name; fmt_error err]))
      | None =>
          Set_ "name" (VString name) ;*
          Set_ "resource_group_name" (VString resourceGroup) ;*
          match insights.Location resp with
          | Some location => Set_ "location" (VString (azureRMNormalizeLocation env location))
          | None => ret None
          end ;*
          match insights.AlertRule_ resp with
          | Some alertRule =>
              Set_ "description" (ofStringPtr (insights.Description alertRule)) ;*
              Set_ "enabled" (ofBoolPtr (insights.IsEnabled alertRule)) ;*
              match insights.Condition alertRule with
              | Some (insights.AsThresholdRuleCondition thresholdRuleCondition) =>
                  Set_ "operator" (VString (insights.Operator thresholdRuleCondition)) ;*
                  let* threshold := liftRes (deref (insights.Threshold thresholdRuleCondition)) in
                  Set_ "threshold" (VFloat64 threshold) ;*
                  Set_ "period" (ofStringPtr (insights.WindowSize thresholdRuleCondition)) ;*
                  Set_ "aggregation" (VString (insights.TimeAggregation thresholdRuleCondition)) ;*
                  match insights.DataSource thresholdRuleCondition with
                  | Some (insights.AsRuleMetricDataSource metricDataSource) =>
                      Set_ "resource_id" (ofStringPtr (insights.ResourceURI metricDataSource)) ;*
                      Set_ "metric_name" (ofStringPtr (insights.MetricName metricDataSource))
                  | _ => ret None
                  end
              | _ => ret None
              end ;*
              let* actions := liftRes (deref (insights.Actions alertRule)) in
              let* (email_actions, webhook_actions) :=
                liftRes (flattenRuleActions actions ([], [])) in
              Set_ "email_action" (VList email_actions) ;*
              Set_ "webhook_action" (VList webhook_actions)
          | None => ret None
          end ;*
          let tagMap := filterTags (insights.Tags_ resp) "$type" in
          modifyD (flattenAndSetTags tagMap) ;*
          ret None
      end
  end.

Definition expandAzureRmMetricThresholdAlertRule (d : ResourceData)
    : Res (option insights.AlertRule * error) :=
  let name := rd_GetString d "name" in
  let resource := rd_GetString d "resource_id" in
  let metric_name := rd_GetString d "metric_name" in
  let metricDataSource :=
    {| insights.ResourceURI := Some resource; insights.MetricName := Some metric_name |} in
  let operator := rd_GetString d "operator" in
  let threshold := rd_GetFloat64 d "threshold" in
  let period := rd_GetString d "period" in
  let aggregation := rd_GetString d "aggregation" in
  let thresholdRuleCondition :=
    {| insights.DataSource := Some (insights.AsRuleMetricDataSource metricDataSource);
       insights.Operator := operator;
       insights.Threshold := Some threshold;
       insights.WindowSize := Some period;
       insights.TimeAggregation := aggregation |} in
  let actions : list insights.BasicRuleAction := [] in
  let email_actions := rd_GetList d "email_action" in
  let! actions :=
    match email_actions with
    | e0 :: _ =>
        let! email_action := assertMap e0 in
        let! customEmails :=
          match email_action !! "custom_emails" with
          | Some v =>
              let! custom_emails := assertList (Some v) in
              let! customEmails := assertStrings custom_emails [] in
              Val (Some customEmails)
          | None => Val None
          end in
        let! sendToServiceOwners :=
          match email_action !! "send_to_service_owners" with
          | Some v => let! b := assertBool (Some v) in Val (Some b)
          | None => Val None
          end in
        Val (actions ++ [insights.AsRuleEmailAction
                           {| insights.SendToServiceOwners := sendToServiceOwners;
                              insights.CustomEmails := customEmails |}])
    | [] => Val actions
    end in
  let webhook_actions := rd_GetList d "webhook_action" in
  let! actions :=
    match webhook_actions with
    | w0 :: _ =>
        let! webhook_action := assertMap w0 in
        let! service_uri := assertString (webhook_action !! "service_uri") in
        let! webhook_properties :=
          match webhook_action !! "properties" with
          | Some v =>
              let! properties := assertMap v in
              assertStringValues properties
          | None => Val ∅
          end in
        Val (actions ++ [insights.AsRuleWebhookAction
                           {| insights.ServiceURI := Some service_uri;
                              insights.WebhookProperties := webhook_properties |}])
    | [] => Val actions
    end in
  let enabled := rd_GetBool d "enabled" in
  let description :=
    let '(v, ok) := rd_GetOk d "description" in
    if ok then match v with VString s => Some s | _ => Some EmptyString end else None in
  Val (Some {| insights.rule_Name := Some name;
               insights.Description := description;
               insights.IsEnabled := Some enabled;
               insights.Condition := Some (insights.AsThresholdRuleCondition thresholdRuleCondition);
               insights.Actions := Some actions |}, None).

Definition resourceArmMetricAlertRuleCreateUpdate : M W error :=
  let* d := getD in
  let name := rd_GetString d "name" in
  let resourceGroup := rd_GetString d "resource_group_name" in
  try* (if rd_IsNewResource d then
          let* (resp, err) :=
            remote (mkCall monitorAlertRulesClient GET [resourceGroup; name]) viewAlertRule
                   (alertRules_Get meta resourceGroup name) in
          if isSome err && negb (ResponseWasNotFound (insights.Response resp))
          then ret (Some (Errorf "Error checking for the existence of Metric Alert Rule %q (Resource Group %q): %+v"
                                 [name; resourceGroup; fmt_error err]))
          else
            match insights.ID resp with
            | Some id => ret (Some (ImportAsExistsError "azurerm_metric_alertrule" id))
            | None => ret None
            end
        else ret None) in
  let location := azureRMNormalizeLocation env (rd_GetString d "location") in
  let tags := rd_GetMap d "tags" in
  let* (alertRule, err) := liftRes (expandAzureRmMetricThresholdAlertRule d) in
  match err with
  | Some e => ret (Some e)
  | None =>
      let alertRuleResource :=
        {| insights.Response := None;
           insights.ID := None;
           insights.Name := Some name;
           insights.Location := Some location;
           insights.Tags_ := expandTags tags;
           insights.AlertRule_ := alertRule |} in
      let* (_, err) :=
        remote (mkCall monitorAlertRulesClient WRITE [resourceGroup; name]) viewAlertRule
               (alertRules_CreateOrUpdate meta resourceGroup name alertRuleResource) in
      match err with
      | Some e => ret (Some e)
      | None =>
          let* (read, err) :=
            remote (mkCall monitorAlertRulesClient GET [resourceGroup; name]) viewAlertRule
                   (alertRules_Get meta resourceGroup name) in
          match err with
          | Some e => ret (Some e)
          | None =>
              match insights.ID read with
              | None =>
                  ret (Some (Errorf "Cannot read AzureRM Alert Rule %q (Resource Group %s) ID"
                                    [name; resourceGroup]))
              | Some id =>
                  SetId id ;*
                  resourceArmMetricAlertRuleRead
              end
          end
      end
  end.

Definition resourceArmMetricAlertRuleDelete : M W error :=
  let* d := getD in
  match parseAzureResourceID env (rd_Id d) with
  | inr err => ret (Some err)
  | inl id =>
      let name := pathOf id "alertrules" in
      let resourceGroup := ResourceGroup id in
      let* (resp, err) :=
        remote (mkCall monitorAlertRulesClient DELETE [resourceGroup; name]) viewResponse
               (alertRules_Delete meta resourceGroup name) in
      match err with
      | Some _ =>
          if ResponseWasNotFound resp then ret None
          else ret (Some (Errorf "Error deleting Metric Alert Rule %q (resource group %q): %+v"
                                 [name; resourceGroup; fmt_error err]))
      | None => ret err
      end
  end.

(** [validateMetricAlertRuleTags]; [order] is the order in which Go's [range]
    happens to visit the keys of the map. *)
Definition validateMetricAlertRuleTags (order : list string)
    (v : gmap string Value) (f : string) : list string * list Error :=
  let '(ws, es) := validateAzureRMTags env v f in
  let es :=
    foldl (fun es k =>
             if strings.EqualFold k "$type"
             then es ++ [Errorf "the %q is not allowed as tag name" [k]]
             else es) es order in
  (ws, es).

(** *** Data lake store file *)

Record dataLakeStoreFileId := {
  storageAccountName : string;
  filePath : string }.

Definition parseDataLakeStoreFileId (input suffix : string) : dataLakeStoreFileId + Error :=
  match url_Parse env ("https://" +:+ input) with
  | inr err => inr (Errorf "Error parsing %q as URI: %+v" [input; Error_text err])
  | inl uri =>
      let replacement := "." +:+ suffix in
      let accountName := strings.ReplaceAll (url_Host uri) replacement EmptyString in
      inl {| storageAccountName := accountName; filePath := url_Path uri |}
  end.

Definition resourceArmDataLakeStoreFileRead : M W error :=
  let* d := getD in
  match parseDataLakeStoreFileId (rd_Id d) (AdlsFileSystemDNSSuffix meta) with
  | inr err => ret (Some err)
  | inl id =>
      let* (resp, err) :=
        remote (mkCall dataLakeStoreFilesClient GET [storageAccountName id; filePath id]) viewFileStatus
               (files_GetFileStatus meta (storageAccountName id) (filePath id)) in
      match err with
      | Some _ =>
          if ResponseWasNotFound (filesystem.Response resp)
          then SetId EmptyString ;* ret None
          else ret (Some (Errorf "Error making Read request on Azure Data Lake Store File %q (Account %q): %+v"
                                 [filePath id; storageAccountName id; fmt_error err]))
      | None =>
          Set_ "account_name" (VString (storageAccountName id)) ;*
          Set_ "remote_file_path" (VString (filePath id)) ;*
          ret None
      end
  end.

(** The existence pre-check is commented out in the source ("Requiring
    import support once the ID's have been sorted"), so none is issued. *)
Definition resourceArmDataLakeStoreFileCreate : M W error :=
  let* d := getD in
  let accountName := rd_GetString d "account_name" in
  let remoteFilePath := rd_GetString d "remote_file_path" in
  let localFilePath := rd_GetString d "local_file_path" in
  let* (file, err) := local (os_Open env localFilePath) in
  match err with
  | Some _ => ret (Some (Errorf "error opening file %q: %+v" [localFilePath; fmt_error err]))
  | None =>
      let* (fileContents, err) := local (ioutil_ReadAll env file) in
      match err with
      | Some e => ret (Some e)
      | None =>
          let* (_, err) :=
            remote (mkCall dataLakeStoreFilesClient WRITE [accountName; remoteFilePath]) viewResponse
                   (files_Create meta accountName remoteFilePath fileContents) in
          match err with
          | Some _ =>
              ret (Some (Errorf "Error issuing create request for Data Lake Store File %q : %+v"
                                [remoteFilePath; fmt_error err]))
          | None =>
              let id := accountName +:+ "." +:+ AdlsFileSystemDNSSuffix meta +:+ remoteFilePath in
              SetId id ;*
              resourceArmDataLakeStoreFileRead
          end
      end
  end.

Definition resourceArmDataLakeStoreFileDelete : M W error :=
  let* d := getD in
  match parseDataLakeStoreFileId (rd_Id d) (AdlsFileSystemDNSSuffix meta) with
  | inr err => ret (Some err)
  | inl id =>
      let* (resp, err) :=
        remote (mkCall dataLakeStoreFilesClient DELETE [storageAccountName id; filePath id]) viewFileOperation
               (files_Delete meta (storageAccountName id) (filePath id)) in
      if isSome err && negb (ResponseWasNotFound (filesystem.op_Response resp))
      then ret (Some (Errorf "Error issuing delete request for Data Lake Store File %q (Account %q): %+v"
                             [filePath id; storageAccountName id; fmt_error err]))
      else ret None
  end.

(** *** Role assignment *)

(** [resource.RetryError] and [resource.RetryableError]. *)
Record RetryError := {
  Err : Error;
  Retryable : bool }.

Definition RetryableError (err : Error) : option RetryError :=
  Some {| Err := err; Retryable := true |}.

(** [resource.Retry(timeout, f)]: [f] is called again as long as it answers
    with a retryable error and the timeout has not expired; [more] is the
    number of further attempts that still fit into the timeout. When time
    runs out the last error is returned. *)
Fixpoint Retry (more : nat) (f : M W (option RetryError)) : M W error :=
  let* r := f in
  match r with
  | None => ret None
  | Some rerr =>
      if Retryable rerr then
        match more with
        | O => ret (Some (Err rerr))
        | S n => Retry n f
        end
      else ret (Some (Err rerr))
  end.

Definition retryRoleAssignmentsClient (scope name : string)
    (properties : authorization.RoleAssignmentCreateParameters)
    : M W (option RetryError) :=
  let* (_, err) :=
    remote (mkCall roleAssignmentsClient WRITE [scope; name]) viewRoleAssignment
           (roleAssignments_Create meta scope name properties) in
  match err with
  | Some e => ret (RetryableError e)
  | None => ret None
  end.

Definition resourceArmRoleAssignmentRead : M W error :=
  let* d := getD in
  let* (resp, err) :=
    remote (mkCall roleAssignmentsClient GET [rd_Id d]) viewRoleAssignment
           (roleAssignments_GetByID meta (rd_Id d)) in
  match err with
  | Some _ =>
      if ResponseWasNotFound (authorization.Response resp)
      then SetId EmptyString ;* ret None
      else ret (Some (Errorf "Error loading Role Assignment %q: %+v" [rd_Id d; fmt_error err]))
  | None =>
      Set_ "name" (ofStringPtr (authorization.Name resp)) ;*
      match authorization.Properties resp with
      | Some props =>
          Set_ "scope" (ofStringPtr (authorization.Scope props)) ;*
          Set_ "role_definition_id" (ofStringPtr (authorization.RoleDefinitionID props)) ;*
          Set_ "principal_id" (ofStringPtr (authorization.PrincipalID props))
      | None => ret None
      end ;*
      ret None
  end.

(** The first part of [resourceArmRoleAssignmentCreate]: the role definition
    id, from the configuration or looked up by name. *)
Definition roleDefinitionIdOf (d : ResourceData) : M W (string + Error) :=
  let '(v, ok) := rd_GetOk d "role_definition_id" in
  if ok then ret (inl (match v with VString s => s | _ => EmptyString end))
  else
    let '(v, ok) := rd_GetOk d "role_definition_name" in
    if ok then
      let value := match v with VString s => s | _ => EmptyString end in
      let filter := "roleName eq '" +:+ value +:+ "'" in
      let* (roleDefinitions, err) :=
        remote (mkCall roleDefinitionsClient LIST [EmptyString; filter]) viewRoleDefinitions
               (roleDefinitions_List meta EmptyString filter) in
      match err with
      | Some _ => ret (inr (Errorf "Error loading Role Definition List: %+v" [fmt_error err]))
      | None =>
          match roleDefinitions with
          | [r] =>
              let* id := liftRes (deref (authorization.def_ID r)) in
              ret (inl id)
          | _ =>
              ret (inr (Errorf "Error loading Role Definition List: could not find role '%s'" [value]))
          end
      end
    else ret (inr (Errorf "Error: either role_definition_id or role_definition_name needs to be set" [])).

Definition resourceArmRoleAssignmentCreate : M W error :=
  let* d := getD in
  let name := rd_GetString d "name" in
  let scope := rd_GetString d "scope" in
  let* r := roleDefinitionIdOf d in
  match r with
  | inr e => ret (Some e)
  | inl roleDefinitionId =>
      Set_ "role_definition_id" (VString roleDefinitionId) ;*
      let* d := getD in
      let principalId := rd_GetString d "principal_id" in
      let* named :=
        (if negb (String.eqb name EmptyString) then
           let* (resp, err) :=
             remote (mkCall roleAssignmentsClient GET [scope; name]) viewRoleAssignment
                    (roleAssignments_Get meta scope name) in
           if isSome err && negb (ResponseWasNotFound (authorization.Response resp))
           then ret (inr (Errorf "Error checking for the existence of Role Assignment %q: %+v"
                                 [name; fmt_error err]))
           else
             match authorization.ID resp with
             | Some id => ret (inr (ImportAsExistsError "azurerm_role_assignment" id))
             | None => ret (inl name)
             end
         else
           let* (uuid, err) := local (uuid_GenerateUUID env) in
           match err with
           | Some _ => ret (inr (Errorf "Error generating UUID for Role Assignment: %+v" [fmt_error err]))
           | None => ret (inl uuid)
           end) in
      match named with
      | inr e => ret (Some e)
      | inl name =>
          let properties :=
            {| authorization.CreateProperties :=
                 Some {| authorization.create_RoleDefinitionID := Some roleDefinitionId;
                         authorization.create_PrincipalID := Some principalId |} |} in
          try* Retry (retryBudget env) (retryRoleAssignmentsClient scope name properties) in
          let* (read, err) :=
            remote (mkCall roleAssignmentsClient GET [scope; name]) viewRoleAssignment
                   (roleAssignments_Get meta scope name) in
          match err with
          | Some e => ret (Some e)
          | None =>
              match authorization.ID read with
              | None =>
                  ret (Some (Errorf "Cannot read Role Assignment ID for %q (Scope %q)" [name; scope]))
              | Some id =>
                  SetId id ;*
                  resourceArmRoleAssignmentRead
              end
          end
      end
  end.

Definition resourceArmRoleAssignmentDelete : M W error :=
  let* d := getD in
  let scope := rd_GetString d "scope" in
  let name := rd_GetString d "name" in
  let* (resp, err) :=
    remote (mkCall roleAssignmentsClient DELETE [scope; name]) viewRoleAssignment
           (roleAssignments_Delete meta scope name) in
  match err with
  | Some e =>
      if negb (ResponseWasNotFound (authorization.Response resp))
      then ret (Some e)
      else ret None
  | None => ret None
  end.

(** *** Log analytics solution *)

(** The block of [resourceArmLogAnalyticsSolutionRead] that reverses the
    mapping used to build the remote name. *)
Definition readSolutionName (name : option string) : M W error :=
  match name with
  | Some n =>
      if strings.Contains n "(" then
        let parts := strings.Split n "(" in
        match parts with
        | [part0; part1] =>
            Set_ "solution_name" (VString part0) ;*
            let workspaceName := strings.TrimPrefix part1 "(" in
            let workspaceName := strings.TrimSuffix workspaceName ")" in
            Set_ "workspace_name" (VString workspaceName) ;*
            ret None
        | _ =>
            ret (Some (Errorf "Error making Read request on AzureRM Log Analytics solutions '%v': isn't in expected format 'Solution(WorkspaceName)'"
                              [fmt_pointer name]))
        end
      else
        ret (Some (Errorf "Error making Read request on AzureRM Log Analytics solutions '%v': isn't in expected format 'Solution(WorkspaceName)'"
                          [fmt_pointer name]))
  | None =>
      ret (Some (Errorf "Error making Read request on AzureRM Log Analytics solutions '%v': isn't in expected format 'Solution(WorkspaceName)'"
                        [fmt_pointer name]))
  end.

Definition resourceArmLogAnalyticsSolutionRead : M W error :=
  let* d := getD in
  match parseAzureResourceID env (rd_Id d) with
  | inr err => ret (Some err)
  | inl id =>
      let resGroup := ResourceGroup id in
      let name := pathOf id "solutions" in
      let* (resp, err) :=
        remote (mkCall solutionsClient GET [resGroup; name]) viewSolution
               (solutions_Get meta resGroup name) in
      match err with
      | Some _ =>
          if ResponseWasNotFound (operationsmanagement.Response resp)
          then SetId EmptyString ;* ret None
          else ret (Some (Errorf "Error making Read request on AzureRM Log Analytics solutions '%s': %+v"
                                 [name; fmt_error err]))
      | None =>
          match operationsmanagement.Plan resp with
          | None =>
              ret (Some (Errorf "Error making Read request on AzureRM Log Analytics solutions '%s': Plan was nil"
                                [name]))
          | Some plan =>
              Set_ "resource_group_name" (VString resGroup) ;*
              match operationsmanagement.Location resp with
              | Some location => Set_ "location" (VString (azureRMNormalizeLocation env location))
              | None => ret None
              end ;*
              try* readSolutionName (operationsmanagement.Name resp) in
              match operationsmanagement.Properties resp with
              | Some props =>
                  Set_ "workspace_resource_id"
                       (ofStringPtr (operationsmanagement.WorkspaceResourceID props))
              | None => ret None
              end ;*
              let* flat := liftRes (flattenAzureRmLogAnalyticsSolutionPlan plan) in
              Set_ "plan" (VList flat) ;*
              ret None
          end
      end
  end.

Definition resourceArmLogAnalyticsSolutionCreateUpdate : M W error :=
  let* d := getD in
  let solutionName := rd_GetString d "solution_name" in
  let workspaceName := rd_GetString d "workspace_name" in
  let name := solutionRemoteName solutionName workspaceName in
  let resGroup := rd_GetString d "resource_group_name" in
  try* (if rd_IsNewResource d then
          let* (resp, err) :=
            remote (mkCall solutionsClient GET [resGroup; name]) viewSolution
                   (solutions_Get meta resGroup name) in
          if isSome err && negb (ResponseWasNotFound (operationsmanagement.Response resp))
          then ret (Some (Errorf "Error checking for the existence of Log Analytics Solution %q (Workspace %q / Resource Group %q): %+v"
                                 [solutionName; workspaceName; resGroup; fmt_error err]))
          else
            match operationsmanagement.ID resp with
            | Some id => ret (Some (ImportAsExistsError "azurerm_log_analytics_solution" id))
            | None => ret None
            end
        else ret None) in
  let* solutionPlan := liftRes (expandAzureRmLogAnalyticsSolutionPlan d) in
  let solutionPlan :=
    {| operationsmanagement.plan_Name := Some name;
       operationsmanagement.Publisher := operationsmanagement.Publisher solutionPlan;
       operationsmanagement.PromotionCode := operationsmanagement.PromotionCode solutionPlan;
       operationsmanagement.Product := operationsmanagement.Product solutionPlan |} in
  let location := azureRMNormalizeLocation env (rd_GetString d "location") in
  let workspaceID := rd_GetString d "workspace_resource_id" in
  let parameters :=
    {| operationsmanagement.Response := None;
       operationsmanagement.ID := None;
       operationsmanagement.Name := Some name;
       operationsmanagement.Location := Some location;
       operationsmanagement.Plan := Some solutionPlan;
       operationsmanagement.Properties :=
         Some {| operationsmanagement.WorkspaceResourceID := Some workspaceID |} |} in
  let* (res, err) :=
    remote (mkCall solutionsClient WRITE [resGroup; name]) viewSolutionFuture
           (solutions_CreateOrUpdate meta resGroup name parameters) in
  (* a successful creation may come back as an error with status 201 *)
  try* (match err with
        | Some e =>
            let* status := liftRes (statusCodeOf (operationsmanagement.future_Response res)) in
            if negb (status =? StatusCreated) then ret (Some e) else ret None
        | None => ret None
        end) in
  let* (solution, err) :=
    remote (mkCall solutionsClient GET [resGroup; name]) viewSolution
           (solutions_Get meta resGroup name) in
  match err with
  | Some _ =>
      ret (Some (Errorf "Error retrieving Log Analytics Solution %q (Resource Group %q): %+v"
                        [name; resGroup; fmt_error err]))
  | None =>
      match operationsmanagement.ID solution with
      | None =>
          ret (Some (Errorf "Cannot read Log Analytics Solution %q (Resource Group %q) ID"
                            [name; resGroup]))
      | Some id =>
          SetId id ;*
          resourceArmLogAnalyticsSolutionRead
      end
  end.

Definition resourceArmLogAnalyticsSolutionDelete : M W error :=
  let* d := getD in
  match parseAzureResourceID env (rd_Id d) with
  | inr err => ret (Some err)
  | inl id =>
      let resGroup := ResourceGroup id in
      let name := pathOf id "solutions" in
      let* (future, err) :=
        remote (mkCall solutionsClient DELETE [resGroup; name]) viewSolutionFuture
               (solutions_Delete meta resGroup name) in
      match err with
      | Some _ =>
          ret (Some (Errorf "Error deleting Log Analytics Solution %q (Resource Group %q): %+v"
                            [name; resGroup; fmt_error err]))
      | None =>
          let* (future, err) :=
            remote (mkCall solutionsClient WAIT [resGroup; name]) viewSolutionFuture
                   (solutions_WaitForCompletionRef meta future) in
          match err with
          | Some _ =>
              if ResponseWasNotFound (operationsmanagement.future_Response future)
              then ret None
              else ret (Some (Errorf "Error waiting for deletion of Log Analytics Solution %q (Resource Group %q): %+v"
                                     [name; resGroup; fmt_error err]))
          | None => ret None
          end
      end
  end.

(** *** Key vault key *)

Definition resourceArmKeyVaultKeyRead : M W error :=
  let* d := getD in
  match parseKeyVaultChildID env (rd_Id d) with
  | inr err => ret (Some err)
  | inl id =>
      let* (resp, err) :=
        remote (mkCall keyVaultManagementClient GET [KeyVaultBaseUrl id; kv_Name id; EmptyString]) viewKeyBundle
               (keys_GetKey meta (KeyVaultBaseUrl id) (kv_Name id) EmptyString) in
      match err with
      | Some e =>
          if ResponseWasNotFound (keyvault.Response resp)
          then SetId EmptyString ;* ret None
          else ret (Some e)
      | None =>
          Set_ "name" (VString (kv_Name id)) ;*
          Set_ "vault_uri" (VString (KeyVaultBaseUrl id)) ;*
          try* (match keyvault.Key resp with
                | Some key =>
                    Set_ "key_type" (VString (keyvault.Kty key)) ;*
                    let* options := liftRes (flattenKeyVaultKeyOptions (keyvault.KeyOps key)) in
                    try* Set_ "key_opts" (VList options) in
                    Set_ "n" (ofStringPtr (keyvault.N key)) ;*
                    Set_ "e" (ofStringPtr (keyvault.E key))
                | None => ret None
                end) in
          Set_ "version" (VString (kv_Version id)) ;*
          modifyD (flattenAndSetTags (keyvault.Tags_ resp)) ;*
          ret None
      end
  end.

Definition resourceArmKeyVaultKeyCreate : M W error :=
  let* d := getD in
  let name := rd_GetString d "name" in
  let keyVaultBaseUrl := rd_GetString d "vault_uri" in
  let* (resp, err) :=
    remote (mkCall keyVaultManagementClient GET [keyVaultBaseUrl; name; EmptyString]) viewKeyBundle
           (keys_GetKey meta keyVaultBaseUrl name EmptyString) in
  if isSome err && negb (ResponseWasNotFound (keyvault.Response resp))
  then ret (Some (Errorf "Error checking for the existence of Key Vault Key %q (Key Vault %q): %+v"
                         [name; keyVaultBaseUrl; fmt_error err]))
  else
    match keyvault.Key resp ≫= keyvault.Kid with
    | Some kid => ret (Some (ImportAsExistsError "azurerm_key_vault_key" kid))
    | None =>
        let keyType := rd_GetString d "key_type" in
        let* keyOptions := liftRes (expandKeyVaultKeyOptions d) in
        let tags := rd_GetMap d "tags" in
        let parameters :=
          {| keyvault.create_Kty := keyType;
             keyvault.create_KeyOps := keyOptions;
             keyvault.create_KeyAttributes := Some {| keyvault.Enabled := Some true |};
             keyvault.create_KeySize := Some (Go.int32 (rd_GetInt d "key_size"));
             keyvault.create_Tags := expandTags tags |} in
        let* (_, err) :=
          remote (mkCall keyVaultManagementClient WRITE [keyVaultBaseUrl; name]) viewKeyBundle
                 (keys_CreateKey meta keyVaultBaseUrl name parameters) in
        match err with
        | Some _ => ret (Some (Errorf "Error Creating Key: %+v" [fmt_error err]))
        | None =>
            let* (read, err) :=
              remote (mkCall keyVaultManagementClient GET [keyVaultBaseUrl; name; EmptyString]) viewKeyBundle
                     (keys_GetKey meta keyVaultBaseUrl name EmptyString) in
            match err with
            | Some e => ret (Some e)
            | None =>
                let* key := liftRes (deref (keyvault.Key read)) in
                let* kid := liftRes (deref (keyvault.Kid key)) in
                SetId kid ;*
                resourceArmKeyVaultKeyRead
            end
        end
    end.

Definition resourceArmKeyVaultKeyUpdate : M W error :=
  let* d := getD in
  match parseKeyVaultChildID env (rd_Id d) with
  | inr err => ret (Some err)
  | inl id =>
      let* keyOptions := liftRes (expandKeyVaultKeyOptions d) in
      let tags := rd_GetMap d "tags" in
      let parameters :=
        {| keyvault.update_KeyOps := keyOptions;
           keyvault.update_KeyAttributes := Some {| keyvault.Enabled := Some true |};
           keyvault.update_Tags := expandTags tags |} in
      let* (_, err) :=
        remote (mkCall keyVaultManagementClient WRITE [KeyVaultBaseUrl id; kv_Name id; kv_Version id]) viewKeyBundle
               (keys_UpdateKey meta (KeyVaultBaseUrl id) (kv_Name id) (kv_Version id) parameters) in
      match err with
      | Some e => ret (Some e)
      | None => resourceArmKeyVaultKeyRead
      end
  end.

Definition resourceArmKeyVaultKeyDelete : M W error :=
  let* d := getD in
  match parseKeyVaultChildID env (rd_Id d) with
  | inr err => ret (Some err)
  | inl id =>
      let* (_, err) :=
        remote (mkCall keyVaultManagementClient DELETE [KeyVaultBaseUrl id; kv_Name id]) viewKeyBundle
               (keys_DeleteKey meta (KeyVaultBaseUrl id) (kv_Name id)) in
      ret err
  end.

(** *** DNS AAAA record *)

Definition resourceArmDnsAaaaRecordRead : M W error :=
  let* d := getD in
  match parseAzureResourceID env (rd_Id d) with
  | inr err => ret (Some err)
  | inl id =>
      let resGroup := ResourceGroup id in
      let name := pathOf id "AAAA" in
      let zoneName := pathOf id "dnszones" in
      let* (resp, err) :=
        remote (mkCall dnsClient GET [resGroup; zoneName; name; "AAAA"]) viewRecordSet
               (recordSets_Get meta resGroup zoneName name) in
      match err with
      | Some _ =>
          if ResponseWasNotFound (dns.Response resp)
          then SetId EmptyString ;* ret None
          else ret (Some (Errorf "Error reading DNS AAAA record %s: %v" [name; fmt_error err]))
      | None =>
          Set_ "name" (VString name) ;*
          Set_ "resource_group_name" (VString resGroup) ;*
          Set_ "zone_name" (VString zoneName) ;*
          (* the fields below are promoted through the embedded properties pointer *)
          let* props := liftRes (deref (dns.Properties resp)) in
          Set_ "ttl" (ofInt64Ptr (dns.TTL props)) ;*
          try* Set_ "records" (VStrings (flattenAzureRmDnsAaaaRecords (dns.AaaaRecords props))) in
          modifyD (flattenAndSetTags (dns.Metadata props)) ;*
          ret None
      end
  end.

Definition resourceArmDnsAaaaRecordCreateOrUpdate : M W error :=
  let* d := getD in
  let name := rd_GetString d "name" in
  let resGroup := rd_GetString d "resource_group_name" in
  let zoneName := rd_GetString d "zone_name" in
  try* (if rd_IsNewResource d then
          let* (resp, err) :=
            remote (mkCall dnsClient GET [resGroup; zoneName; name; "AAAA"]) viewRecordSet
                   (recordSets_Get meta resGroup zoneName name) in
          if isSome err && negb (ResponseWasNotFound (dns.Response resp))
          then ret (Some (Errorf "Error checking for the existence of DNS AAAA Record %q (Zone %q / Resource Group %q): %+v"
                                 [name; zoneName; resGroup; fmt_error err]))
          else
            match dns.ID resp with
            | Some id => ret (Some (ImportAsExistsError "azurerm_dns_aaaa_record" id))
            | None => ret None
            end
        else ret None) in
  let ttl := Go.int64 (rd_GetInt d "ttl") in
  let tags := rd_GetMap d "tags" in
  let* (records, err) := liftRes (expandAzureRmDnsAaaaRecords d) in
  match err with
  | Some e => ret (Some e)
  | None =>
      let parameters :=
        {| dns.Response := None;
           dns.ID := None;
           dns.Name := Some name;
           dns.Properties :=
             Some {| dns.Metadata := expandTags tags;
                     dns.TTL := Some ttl;
                     dns.AaaaRecords := Some records |} |} in
      let eTag := EmptyString in
      let ifNoneMatch := EmptyString in
      let* (resp, err) :=
        remote (mkCall dnsClient WRITE [resGroup; zoneName; name; "AAAA"]) viewRecordSet
               (recordSets_CreateOrUpdate meta resGroup zoneName name parameters eTag ifNoneMatch) in
      match err with
      | Some e => ret (Some e)
      | None =>
          match dns.ID resp with
          | None =>
              ret (Some (Errorf "Cannot read DNS AAAA Record %s (resource group %s) ID"
                                [name; resGroup]))
          | Some id =>
              SetId id ;*
              resourceArmDnsAaaaRecordRead
          end
      end
  end.

Definition resourceArmDnsAaaaRecordDelete : M W error :=
  let* d := getD in
  match parseAzureResourceID env (rd_Id d) with
  | inr err => ret (Some err)
  | inl id =>
      let resGroup := ResourceGroup id in
      let name := pathOf id "AAAA" in
      let zoneName := pathOf id "dnszones" in
      let* (resp, error) :=
        remote (mkCall dnsClient DELETE [resGroup; zoneName; name; "AAAA"]) viewResponse
               (recordSets_Delete meta resGroup zoneName name EmptyString) in
      let* status := liftRes (statusCodeOf resp) in
      if negb (status =? StatusOK)
      then ret (Some (Errorf "Error deleting DNS AAAA Record %s: %+v" [name; fmt_error error]))
      else ret None
  end.

(** *** Traffic manager profile *)

Definition resourceArmTrafficManagerProfileRead : M W error :=
  let* d := getD in
  match parseAzureResourceID env (rd_Id d) with
  | inr err => ret (Some err)
  | inl id =>
      let resGroup := ResourceGroup id in
      let name := pathOf id "trafficManagerProfiles" in
      let* (resp, err) :=
        remote (mkCall trafficManagerProfilesClient GET [resGroup; name]) viewProfile
               (profiles_Get meta resGroup name) in
      match err with
      | Some _ =>
          if ResponseWasNotFound (trafficmanager.Response resp)
          then SetId EmptyString ;* ret None
          else ret (Some (Errorf "Error making Read request on Traffic Manager Profile %s: %+v"
                                 [name; fmt_error err]))
      | None =>
          let* profile := liftRes (deref (trafficmanager.Properties resp)) in
          Set_ "resource_group_name" (VString resGroup) ;*
          Set_ "name" (ofStringPtr (trafficmanager.Name resp)) ;*
          Set_ "profile_status" (VString (trafficmanager.ProfileStatus profile)) ;*
          Set_ "traffic_routing_method" (VString (trafficmanager.TrafficRoutingMethod profile)) ;*
          let* dnsFlat :=
            liftRes (flattenAzureRMTrafficManagerProfileDNSConfig (trafficmanager.DNSConfig_ profile)) in
          Set_ "dns_config" (schema_NewSet dnsFlat) ;*
          let* dnsConfig := liftRes (deref (trafficmanager.DNSConfig_ profile)) in
          Set_ "fqdn" (ofStringPtr (trafficmanager.Fqdn dnsConfig)) ;*
          let* monitorFlat :=
            liftRes (flattenAzureRMTrafficManagerProfileMonitorConfig
                       (trafficmanager.MonitorConfig_ profile)) in
          Set_ "monitor_config" (schema_NewSet monitorFlat) ;*
          modifyD (flattenAndSetTags (trafficmanager.Tags_ resp)) ;*
          ret None
      end
  end.

Definition resourceArmTrafficManagerProfileCreateUpdate : M W error :=
  let* d := getD in
  let name := rd_GetString d "name" in
  let resGroup := rd_GetString d "resource_group_name" in
  try* (if rd_IsNewResource d then
          let* (resp, err) :=
            remote (mkCall trafficManagerProfilesClient GET [resGroup; name]) viewProfile
                   (profiles_Get meta resGroup name) in
          if isSome err && negb (ResponseWasNotFound (trafficmanager.Response resp))
          then ret (Some (Errorf "Error checking for the existence of Traffic Manager Profile %q (Resource Group %q): %+v"
                                 [name; resGroup; fmt_error err]))
          else
            match trafficmanager.ID resp with
            | Some id => ret (Some (ImportAsExistsError "azurerm_traffic_manager_profile" id))
            | None => ret None
            end
        else ret None) in
  let location := "global" in
  let tags := rd_GetMap d "tags" in
  let* properties := liftRes (getArmTrafficManagerProfileProperties d) in
  let profile :=
    {| trafficmanager.Response := None;
       trafficmanager.ID := None;
       trafficmanager.Name := Some name;
       trafficmanager.Location := Some location;
       trafficmanager.Properties := properties;
       trafficmanager.Tags_ := expandTags tags |} in
  let* (_, err) :=
    remote (mkCall trafficManagerProfilesClient WRITE [resGroup; name]) viewProfile
           (profiles_CreateOrUpdate meta resGroup name profile) in
  match err with
  | Some e => ret (Some e)
  | None =>
      let* (read, err) :=
        remote (mkCall trafficManagerProfilesClient GET [resGroup; name]) viewProfile
               (profiles_Get meta resGroup name) in
      match err with
      | Some e => ret (Some e)
      | None =>
          match trafficmanager.ID read with
          | None =>
              ret (Some (Errorf "Cannot read TrafficManager profile %s (resource group %s) ID"
                                [name; resGroup]))
          | Some id =>
              SetId id ;*
              resourceArmTrafficManagerProfileRead
          end
      end
  end.

Definition resourceArmTrafficManagerProfileDelete : M W error :=
  let* d := getD in
  match parseAzureResourceID env (rd_Id d) with
  | inr err => ret (Some err)
  | inl id =>
      let resGroup := ResourceGroup id in
      let name := pathOf id "trafficManagerProfiles" in
      let* (resp, err) :=
        remote (mkCall trafficManagerProfilesClient DELETE [resGroup; name]) viewResponse
               (profiles_Delete meta resGroup name) in
      match err with
      | Some e =>
          if negb (ResponseWasNotFound resp) then ret (Some e) else ret None
      | None => ret None
      end
  end.

(** *** The adapters as the provider registers them *)

(** [schema.Resource]: the four operations of an adapter ([Update] is nil
    for the adapters whose fields all force a new resource). *)
Record Resource := {
  Create : M W error;
  Read : M W error;
  Update : option (M W error);
  Delete : M W error }.

Definition resourceArmSchedulerJobCollection : Resource :=
  {| Create := resourceArmSchedulerJobCollectionCreateUpdate;
     Read := resourceArmSchedulerJobCollectionRead;
     Update := Some resourceArmSchedulerJobCollectionCreateUpdate;
     Delete := resourceArmSchedulerJobCollectionDelete |}.

Definition resourceArmEventHubConsumerGroup : Resource :=
  {| Create := resourceArmEventHubConsumerGroupCreateUpdate;
     Read := resourceArmEventHubConsumerGroupRead;
     Update := Some resourceArmEventHubConsumerGroupCreateUpdate;
     Delete := resourceArmEventHubConsumerGroupDelete |}.

Definition resourceArmMetricAlertRule : Resource :=
  {| Create := resourceArmMetricAlertRuleCreateUpdate;
     Read := resourceArmMetricAlertRuleRead;
     Update := Some resourceArmMetricAlertRuleCreateUpdate;
     Delete := resourceArmMetricAlertRuleDelete |}.

Definition resourceArmDataLakeStoreFile : Resource :=
  {| Create := resourceArmDataLakeStoreFileCreate;
     Read := resourceArmDataLakeStoreFileRead;
     Update := None;
     Delete := resourceArmDataLakeStoreFileDelete |}.

Definition resourceArmRoleAssignment : Resource :=
  {| Create := resourceArmRoleAssignmentCreate;
     Read := resourceArmRoleAssignmentRead;
     Update := None;
     Delete := resourceArmRoleAssignmentDelete |}.

Definition resourceArmLogAnalyticsSolution : Resource :=
  {| Create := resourceArmLogAnalyticsSolutionCreateUpdate;
     Read := resourceArmLogAnalyticsSolutionRead;
     Update := Some resourceArmLogAnalyticsSolutionCreateUpdate;
     Delete := resourceArmLogAnalyticsSolutionDelete |}.

Definition resourceArmKeyVaultKey : Resource :=
  {| Create := resourceArmKeyVaultKeyCreate;
     Read := resourceArmKeyVaultKeyRead;
     Update := Some resourceArmKeyVaultKeyUpdate;
     Delete := resourceArmKeyVaultKeyDelete |}.

Definition resourceArmDnsAAAARecord : Resource :=
  {| Create := resourceArmDnsAaaaRecordCreateOrUpdate;
     Read := resourceArmDnsAaaaRecordRead;
     Update := Some resourceArmDnsAaaaRecordCreateOrUpdate;
     Delete := resourceArmDnsAaaaRecordDelete |}.

Definition resourceArmTrafficManagerProfile : Resource :=
  {| Create := resourceArmTrafficManagerProfileCreateUpdate;
     Read := resourceArmTrafficManagerProfileRead;
     Update := Some resourceArmTrafficManagerProfileCreateUpdate;
     Delete := resourceArmTrafficManagerProfileDelete |}.

End Adapters.

(** The adapters of the package, and the resource each is registered as. *)
Inductive Adapter :=
| SchedulerJobCollection
| EventHubConsumerGroup
| MetricAlertRule
| DataLakeStoreFile
| RoleAssignment
| LogAnalyticsSolution
| KeyVaultKey
| DnsAaaaRecord
| TrafficManagerProfile.

Definition resourceOf {W} (env : Env W) (meta : ArmClient W) (a : Adapter) : Resource :=
  match a with
  | SchedulerJobCollection => resourceArmSchedulerJobCollection env meta
  | EventHubConsumerGroup => resourceArmEventHubConsumerGroup env meta
  | MetricAlertRule => resourceArmMetricAlertRule env meta
  | DataLakeStoreFile => resourceArmDataLakeStoreFile env meta
  | RoleAssignment => resourceArmRoleAssignment env meta
  | LogAnalyticsSolution => resourceArmLogAnalyticsSolution env meta
  | KeyVaultKey => resourceArmKeyVaultKey env meta
  | DnsAaaaRecord => resourceArmDnsAAAARecord env meta
  | TrafficManagerProfile => resourceArmTrafficManagerProfile env meta
  end.

Definition resourceName (a : Adapter) : string :=
  match a with
  | SchedulerJobCollection => "azurerm_scheduler_job_collection"
  | EventHubConsumerGroup => "azurerm_eventhub_consumer_group"
  | MetricAlertRule => "azurerm_metric_alertrule"
  | DataLakeStoreFile => "azurerm_data_lake_store_file"
  | RoleAssignment => "azurerm_role_assignment"
  | LogAnalyticsSolution => "azurerm_log_analytics_solution"
  | KeyVaultKey => "azurerm_key_vault_key"
  | DnsAaaaRecord => "azurerm_dns_aaaa_record"
  | TrafficManagerProfile => "azurerm_traffic_manager_profile"
  end.

(** The client an adapter's own resource is reached through. *)
Definition clientOf (a : Adapter) : Client :=
  match a with
  | SchedulerJobCollection => schedulerJobCollectionsClient
  | EventHubConsumerGroup => eventHubConsumerGroupClient
  | MetricAlertRule => monitorAlertRulesClient
  | DataLakeStoreFile => dataLakeStoreFilesClient
  | RoleAssignment => roleAssignmentsClient
  | LogAnalyticsSolution => solutionsClient
  | KeyVaultKey => keyVaultManagementClient
  | DnsAaaaRecord => dnsClient
  | TrafficManagerProfile => trafficManagerProfilesClient
  end.

(** ** A scripted remote side

    A remote side whose state is the number of calls answered so far and
    whose [n]-th answer is given by a script; used to run the adapters on
    concrete inputs. *)

Record Answer := {
  ans_status : Z;
  ans_err : error;
  ans_id : option string;
  ans_name : option string }.

Definition answerResponse (a : Answer) : autorest_Response :=
  Some {| StatusCode := ans_status a |}.

Definition okAnswer (id : string) : Answer :=
  {| ans_status := 200; ans_err := None; ans_id := Some id; ans_name := None |}.

Definition notFoundAnswer : Answer :=
  {| ans_status := 404; ans_err := Some (SdkError "StatusCode=404"); ans_id := None; ans_name := None |}.

Definition failedAnswer (status : Z) : Answer :=
  {| ans_status := status; ans_err := Some (SdkError "request failed"); ans_id := None; ans_name := None |}.

Definition scripted {A} (script : nat -> Answer) (mk : Answer -> A) (n : nat) : A * error * nat :=
  (mk (script n), ans_err (script n), S n).

Definition scriptedClient (script : nat -> Answer) : ArmClient nat :=
  let jobCollection a :=
    {| scheduler.Response := answerResponse a; scheduler.ID := ans_id a;
       scheduler.Name := ans_name a; scheduler.Location := None;
       scheduler.Tags_ := ∅; scheduler.Properties := None |} in
  let schedulerFuture a := {| scheduler.future_Response := answerResponse a |} in
  let consumerGroup a :=
    {| eventhub.Response := answerResponse a; eventhub.ID := ans_id a;
       eventhub.Name := ans_name a;
       eventhub.Properties := Some {| eventhub.UserMetadata := None |} |} in
  let alertRule a :=
    {| insights.Response := answerResponse a; insights.ID := ans_id a;
       insights.Name := ans_name a; insights.Location := None;
       insights.Tags_ := ∅; insights.AlertRule_ := None |} in
  let fileStatus a := {| filesystem.Response := answerResponse a |} in
  let fileOperation a :=
    {| filesystem.op_Response := answerResponse a; filesystem.OperationResult := None |} in
  let roleAssignment a :=
    {| authorization.Response := answerResponse a; authorization.ID := ans_id a;
       authorization.Name := ans_name a; authorization.Properties := None |} in
  let roleDefinitions a :=
    [ {| authorization.def_ID := ans_id a; authorization.def_Name := ans_name a |} ] in
  let solution a :=
    {| operationsmanagement.Response := answerResponse a;
       operationsmanagement.ID := ans_id a;
       operationsmanagement.Name := ans_name a;
       operationsmanagement.Location := None;
       operationsmanagement.Plan :=
         Some {| operationsmanagement.plan_Name := ans_name a;
                 operationsmanagement.Publisher := Some "Microsoft";
                 operationsmanagement.PromotionCode := Some EmptyString;
                 operationsmanagement.Product := Some "OMSGallery/Containers" |};
       operationsmanagement.Properties := None |} in
  let solutionFuture a := {| operationsmanagement.future_Response := answerResponse a |} in
  let keyBundle a :=
    {| keyvault.Response := answerResponse a;
       keyvault.Key :=
         match ans_id a with
         | Some kid =>
             Some {| keyvault.Kid := Some kid; keyvault.Kty := "RSA";
                     keyvault.KeyOps := Some []; keyvault.N := None; keyvault.E := None |}
         | None => None
         end;
       keyvault.Tags_ := ∅ |} in
  let recordSet a :=
    {| dns.Response := answerResponse a; dns.ID := ans_id a; dns.Name := ans_name a;
       dns.Properties :=
         Some {| dns.Metadata := ∅; dns.TTL := Some 300; dns.AaaaRecords := Some [] |} |} in
  let profile a :=
    {| trafficmanager.Response := answerResponse a; trafficmanager.ID := ans_id a;
       trafficmanager.Name := ans_name a; trafficmanager.Location := None;
       trafficmanager.Tags_ := ∅; trafficmanager.Properties := None |} in
  {| jobCollections_Get := fun _ _ => scripted script jobCollection;
     jobCollections_CreateOrUpdate := fun _ _ _ => scripted script jobCollection;
     jobCollections_Delete := fun _ _ => scripted script schedulerFuture;
     jobCollections_WaitForCompletionRef := fun _ => scripted script schedulerFuture;
     consumerGroups_Get := fun _ _ _ _ => scripted script consumerGroup;
     consumerGroups_CreateOrUpdate := fun _ _ _ _ _ => scripted script consumerGroup;
     consumerGroups_Delete := fun _ _ _ _ => scripted script answerResponse;
     alertRules_Get := fun _ _ => scripted script alertRule;
     alertRules_CreateOrUpdate := fun _ _ _ => scripted script alertRule;
     alertRules_Delete := fun _ _ => scripted script answerResponse;
     AdlsFileSystemDNSSuffix := "azuredatalakestore.net";
     files_Create := fun _ _ _ => scripted script answerResponse;
     files_GetFileStatus := fun _ _ => scripted script fileStatus;
     files_Delete := fun _ _ => scripted script fileOperation;
     roleAssignments_Get := fun _ _ => scripted script roleAssignment;
     roleAssignments_GetByID := fun _ => scripted script roleAssignment;
     roleAssignments_Create := fun _ _ _ => scripted script roleAssignment;
     roleAssignments_Delete := fun _ _ => scripted script roleAssignment;
     roleDefinitions_List := fun _ _ => scripted script roleDefinitions;
     solutions_Get := fun _ _ => scripted script solution;
     solutions_CreateOrUpdate := fun _ _ _ => scripted script solutionFuture;
     solutions_Delete := fun _ _ => scripted script solutionFuture;
     solutions_WaitForCompletionRef := fun _ => scripted script solutionFuture;
     keys_GetKey := fun _ _ _ => scripted script keyBundle;
     keys_CreateKey := fun _ _ _ => scripted script keyBundle;
     keys_UpdateKey := fun _ _ _ _ => scripted script keyBundle;
     keys_DeleteKey := fun _ _ => scripted script keyBundle;
     recordSets_Get := fun _ _ _ => scripted script recordSet;
     recordSets_CreateOrUpdate := fun _ _ _ _ _ _ => scripted script recordSet;
     recordSets_Delete := fun _ _ _ _ => scripted script answerResponse;
     profiles_Get := fun _ _ => scripted script profile;
     profiles_CreateOrUpdate := fun _ _ _ => scripted script profile;
     profiles_Delete := fun _ _ => scripted script answerResponse |}.

(** Helpers that always succeed: every identifier parses to the resource
    group "rg" with an empty path, no generic tag complaint, one retry. *)
Definition sampleEnv : Env nat :=
  {| parseAzureResourceID := fun _ => inl {| ResourceGroup := "rg"; Path := ∅ |};
     parseKeyVaultChildID := fun _ =>
       inl {| KeyVaultBaseUrl := "https://vault.example/"; kv_Name := "key"; kv_Version := "1" |};
     url_Parse := fun s => inl {| url_Host := "acct.azuredatalakestore.net"; url_Path := "/f.txt" |};
     azureRMNormalizeLocation := strings.ToLower;
     validateAzureRMTags := fun _ _ => ([], []);
     uuid_GenerateUUID := fun n => ("00000000-0000-0000-0000-000000000000", None, n);
     os_Open := fun path n => (path, None, n);
     ioutil_ReadAll := fun _ n => ("contents", None, n);
     retryBudget := 1 |}.

Definition sampleData (id : string) (isNew : bool) (fields : gmap string Value) : ResourceData :=
  {| rd_Id := id; rd_IsNewResource := isNew; rd_fields := fields |}.

Definition start (d : ResourceData) : State nat :=
  {| world := 0%nat; rd := d; calls := [] |}.
From Stdlib Require DecimalString.

(** ** Further helpers of [loadbalancer.go] *)

Definition resourceGroupAndLBNameFromId {W} (env : Env W) (loadBalancerId : string)
    : string * string * error :=
  match parseAzureResourceID env loadBalancerId with
  | inr err => (EmptyString, EmptyString, Some err)
  | inl id =>
      let name := pathOf id "loadBalancers" in
      let resGroup := ResourceGroup id in
      (resGroup, name, None)
  end.

(** What [loadBalancerClient.Get] hands back: a [network.LoadBalancer]
    embeds the [autorest.Response] of the call. *)
Record LoadBalancerResult := {
  got_Response : autorest_Response;
  got_LoadBalancer : LoadBalancer }.

(** [retrieveLoadBalancerById]; [loadBalancers_Get] is the [Get] method of
    the load balancer client behind [meta], its last argument being the
    [expand] string. *)
Definition retrieveLoadBalancerById {W} (env : Env W)
    (loadBalancers_Get : string -> string -> string -> W -> LoadBalancerResult * error * W)
    (loadBalancerId : string) (w : W)
    : Res (option LoadBalancer * bool * error) * W :=
  let '(resGroup, name, err) := resourceGroupAndLBNameFromId env loadBalancerId in
  match err with
  | Some _ =>
      (Val (None, false,
            Some (Errorf "Error Getting Load Balancer Name and Group:: %+v" [fmt_error err])), w)
  | None =>
      let '(resp, err, w') := loadBalancers_Get resGroup name EmptyString w in
      match err with
      | Some _ =>
          (let! status := statusCodeOf (got_Response resp) in
           if status =? StatusNotFound
           then Val (None, false, None)
           else Val (None, false,
                     Some (Errorf "Error making Read request on Azure Load Balancer %s: %s"
                                  [name; fmt_error err])),
           w')
      | None => (Val (Some (got_LoadBalancer resp), true, None), w')
      end
  end.


(** ** The role definition name validator of the role assignment *)

Definition validateRoleDefinitionName (i : Value) (k : string) : list string * list Error :=
  match i with
  | VString v =>
      if strings.Contains v "(Preview)"
      then ([], [Errorf "Preview roles are not supported" []])
      else ([], [])
  | _ => ([], [Errorf "expected type of %s to be string" [k]])
  end.

(** ** Set hashes of the traffic manager profile's nested blocks *)


Section Hashes.
(** [hashcode.String] of the plugin SDK. *)
Variable hashcode_String : string -> Z.



End Hashes.

(** * Properties *)

(** ** Integer conversions *)




(** ** Load balancer lookups *)

Section RangeFind.
Context {A : Type} (getName : A -> option string).

Lemma nameIs_true n name : nameIs n name = true <-> n = Some name.
Proof.
  unfold nameIs. destruct n as [s|]; [|split; discriminate].
  rewrite String.eqb_eq. split; [intros ->; reflexivity | intros [= ->]; reflexivity].
Qed.

Lemma nameIs_false n name : nameIs n name = false <-> n <> Some name.
Proof.
  rewrite <- nameIs_true. destruct (nameIs n name); split; congruence.
Qed.

(** The loop started at index [i0] answers for the suffix it ranges over,
    with indices shifted by [i0]. *)
Lemma rangeFind_spec (xs : list A) name i0 :
  0 <= i0 ->
  let '(r, i, found) := rangeFind getName i0 xs name in
  (found = true <-> exists x, In x xs /\ getName x = Some name) /\
  (found = true ->
     exists x, r = Some x /\ i0 <= i < i0 + Go.len xs /\
       xs !! Z.to_nat (i - i0) = Some x /\ getName x = Some name /\
       forall j y, (j < Z.to_nat (i - i0))%nat -> xs !! j = Some y -> getName y <> Some name) /\
  (found = false -> r = None /\ i = -1).
Proof.
  revert i0. induction xs as [|x rest IH]; intros i0 Hi0; simpl.
  - split; [split; [discriminate | intros (x & [] & _)] |].
    split; [discriminate | auto].
  - destruct (nameIs (getName x) name) eqn:E.
    + apply nameIs_true in E.
      split; [split; [intros _; exists x; auto | reflexivity] |].
      split; [|discriminate].
      intros _. exists x. unfold Go.len. simpl length.
      replace (i0 - i0) with 0 by lia. simpl.
      repeat split; [lia | lia | exact E | intros j y Hj; lia].
    + apply nameIs_false in E.
      specialize (IH (i0 + 1) ltac:(lia)).
      destruct (rangeFind getName (i0 + 1) rest name) as [[r i] found].
      destruct IH as (IH1 & IH2 & IH3).
      split; [|split; [|exact IH3]].
      * rewrite IH1. split.
        -- intros (y & Hy & Hn). exists y. auto.
        -- intros (y & [-> | Hy] & Hn); [contradiction | exists y; auto].
      * intros Hf. destruct (IH2 Hf) as (y & -> & Hr & Hl & Hn & Hfirst).
        exists y. unfold Go.len in *. simpl length.
        assert (Ei : Z.to_nat (i - i0) = S (Z.to_nat (i - (i0 + 1)))) by lia.
        rewrite Ei. simpl.
        repeat split; [lia | lia | exact Hl | exact Hn |].
        intros [|j] z Hj Hz; simpl in Hz.
        -- injection Hz as <-. exact E.
        -- apply (Hfirst j z); [lia | exact Hz].
Qed.

Lemma rangeFind_LookupSpec (xs : list A) name :
  LookupSpec getName xs name (rangeFind getName 0 xs name).
Proof.
  pose proof (rangeFind_spec xs name 0 ltac:(lia)) as H.
  unfold LookupSpec. destruct (rangeFind getName 0 xs name) as [[r i] found].
  destruct H as (H1 & H2 & H3). split; [exact H1 | split; [|exact H3]].
  intros Hf. destruct (H2 Hf) as (x & -> & Hr & Hl & Hn & Hfirst).
  replace (i - 0) with i in * by lia.
  exists x. repeat split; [lia | lia | exact Hl | exact Hn | exact Hfirst].
Qed.

End RangeFind.

(** C8. [findLoadBalancerRuleByName] and
    [findLoadBalancerFrontEndIpConfigurationByName] never fail; they answer
    found exactly when some element of the collection has a non-nil name
    equal to the searched one, the index then being the in-bounds position
    of the first such element; when the load balancer, its properties or the
    collection pointer is nil they answer (nil, -1, false). *)
Theorem loadbalancer_lookups_total_and_correct (lb : option LoadBalancer) (name : string) :
  match lbCollection LoadBalancingRules lb with
  | Some rules => LookupSpec lbr_Name rules name (findLoadBalancerRuleByName lb name)
  | None => findLoadBalancerRuleByName lb name = (None, -1, false)
  end /\
  match lbCollection FrontendIPConfigurations lb with
  | Some feips =>
      LookupSpec feip_Name feips name (findLoadBalancerFrontEndIpConfigurationByName lb name)
  | None => findLoadBalancerFrontEndIpConfigurationByName lb name = (None, -1, false)
  end.
Proof.
  unfold lbCollection, findLoadBalancerRuleByName,
    findLoadBalancerFrontEndIpConfigurationByName.
  destruct lb as [l|]; [|split; reflexivity].
  destruct (lb_LoadBalancerPropertiesFormat l) as [props|]; [|split; reflexivity].
  split.
  - destruct (LoadBalancingRules props); [apply rangeFind_LookupSpec | reflexivity].
  - destruct (FrontendIPConfigurations props); [apply rangeFind_LookupSpec | reflexivity].
Qed.

(** ** Expand / flatten round trips *)









(** ** The scheduler job collection quota shim *)

(** The interval [expandAzureArmSchedulerJobCollectionQuota] reads out of a
    quota block: [max_recurrence_interval] when it is a positive int,
    otherwise [max_retry_interval] when that is a positive int. *)
Definition preferredInterval (quotaBlock : gmap string Value) : option Z :=
  match quotaBlock !! "max_recurrence_interval" with
  | Some (VInt v) =>
      if 0 <? v then Some v
      else match quotaBlock !! "max_retry_interval" with
           | Some (VInt u) => if 0 <? u then Some u else None
           | _ => None
           end
  | _ =>
      match quotaBlock !! "max_retry_interval" with
      | Some (VInt u) => if 0 <? u then Some u else None
      | _ => None
      end
  end.

Lemma flatten_quota_in_sync (q : scheduler.JobCollectionQuota)
    (r : scheduler.JobMaxRecurrence) (v : Z) :
  scheduler.MaxRecurrence q = Some r ->
  scheduler.Interval r = Some v ->
  exists quotaBlock,
    flattenAzureArmSchedulerJobCollectionQuota (Some q) = Some [VMap quotaBlock] /\
    quotaBlock !! "max_recurrence_interval" = Some (VInt32 v) /\
    quotaBlock !! "max_retry_interval" = Some (VInt32 v).
Proof.
  intros Hr Hv. unfold flattenAzureArmSchedulerJobCollectionQuota.
  rewrite Hr, Hv. eexists. split; [reflexivity|].
  split.
  - rewrite lookup_insert_ne by done. rewrite lookup_insert_ne by done.
    apply lookup_insert_eq.
  - rewrite lookup_insert_ne by done. apply lookup_insert_eq.
Qed.

Lemma expand_quota_prefers_recurrence (d : ResourceData)
    (quotaBlock : gmap string Value) (rest : list Value) :
  rd_Get d "quota" = Some (VList (VMap quotaBlock :: rest)) ->
  exists quota recurrence,
    expandAzureArmSchedulerJobCollectionQuota d = Val (Some quota) /\
    scheduler.MaxRecurrence quota = Some recurrence /\
    scheduler.Interval recurrence = Go.int32 <$> preferredInterval quotaBlock.
Proof.
  intros Hq. unfold expandAzureArmSchedulerJobCollectionQuota. rewrite Hq. simpl.
  eexists _, _. split; [reflexivity|]. split; [reflexivity|]. simpl.
  unfold preferredInterval, intOk.
  destruct (quotaBlock !! "max_recurrence_interval") as [[]|];
    destruct (quotaBlock !! "max_retry_interval") as [[]|]; simpl;
    repeat match goal with |- context [0 <? ?x] => destruct (0 <? x) end; reflexivity.
Qed.

(** C10. Flattening a quota whose recurrence interval is non-nil writes that
    value under both [max_recurrence_interval] and [max_retry_interval];
    expanding takes a positive [max_recurrence_interval] and falls back to
    [max_retry_interval] only when the former is absent or not positive; an
    empty quota block list expands to nil and a nil quota flattens to nil. *)
Theorem quota_shim_keeps_deprecated_field_in_sync :
  (forall (q : scheduler.JobCollectionQuota) (r : scheduler.JobMaxRecurrence) (v : Z),
     scheduler.MaxRecurrence q = Some r ->
     scheduler.Interval r = Some v ->
     exists quotaBlock,
       flattenAzureArmSchedulerJobCollectionQuota (Some q) = Some [VMap quotaBlock] /\
       quotaBlock !! "max_recurrence_interval" = Some (VInt32 v) /\
       quotaBlock !! "max_retry_interval" = Some (VInt32 v)) /\
  (forall (d : ResourceData) (quotaBlock : gmap string Value) (rest : list Value),
     rd_Get d "quota" = Some (VList (VMap quotaBlock :: rest)) ->
     exists quota recurrence,
       expandAzureArmSchedulerJobCollectionQuota d = Val (Some quota) /\
       scheduler.MaxRecurrence quota = Some recurrence /\
       scheduler.Interval recurrence = Go.int32 <$> preferredInterval quotaBlock /\
       (forall v, quotaBlock !! "max_recurrence_interval" = Some (VInt v) -> 0 < v ->
                  preferredInterval quotaBlock = Some v) /\
       (forall u, preferredInterval quotaBlock = Some u ->
                  quotaBlock !! "max_recurrence_interval" <> Some (VInt u) ->
                  quotaBlock !! "max_retry_interval" = Some (VInt u) /\ 0 < u /\
                  forall v, quotaBlock !! "max_recurrence_interval" = Some (VInt v) -> v <= 0)) /\
  (forall d : ResourceData,
     rd_Get d "quota" = Some (VList []) ->
     expandAzureArmSchedulerJobCollectionQuota d = Val None) /\
  flattenAzureArmSchedulerJobCollectionQuota None = None.
Proof.
  split; [exact flatten_quota_in_sync|].
  split; [|split; [|reflexivity]].
  - intros d quotaBlock rest Hq.
    destruct (expand_quota_prefers_recurrence d quotaBlock rest Hq)
      as (quota & recurrence & H1 & H2 & H3).
    exists quota, recurrence. split; [exact H1|]. split; [exact H2|]. split; [exact H3|].
    split.
    + intros v Hv Hpos. unfold preferredInterval. rewrite Hv.
      destruct (0 <? v) eqn:E; [reflexivity | apply Z.ltb_ge in E; lia].
    + intros u Hu Hne. unfold preferredInterval in Hu.
      destruct (quotaBlock !! "max_recurrence_interval") as [[| |v| | | | | | | | |]|] eqn:Erec;
        try (destruct (quotaBlock !! "max_retry_interval") as [[| |w| | | | | | | | |]|];
             try discriminate;
             destruct (0 <? w) eqn:Ew; [|discriminate];
             injection Hu as ->; apply Z.ltb_lt in Ew;
             split; [reflexivity | split; [exact Ew | intros v' [=]]]).
      destruct (0 <? v) eqn:Ev.
      * injection Hu as ->. contradiction.
      * apply Z.ltb_ge in Ev.
        destruct (quotaBlock !! "max_retry_interval") as [[| |w| | | | | | | | |]|];
          try discriminate.
        destruct (0 <? w) eqn:Ew; [|discriminate].
        injection Hu as ->. apply Z.ltb_lt in Ew.
        split; [reflexivity | split; [exact Ew | intros v' [= <-]; exact Ev]].
  - intros d Hq. unfold expandAzureArmSchedulerJobCollectionQuota. by rewrite Hq.
Qed.

(** A quota block holding both fields (5 and 9) expands to 5; one whose
    [max_recurrence_interval] is 0 expands to the 9 of the deprecated
    field; a remote interval of 7 flattens into both fields. *)
Lemma quota_shim_keeps_deprecated_field_in_sync_witness :
  (exists quotaBlock,
     flattenAzureArmSchedulerJobCollectionQuota
       (Some {| scheduler.MaxJobCount := None;
                scheduler.MaxRecurrence :=
                  Some {| scheduler.Frequency := "Week"; scheduler.Interval := Some 7 |} |})
       = Some [VMap quotaBlock] /\
     quotaBlock !! "max_recurrence_interval" = Some (VInt32 7) /\
     quotaBlock !! "max_retry_interval" = Some (VInt32 7)) /\
  preferredInterval (<["max_recurrence_interval" := VInt 5]> (<["max_retry_interval" := VInt 9]> ∅))
    = Some 5 /\
  preferredInterval (<["max_recurrence_interval" := VInt 0]> (<["max_retry_interval" := VInt 9]> ∅))
    = Some 9.
Proof.
  destruct quota_shim_keeps_deprecated_field_in_sync as (Hflat & Hexp & _ & _).
  split; [|split].
  - apply (Hflat _ {| scheduler.Frequency := "Week"; scheduler.Interval := Some 7 |} 7);
      reflexivity.
  - pose (quotaBlock := <["max_recurrence_interval" := VInt 5]>
                          (<["max_retry_interval" := VInt 9]> (∅ : gmap string Value))).
    destruct (Hexp (sampleData "id" false (<["quota" := VList [VMap quotaBlock]]> ∅))
                   quotaBlock [] (lookup_insert_eq _ _ _))
      as (_ & _ & _ & _ & _ & Hpref & _).
    apply (Hpref 5); [reflexivity | lia].
  - reflexivity.
Defined.

(** ** Tag validation of the metric alert rule *)

Definition reservedTagError (k : string) : Error :=
  Errorf "the %q is not allowed as tag name" [k].

Definition isReservedTag (k : string) : Prop := strings.EqualFold k "$type" = true.

Lemma reserved_tag_loop (order : list string) (es : list Error) :
  foldl (fun es k =>
           if strings.EqualFold k "$type"
           then es ++ [Errorf "the %q is not allowed as tag name" [k]]
           else es) es order
  = es ++ (reservedTagError <$> filter isReservedTag order).
Proof.
  revert es. induction order as [|k order IH]; intros es; simpl.
  - by rewrite app_nil_r.
  - rewrite IH. destruct (strings.EqualFold k "$type") eqn:E.
    + rewrite (filter_cons_True isReservedTag) by exact E. simpl. by rewrite <- app_assoc.
    + rewrite (filter_cons_False isReservedTag) by (unfold isReservedTag; congruence).
      reflexivity.
Qed.

(** C6. Validation of a tag map rejects the reserved key: for every key of
    the map equal to "$type" up to case an error naming that key is
    returned, and when the map has no such key the errors are exactly those
    of the generic tag validation (no reserved-key error is added),
    whatever the order in which the map is ranged over. *)
Theorem reserved_tag_key_rejected {W} (env : Env W) (tags : gmap string Value)
    (order : list string) (f : string) :
  order ≡ₚ elements (dom tags) ->
  (validateMetricAlertRuleTags env order tags f).1 = (validateAzureRMTags env tags f).1 /\
  (validateMetricAlertRuleTags env order tags f).2
    = (validateAzureRMTags env tags f).2 ++ (reservedTagError <$> filter isReservedTag order) /\
  (forall k, k ∈ dom tags -> strings.EqualFold k "$type" = true ->
     reservedTagError k ∈ (validateMetricAlertRuleTags env order tags f).2) /\
  ((forall k, k ∈ dom tags -> strings.EqualFold k "$type" = false) ->
     validateMetricAlertRuleTags env order tags f = validateAzureRMTags env tags f).
Proof.
  intros Hperm. unfold validateMetricAlertRuleTags.
  destruct (validateAzureRMTags env tags f) as [ws es]. simpl.
  rewrite reserved_tag_loop.
  split; [reflexivity|]. split; [reflexivity|]. split.
  - intros k Hk Hfold. apply elem_of_app. right.
    apply list_elem_of_fmap. exists k. split; [reflexivity|].
    apply list_elem_of_filter. split; [exact Hfold|].
    rewrite Hperm. by apply elem_of_elements.
  - intros Hnone. f_equal.
    assert (Hnil : filter isReservedTag order = []).
    { destruct (filter isReservedTag order) as [|k rest] eqn:E; [reflexivity|].
      assert (Hk : k ∈ filter isReservedTag order) by (rewrite E; apply list_elem_of_here).
      apply list_elem_of_filter in Hk. destruct Hk as [Hres Hk].
      rewrite Hperm in Hk. apply elem_of_elements in Hk.
      unfold isReservedTag in Hres. rewrite (Hnone k Hk) in Hres. discriminate. }
    rewrite Hnil. apply app_nil_r.
Qed.

(** A map holding the key "$Type" next to an ordinary key. *)
Lemma reserved_tag_key_rejected_witness :
  reservedTagError "$Type" ∈
    (validateMetricAlertRuleTags sampleEnv
       (elements (dom (<["$Type" := VString "x"]> (<["env" := VString "prod"]> (∅ : gmap string Value)))))
       (<["$Type" := VString "x"]> (<["env" := VString "prod"]> ∅)) "tags").2.
Proof.
  pose (tags := <["$Type" := VString "x"]> (<["env" := VString "prod"]> (∅ : gmap string Value))).
  destruct (reserved_tag_key_rejected sampleEnv tags (elements (dom tags)) "tags"
              (reflexivity _)) as (_ & _ & Hnamed & _).
  apply (Hnamed "$Type"); [|reflexivity].
  apply elem_of_dom. exists (VString "x"). apply lookup_insert_eq.
Defined.

(** ** Running an operation *)

(** Unfolds the plumbing of an operation (not the operations themselves). *)
Ltac exec_in H :=
  cbv [bind ret liftRes getD modifyD SetId Set_ remote local mkCall
       world rd calls rd_SetId rd_Set flattenAndSetTags
       rd_Id rd_IsNewResource rd_fields
       viewOf viewResponse viewJobCollection viewSchedulerFuture viewConsumerGroup
       viewAlertRule viewFileStatus viewFileOperation viewRoleAssignment
       viewRoleDefinitions viewSolution viewSolutionFuture viewKeyBundle
       viewRecordSet viewProfile fst snd isSome negb andb] in H.

(** Case analysis on the next thing the operation looks at. *)
Ltac break_in H :=
  match type of H with
  | context [match ?x with _ => _ end] =>
      lazymatch x with
      | context [match _ with _ => _ end] => fail
      | _ => destruct x eqn:?
      end
  end.

Ltac run_in H := exec_in H; repeat (break_in H; exec_in H; simplify_eq).

Ltac call_facts :=
  cbv [reportsNotFound failed isGet isWrite call_outcome call_verb call_client
       out_err out_response out_id isSome andb negb clientOf].

(** ** Read and the remote not-found *)

(** What Read leaves behind when started in [st]: either no call was issued
    (the stored identifier did not parse) and the identifier is untouched,
    or exactly one call was issued, a GET on the adapter's client; if that
    GET reported not-found the identifier is now empty and no error is
    returned, otherwise the identifier is untouched. *)
Definition ReadOutcome {W} (a : Adapter) (st : State W) (res : Res error * State W) : Prop :=
  let '(r, st') := res in
  (calls st' = calls st /\ rd_Id (rd st') = rd_Id (rd st)) \/
  (exists g, calls st' = calls st ++ [g] /\ isGet g = true /\ call_client g = clientOf a /\
     if reportsNotFound g
     then r = Val None /\ rd_Id (rd st') = EmptyString
     else rd_Id (rd st') = rd_Id (rd st)).

Ltac read_outcome :=
  first
    [ left; split; reflexivity
    | right; eexists; split; [reflexivity|]; call_facts;
      repeat match goal with
             | H : ?x = _ |- context [?x] => rewrite H
             end;
      repeat split; reflexivity ].

Section ReadLemmas.
Context {W : Type} (env : Env W) (meta : ArmClient W).

Lemma read_scheduler st :
  ReadOutcome SchedulerJobCollection st (resourceArmSchedulerJobCollectionRead env meta st).
Proof.
  destruct (resourceArmSchedulerJobCollectionRead env meta st) as [r st'] eqn:H.
  unfold resourceArmSchedulerJobCollectionRead in H. destruct st as [w d cs].
  run_in H; read_outcome.
Qed.

Lemma read_eventhub st :
  ReadOutcome EventHubConsumerGroup st (resourceArmEventHubConsumerGroupRead env meta st).
Proof.
  destruct (resourceArmEventHubConsumerGroupRead env meta st) as [r st'] eqn:H.
  unfold resourceArmEventHubConsumerGroupRead in H. destruct st as [w d cs].
  run_in H; read_outcome.
Qed.

Lemma read_metric_alert st :
  ReadOutcome MetricAlertRule st (resourceArmMetricAlertRuleRead env meta st).
Proof.
  destruct (resourceArmMetricAlertRuleRead env meta st) as [r st'] eqn:H.
  unfold resourceArmMetricAlertRuleRead in H. destruct st as [w d cs].
  run_in H; read_outcome.
Qed.

Lemma read_data_lake st :
  ReadOutcome DataLakeStoreFile st (resourceArmDataLakeStoreFileRead env meta st).
Proof.
  destruct (resourceArmDataLakeStoreFileRead env meta st) as [r st'] eqn:H.
  unfold resourceArmDataLakeStoreFileRead in H. destruct st as [w d cs].
  run_in H; read_outcome.
Qed.

Lemma read_role_assignment st :
  ReadOutcome RoleAssignment st (resourceArmRoleAssignmentRead meta st).
Proof.
  destruct (resourceArmRoleAssignmentRead meta st) as [r st'] eqn:H.
  unfold resourceArmRoleAssignmentRead in H. destruct st as [w d cs].
  run_in H; read_outcome.
Qed.

Lemma read_log_analytics st :
  ReadOutcome LogAnalyticsSolution st (resourceArmLogAnalyticsSolutionRead env meta st).
Proof.
  destruct (resourceArmLogAnalyticsSolutionRead env meta st) as [r st'] eqn:H.
  unfold resourceArmLogAnalyticsSolutionRead, readSolutionName in H. destruct st as [w d cs].
  run_in H; read_outcome.
Qed.

Lemma read_key_vault st :
  ReadOutcome KeyVaultKey st (resourceArmKeyVaultKeyRead env meta st).
Proof.
  destruct (resourceArmKeyVaultKeyRead env meta st) as [r st'] eqn:H.
  unfold resourceArmKeyVaultKeyRead in H. destruct st as [w d cs].
  run_in H; read_outcome.
Qed.

Lemma read_dns st :
  ReadOutcome DnsAaaaRecord st (resourceArmDnsAaaaRecordRead env meta st).
Proof.
  destruct (resourceArmDnsAaaaRecordRead env meta st) as [r st'] eqn:H.
  unfold resourceArmDnsAaaaRecordRead in H. destruct st as [w d cs].
  run_in H; read_outcome.
Qed.

Lemma read_traffic_manager st :
  ReadOutcome TrafficManagerProfile st (resourceArmTrafficManagerProfileRead env meta st).
Proof.
  destruct (resourceArmTrafficManagerProfileRead env meta st) as [r st'] eqn:H.
  unfold resourceArmTrafficManagerProfileRead in H. destruct st as [w d cs].
  run_in H; read_outcome.
Qed.

Lemma read_outcome_all (a : Adapter) st :
  ReadOutcome a st (Read (resourceOf env meta a) st).
Proof.
  destruct a; simpl.
  - apply read_scheduler.
  - apply read_eventhub.
  - apply read_metric_alert.
  - apply read_data_lake.
  - apply read_role_assignment.
  - apply read_log_analytics.
  - apply read_key_vault.
  - apply read_dns.
  - apply read_traffic_manager.
Qed.

End ReadLemmas.


(** ** Delete and the remote not-found *)

Ltac call_facts_all :=
  cbv [reportsNotFound failed isGet isWrite call_outcome call_verb call_client
       out_err out_response out_id isSome andb negb clientOf] in *.

(** The calls an operation added to those of its starting state. *)
Ltac new_calls :=
  first [ exists []; split; [symmetry; apply app_nil_r|]
        | eexists; split; [reflexivity|]
        | eexists; split; [rewrite <- app_assoc; reflexivity|] ].

Ltac settle :=
  set_unfold; destruct_or?; subst; call_facts_all; simpl in *;
  repeat match goal with
         | H : True -> _ |- _ => specialize (H I)
         | H : ?x = ?x -> _ |- _ => specialize (H eq_refl)
         end;
  repeat match goal with
         | H : ?x = _ |- _ => rewrite H in *
         end;
  simpl in *; try discriminate; try tauto; eauto.

(** Delete treats the remote not-found as success: when the DELETE call
    reports not-found, and nothing failed in another way, no error is
    returned; a call that failed in another way makes Delete return an
    error. *)
Definition DeleteTreatsNotFoundAsSuccess {W} (st : State W) (res : Res error * State W) : Prop :=
  let '(r, st') := res in
  exists new, calls st' = calls st ++ new /\
    ((exists c, c ∈ new /\ call_verb c = DELETE /\ reportsNotFound c = true) ->
     (forall c, c ∈ new -> failed c = true -> reportsNotFound c = true) -> r = Val None) /\
    ((exists c, c ∈ new /\ failed c = true /\ reportsNotFound c = false) ->
     exists e, r = Val (Some e)).

(** Delete hands back whatever error the DELETE call returned. *)
Definition DeleteSurfacesEveryError {W} (st : State W) (res : Res error * State W) : Prop :=
  let '(r, st') := res in
  (calls st' = calls st /\ exists e, r = Val (Some e)) \/
  (exists c, calls st' = calls st ++ [c] /\ call_verb c = DELETE /\
     r = Val (out_err (call_outcome c))).

(** Delete answers by the status of the response alone: anything but 200, a
    404 included, is an error. *)
Definition DeleteAnswersByStatus {W} (st : State W) (res : Res error * State W) : Prop :=
  let '(r, st') := res in
  (calls st' = calls st /\ exists e, r = Val (Some e)) \/
  (exists c, calls st' = calls st ++ [c] /\ call_verb c = DELETE /\
     match out_response (call_outcome c) with
     | Some resp =>
         if StatusCode resp =? StatusOK then r = Val None else exists e, r = Val (Some e)
     | None => exists msg, r = Panic msg
     end).

(** Delete returns an error whenever the DELETE call itself fails, and
    treats not-found as success only when it is reported while waiting for
    completion. *)
Definition DeleteToleratesNotFoundWhileWaiting {W} (st : State W)
    (res : Res error * State W) : Prop :=
  let '(r, st') := res in
  (calls st' = calls st /\ exists e, r = Val (Some e)) \/
  (exists c, calls st' = calls st ++ [c] /\ call_verb c = DELETE /\ failed c = true /\
     exists e, r = Val (Some e)) \/
  (exists c k, calls st' = calls st ++ [c; k] /\ call_verb c = DELETE /\ failed c = false /\
     call_verb k = WAIT /\
     if failed k && negb (reportsNotFound k) then exists e, r = Val (Some e) else r = Val None).

(** What Delete does about remote failures, adapter by adapter. *)
Definition DeleteContract {W} (a : Adapter) (st : State W) (res : Res error * State W) : Prop :=
  match a with
  | SchedulerJobCollection | EventHubConsumerGroup | MetricAlertRule
  | DataLakeStoreFile | RoleAssignment | TrafficManagerProfile =>
      DeleteTreatsNotFoundAsSuccess st res
  | KeyVaultKey => DeleteSurfacesEveryError st res
  | DnsAaaaRecord => DeleteAnswersByStatus st res
  | LogAnalyticsSolution => DeleteToleratesNotFoundWhileWaiting st res
  end.

Ltac delete_outcome H :=
  run_in H; unfold DeleteTreatsNotFoundAsSuccess; cbv [calls]; new_calls;
  (split; [intros (c & Hin & Hv & Hnf) ? | intros (c & Hin & Hf & Hnf)]);
  try match goal with
      | Hall : forall c, c ∈ _ -> _ |- _ =>
          try (pose proof (Hall _ (list_elem_of_here _ _)));
          try (pose proof (Hall _ (list_elem_of_further _ _ _ (list_elem_of_here _ _))))
      end;
  settle.

Section DeleteLemmas.
Context {W : Type} (env : Env W) (meta : ArmClient W).

Lemma delete_scheduler st :
  DeleteTreatsNotFoundAsSuccess st (resourceArmSchedulerJobCollectionDelete env meta st).
Proof.
  destruct (resourceArmSchedulerJobCollectionDelete env meta st) as [r st'] eqn:H.
  unfold resourceArmSchedulerJobCollectionDelete in H. destruct st as [w d cs].
  delete_outcome H.
Qed.

Lemma delete_eventhub st :
  DeleteTreatsNotFoundAsSuccess st (resourceArmEventHubConsumerGroupDelete env meta st).
Proof.
  destruct (resourceArmEventHubConsumerGroupDelete env meta st) as [r st'] eqn:H.
  unfold resourceArmEventHubConsumerGroupDelete in H. destruct st as [w d cs].
  delete_outcome H.
Qed.

Lemma delete_metric_alert st :
  DeleteTreatsNotFoundAsSuccess st (resourceArmMetricAlertRuleDelete env meta st).
Proof.
  destruct (resourceArmMetricAlertRuleDelete env meta st) as [r st'] eqn:H.
  unfold resourceArmMetricAlertRuleDelete in H. destruct st as [w d cs].
  delete_outcome H.
Qed.

Lemma delete_data_lake st :
  DeleteTreatsNotFoundAsSuccess st (resourceArmDataLakeStoreFileDelete env meta st).
Proof.
  destruct (resourceArmDataLakeStoreFileDelete env meta st) as [r st'] eqn:H.
  unfold resourceArmDataLakeStoreFileDelete in H. destruct st as [w d cs].
  delete_outcome H.
Qed.

Lemma delete_role_assignment st :
  DeleteTreatsNotFoundAsSuccess st (resourceArmRoleAssignmentDelete meta st).
Proof.
  destruct (resourceArmRoleAssignmentDelete meta st) as [r st'] eqn:H.
  unfold resourceArmRoleAssignmentDelete in H. destruct st as [w d cs].
  delete_outcome H.
Qed.

Lemma delete_traffic_manager st :
  DeleteTreatsNotFoundAsSuccess st (resourceArmTrafficManagerProfileDelete env meta st).
Proof.
  destruct (resourceArmTrafficManagerProfileDelete env meta st) as [r st'] eqn:H.
  unfold resourceArmTrafficManagerProfileDelete in H. destruct st as [w d cs].
  delete_outcome H.
Qed.

Lemma delete_key_vault st :
  DeleteSurfacesEveryError st (resourceArmKeyVaultKeyDelete env meta st).
Proof.
  unfold DeleteSurfacesEveryError.
  destruct (resourceArmKeyVaultKeyDelete env meta st) as [r st'] eqn:H.
  unfold resourceArmKeyVaultKeyDelete in H. destruct st as [w d cs].
  run_in H; cbv beta iota; cbv [calls].
  - right. eauto.
  - left. eauto.
Qed.

Lemma delete_dns st :
  DeleteAnswersByStatus st (resourceArmDnsAaaaRecordDelete env meta st).
Proof.
  unfold DeleteAnswersByStatus.
  destruct (resourceArmDnsAaaaRecordDelete env meta st) as [r st'] eqn:H.
  unfold resourceArmDnsAaaaRecordDelete, statusCodeOf in H. destruct st as [w d cs].
  run_in H; cbv beta iota; cbv [calls]; try (left; eauto; fail);
    right; eexists; (split; [reflexivity|]); (split; [reflexivity|]); simpl;
    repeat match goal with H : ?x = _ |- context [?x] => rewrite H end; eauto.
Qed.

Lemma delete_log_analytics st :
  DeleteToleratesNotFoundWhileWaiting st (resourceArmLogAnalyticsSolutionDelete env meta st).
Proof.
  unfold DeleteToleratesNotFoundWhileWaiting.
  destruct (resourceArmLogAnalyticsSolutionDelete env meta st) as [r st'] eqn:H.
  unfold resourceArmLogAnalyticsSolutionDelete in H. destruct st as [w d cs].
  run_in H; cbv beta iota; cbv [calls].
  all: first
    [ solve [left; eauto]
    | solve [right; left; eexists; repeat split; eauto]
    | right; right; eexists _, _; (split; [rewrite <- app_assoc; reflexivity|]);
      call_facts_all; simpl;
      repeat match goal with H : ?x = _ |- context [?x] => rewrite H end;
      simpl; eauto 6 ].
Qed.

End DeleteLemmas.

(** C2, as the code has it. Delete treats the remote not-found as success
    and surfaces every other remote failure for the scheduler job
    collection, event hub consumer group, metric alert rule, data lake store
    file, role assignment and traffic manager profile adapters. The key
    vault key adapter returns whatever error the DELETE call returned, the
    DNS AAAA record adapter returns an error for every response status other
    than 200, and the log analytics solution adapter accepts not-found only
    while waiting for completion. *)
Theorem delete_contract_per_adapter {W} (env : Env W) (meta : ArmClient W)
    (a : Adapter) (st : State W) :
  DeleteContract a st (Delete (resourceOf env meta a) st).
Proof.
  destruct a; simpl.
  - apply delete_scheduler.
  - apply delete_eventhub.
  - apply delete_metric_alert.
  - apply delete_data_lake.
  - apply delete_role_assignment.
  - apply delete_log_analytics.
  - apply delete_key_vault.
  - apply delete_dns.
  - apply delete_traffic_manager.
Qed.

(** Deleting an event hub consumer group that is already gone (the DELETE
    call answers 404) returns no error. *)
Lemma delete_contract_per_adapter_witness :
  DeleteTreatsNotFoundAsSuccess (start (sampleData "id" false ∅))
    (Delete (resourceOf sampleEnv (scriptedClient (fun _ => notFoundAnswer))
                        EventHubConsumerGroup)
            (start (sampleData "id" false ∅))).
Proof.
  exact (delete_contract_per_adapter sampleEnv (scriptedClient (fun _ => notFoundAnswer))
           EventHubConsumerGroup (start (sampleData "id" false ∅))).
Defined.

(** C2 as stated fails: deleting a DNS AAAA record that is already gone (the
    DELETE call answers 404) returns an error. *)
Lemma delete_dns_not_found_is_an_error :
  ~ DeleteTreatsNotFoundAsSuccess (start (sampleData "id" false ∅))
      (Delete (resourceOf sampleEnv (scriptedClient (fun _ => notFoundAnswer)) DnsAaaaRecord)
              (start (sampleData "id" false ∅))).
Proof.
  intros (new & Hnew & Hok & _). simpl in Hnew. subst new.
  assert (Hr : @Val error (Some (Errorf "Error deleting DNS AAAA Record %s: %+v"
                                        [EmptyString; "StatusCode=404"])) = Val None).
  { apply Hok.
    - eexists. split; [apply list_elem_of_here|]. split; reflexivity.
    - intros c Hc _. apply list_elem_of_singleton in Hc. subst c. reflexivity. }
  discriminate Hr.
Qed.

(** ** The retry loop of the role assignment *)

(** The calls of one run of the retry loop with room for [budget] further
    attempts, and its result: between one and [budget + 1] create calls on
    the role assignments client, all but the last of which failed; the
    result is the error of the last one (nil when it succeeded), and the
    last one may only have failed when the budget is used up. *)
Definition RetryTrace (budget : nat) (r : Res error) (ws : list Call) : Prop :=
  Forall (fun c => isWrite c = true /\ call_client c = roleAssignmentsClient) ws /\
  (1 <= length ws <= S budget)%nat /\
  exists attempts last,
    ws = attempts ++ [last] /\
    Forall (fun c => failed c = true) attempts /\
    r = Val (out_err (call_outcome last)) /\
    (failed last = true -> length ws = S budget).

(** One call of the function handed to the retry loop: a failed create is
    always classified as retryable, a successful one ends with nil. *)
Lemma retry_function_classifies {W} (meta : ArmClient W) scope name properties (st : State W) :
  exists w,
    retryRoleAssignmentsClient meta scope name properties st
      = (Val (match out_err (call_outcome w) with
              | Some e => RetryableError e
              | None => None
              end),
         {| world := world (snd (retryRoleAssignmentsClient meta scope name properties st));
            rd := rd st; calls := calls st ++ [w] |}) /\
    isWrite w = true /\ call_client w = roleAssignmentsClient /\
    call_args w = [scope; name].
Proof.
  unfold retryRoleAssignmentsClient. destruct st as [w d cs].
  cbv [bind remote mkCall world rd calls ret viewRoleAssignment viewOf fst snd].
  destruct (roleAssignments_Create meta scope name properties w) as [[resp err] w'].
  exists (mkCall roleAssignmentsClient WRITE [scope; name] (viewRoleAssignment (resp, err))).
  split; [|repeat split].
  destruct err; reflexivity.
Qed.

Lemma retry_trace {W} (meta : ArmClient W) scope name properties (budget : nat) (st : State W) :
  let '(r, st') := Retry budget (retryRoleAssignmentsClient meta scope name properties) st in
  rd st' = rd st /\ exists ws, calls st' = calls st ++ ws /\ RetryTrace budget r ws.
Proof.
  revert st. induction budget as [|n IH]; intros st;
    destruct (retry_function_classifies meta scope name properties st)
      as (w & Hstep & Hw & Hclient & _);
    simpl; unfold bind at 1; rewrite Hstep.
  - destruct (out_err (call_outcome w)) as [e|] eqn:Herr; simpl; unfold ret.
    + split; [reflexivity|]. exists [w]. split; [reflexivity|].
      split; [repeat constructor; done|]. split; [simpl; lia|].
      exists [], w. rewrite Herr. repeat split; auto.
    + split; [reflexivity|]. exists [w]. split; [reflexivity|].
      split; [repeat constructor; done|]. split; [simpl; lia|].
      exists [], w. rewrite Herr. repeat split; auto.
      all: unfold failed; rewrite Herr; discriminate.
  - destruct (out_err (call_outcome w)) as [e|] eqn:Herr; simpl.
    + match goal with
      | |- context [Retry n ?f ?s] =>
          specialize (IH s); destruct (Retry n f s) as [r st'] eqn:Hloop
      end.
      destruct IH as (Hrd & ws & Hcalls & Hall & Hlen & attempts & last & -> & Hfailed & -> & Hbudget).
      simpl in Hrd, Hcalls. split; [exact Hrd|].
      exists (w :: attempts ++ [last]). split; [rewrite Hcalls, <- app_assoc; reflexivity|].
      split; [constructor; [done | exact Hall]|]. split; [simpl in *; lia|].
      exists (w :: attempts), last. split; [reflexivity|].
      split; [constructor; [unfold failed; by rewrite Herr | exact Hfailed]|].
      split; [reflexivity|]. intros Hlast. simpl. rewrite (Hbudget Hlast). reflexivity.
    + unfold ret. split; [reflexivity|]. exists [w]. split; [reflexivity|].
      split; [repeat constructor; done|]. split; [simpl; lia|].
      exists [], w. rewrite Herr. repeat split; auto.
      all: unfold failed; rewrite Herr; discriminate.
Qed.

Lemma retry_extends {W} (meta : ArmClient W) scope name properties budget (st : State W) r st' :
  Retry budget (retryRoleAssignmentsClient meta scope name properties) st = (r, st') ->
  rd st' = rd st /\ exists ws, calls st' = calls st ++ ws /\ RetryTrace budget r ws.
Proof.
  intros H. pose proof (retry_trace meta scope name properties budget st) as Ht.
  by rewrite H in Ht.
Qed.

(** ** Create and the existence pre-check *)

Section Occurrences.
Context {A : Type} (P : A -> Prop).

(** The first element satisfying [P] is where it is. *)
Lemma first_hit pre x post pfx y tail :
  pre ++ x :: post = pfx ++ y :: tail ->
  Forall (fun c => ~ P c) pfx -> Forall (fun c => ~ P c) pre ->
  P x -> P y ->
  pre = pfx /\ x = y /\ post = tail.
Proof.
  revert pfx. induction pre as [|p pre IH]; intros [|q pfx] Heq Hpfx Hpre Hx Hy;
    simpl in Heq; simplify_eq.
  - done.
  - apply Forall_cons in Hpfx. tauto.
  - apply Forall_cons in Hpre. tauto.
  - apply Forall_cons in Hpfx. apply Forall_cons in Hpre.
    destruct (IH pfx H0) as (-> & -> & ->); tauto.
Qed.

(** An element satisfying [P] comes after a prefix that has none. *)
Lemma hit_after_prefix pre x post pfx y tail :
  pre ++ x :: post = pfx ++ y :: tail ->
  P x -> Forall (fun c => ~ P c) pfx -> ~ P y ->
  y ∈ pre.
Proof.
  revert pfx. induction pre as [|p pre IH]; intros [|q pfx] Heq Hx Hpfx Hy;
    simpl in Heq; simplify_eq.
  - contradiction.
  - apply Forall_cons in Hpfx. tauto.
  - apply list_elem_of_here.
  - apply Forall_cons in Hpfx. apply list_elem_of_further. apply (IH pfx); tauto.
Qed.

Lemma no_hit pre x post l :
  pre ++ x :: post = l -> P x -> Forall (fun c => ~ P c) l -> False.
Proof.
  intros <- Hx Hall. apply Forall_app in Hall. destruct Hall as [_ Hall].
  apply Forall_cons in Hall. tauto.
Qed.

End Occurrences.

(** The create operation is given a name by the caller. *)
Definition callerNamed (a : Adapter) (d : ResourceData) : Prop :=
  match a with
  | RoleAssignment => rd_GetString d "name" <> EmptyString
  | KeyVaultKey | DataLakeStoreFile => True
  | _ => rd_IsNewResource d = true
  end.

Definition onOwnClient (a : Adapter) (c : Call) : Prop := call_client c = clientOf a.

(** The pre-check of Create, on the calls [new] it issued and its result
    [r]: a write is never issued before a GET on the adapter's own client;
    and when the first call on that client, which is a GET, did not fail
    (other than with not-found) and carries an identifier, the result is the
    import-required error for that identifier and nothing is called after
    it. *)
Definition PrecheckOnCreate (a : Adapter) (r : Res error) (new : list Call) : Prop :=
  (forall pre w post, new = pre ++ w :: post -> isWrite w = true ->
     exists g, g ∈ pre /\ isGet g = true /\ onOwnClient a g) /\
  (forall pre g post, new = pre ++ g :: post ->
     Forall (fun c => ~ onOwnClient a c) pre -> onOwnClient a g ->
     isGet g = true /\
     ((failed g = true -> reportsNotFound g = true) ->
      forall i, out_id (call_outcome g) = Some i ->
        r = Val (Some (ImportAsExistsError (resourceName a) i)) /\ post = [])).

Definition CreateChecksFirst {W} (a : Adapter) (st : State W) (res : Res error * State W) : Prop :=
  let '(r, st') := res in
  exists new, calls st' = calls st ++ new /\ PrecheckOnCreate a r new.

(** The shape of the calls that gives the pre-check: either the adapter's
    client was never reached and nothing was written, or the calls are a
    prefix of that kind, then the pre-check GET, then the rest. *)
Definition PrecheckShape (a : Adapter) (r : Res error) (new : list Call) : Prop :=
  Forall (fun c => ~ (isWrite c = true \/ onOwnClient a c)) new \/
  exists pfx g0 tail,
    new = pfx ++ g0 :: tail /\
    Forall (fun c => ~ (isWrite c = true \/ onOwnClient a c)) pfx /\
    isGet g0 = true /\ onOwnClient a g0 /\
    ((failed g0 = true -> reportsNotFound g0 = true) ->
     forall i, out_id (call_outcome g0) = Some i ->
       r = Val (Some (ImportAsExistsError (resourceName a) i)) /\ tail = []).

Lemma isGet_not_write c : isGet c = true -> isWrite c = true -> False.
Proof. unfold isGet, isWrite. destruct (call_verb c); discriminate. Qed.

Lemma precheck_of_shape a r new : PrecheckShape a r new -> PrecheckOnCreate a r new.
Proof.
  intros [Hnone | (pfx & g0 & tail & -> & Hpfx & Hget & Hown & Hfound)]; split.
  - intros pre w post Heq Hw. exfalso.
    apply (no_hit (fun c => isWrite c = true \/ onOwnClient a c) pre w post new);
      [done | by left | done].
  - intros pre g post Heq _ Hg. exfalso.
    apply (no_hit (fun c => isWrite c = true \/ onOwnClient a c) pre g post new);
      [done | by right | done].
  - intros pre w post Heq Hw. exists g0. split; [|done].
    apply (hit_after_prefix (fun c => isWrite c = true) pre w post pfx g0 tail);
      [done | done | | intros Hw0; by apply (isGet_not_write g0)].
    eapply Forall_impl; [exact Hpfx|]. simpl. tauto.
  - intros pre g post Heq Hpre Hg.
    destruct (first_hit (onOwnClient a) pre g post pfx g0 tail) as (-> & -> & ->);
      [done | | done | done | done | done].
    eapply Forall_impl; [exact Hpfx|]. simpl. tauto.
Qed.

Lemma read_extends {W} (env : Env W) (meta : ArmClient W) (a : Adapter) st r st' :
  Read (resourceOf env meta a) st = (r, st') ->
  exists rnew, calls st' = calls st ++ rnew /\ Forall (fun c => isGet c = true) rnew /\
               (rnew = [] \/ exists g, rnew = [g]) /\
               (rd_Id (rd st') = rd_Id (rd st) \/ rd_Id (rd st') = EmptyString).
Proof.
  intros H. pose proof (read_outcome_all env meta a st) as Hout. rewrite H in Hout.
  destruct Hout as [[Hc Hid] | (g & Hc & Hget & _ & Hnf)].
  - exists []. rewrite app_nil_r. repeat split; auto.
  - exists [g]. repeat split; eauto.
    destruct (reportsNotFound g); [destruct Hnf; auto | auto].
Qed.

Ltac own_client_facts :=
  cbv [onOwnClient isGet isWrite failed reportsNotFound call_outcome call_verb call_client
       out_err out_response out_id isSome andb negb clientOf resourceName].

(** Turns a delegation to Read into the calls Read added. *)
Ltac read_tail env meta a H :=
  lazymatch type of H with
  | _ ?st = (_, _) =>
      let rnew := fresh "rnew" in
      let Hc := fresh "Hc" in
      destruct (read_extends env meta a st _ _ H) as (rnew & Hc & _);
      cbv [calls] in Hc; rewrite <- ?app_assoc in Hc
  end.

Ltac give_new_calls :=
  cbv [calls]; eexists;
  (split; [first [eassumption | rewrite <- ?app_assoc; reflexivity
                 | symmetry; apply app_nil_r]|]).

(** The calls start with the pre-check GET. *)
Ltac shape_checked :=
  right; eexists [], _, _; split; [reflexivity|]; split; [constructor|];
  own_client_facts; split; [reflexivity|]; split; [reflexivity|];
  repeat match goal with H : ?x = _ |- context [?x] => rewrite H end;
  simpl; intros Hpass i Hi; simplify_eq;
  try (specialize (Hpass eq_refl)); try discriminate; try (split; reflexivity).

Ltac retry_tail :=
  match goal with
  | Hr : Retry _ _ _ = (_, _) |- _ =>
      let ws := fresh "ws" in
      let Hws := fresh "Hws" in
      destruct (retry_extends _ _ _ _ _ _ _ _ Hr) as (_ & ws & Hws & _);
      cbv [calls] in Hws; rewrite <- ?app_assoc in Hws; try subst
  end.

(** The calls start with a call on another client that writes nothing, then
    comes the pre-check GET. *)
Ltac shape_checked_after :=
  right; eexists [_], _, _; split; [reflexivity|];
  split; [repeat constructor; own_client_facts; intros [?|?]; discriminate|];
  own_client_facts; split; [reflexivity|]; split; [reflexivity|];
  repeat match goal with H : ?x = _ |- context [?x] => rewrite H end;
  simpl; intros Hpass i Hi; simplify_eq;
  try (specialize (Hpass eq_refl)); try discriminate; try (split; reflexivity).

(** The adapter's client was never reached. *)
Ltac shape_unreached :=
  left; repeat constructor; own_client_facts; intros [?|?]; discriminate.

Section CreateChecks.
Context {W : Type} (env : Env W) (meta : ArmClient W).

Lemma create_checks_scheduler st :
  callerNamed SchedulerJobCollection (rd st) ->
  CreateChecksFirst SchedulerJobCollection st
    (resourceArmSchedulerJobCollectionCreateUpdate env meta st).
Proof.
  intros Hnamed.
  destruct (resourceArmSchedulerJobCollectionCreateUpdate env meta st) as [r st'] eqn:H.
  unfold resourceArmSchedulerJobCollectionCreateUpdate in H.
  destruct st as [w [id isNew fields] cs]. simpl in Hnamed. subst isNew.
  run_in H; try read_tail env meta SchedulerJobCollection H;
    unfold CreateChecksFirst; give_new_calls; apply precheck_of_shape; shape_checked.
Qed.

Lemma create_checks_eventhub st :
  callerNamed EventHubConsumerGroup (rd st) ->
  CreateChecksFirst EventHubConsumerGroup st
    (resourceArmEventHubConsumerGroupCreateUpdate env meta st).
Proof.
  intros Hnamed.
  destruct (resourceArmEventHubConsumerGroupCreateUpdate env meta st) as [r st'] eqn:H.
  unfold resourceArmEventHubConsumerGroupCreateUpdate in H.
  destruct st as [w [id isNew fields] cs]. simpl in Hnamed. subst isNew.
  run_in H; try read_tail env meta EventHubConsumerGroup H;
    unfold CreateChecksFirst; give_new_calls; apply precheck_of_shape; shape_checked.
Qed.

Lemma create_checks_metric_alert st :
  callerNamed MetricAlertRule (rd st) ->
  CreateChecksFirst MetricAlertRule st (resourceArmMetricAlertRuleCreateUpdate env meta st).
Proof.
  intros Hnamed.
  destruct (resourceArmMetricAlertRuleCreateUpdate env meta st) as [r st'] eqn:H.
  unfold resourceArmMetricAlertRuleCreateUpdate in H.
  destruct st as [w [id isNew fields] cs]. simpl in Hnamed. subst isNew.
  run_in H; try read_tail env meta MetricAlertRule H;
    unfold CreateChecksFirst; give_new_calls; apply precheck_of_shape; shape_checked.
Qed.

Lemma create_checks_log_analytics st :
  callerNamed LogAnalyticsSolution (rd st) ->
  CreateChecksFirst LogAnalyticsSolution st
    (resourceArmLogAnalyticsSolutionCreateUpdate env meta st).
Proof.
  intros Hnamed.
  destruct (resourceArmLogAnalyticsSolutionCreateUpdate env meta st) as [r st'] eqn:H.
  unfold resourceArmLogAnalyticsSolutionCreateUpdate in H.
  destruct st as [w [id isNew fields] cs]. simpl in Hnamed. subst isNew.
  run_in H; try read_tail env meta LogAnalyticsSolution H;
    unfold CreateChecksFirst; give_new_calls; apply precheck_of_shape; shape_checked.
Qed.

Lemma create_checks_key_vault st :
  callerNamed KeyVaultKey (rd st) ->
  CreateChecksFirst KeyVaultKey st (resourceArmKeyVaultKeyCreate env meta st).
Proof.
  intros _.
  destruct (resourceArmKeyVaultKeyCreate env meta st) as [r st'] eqn:H.
  unfold resourceArmKeyVaultKeyCreate in H.
  destruct st as [w [id isNew fields] cs].
  run_in H; try read_tail env meta KeyVaultKey H;
    unfold CreateChecksFirst; give_new_calls; apply precheck_of_shape; shape_checked.
Qed.

Lemma create_checks_dns st :
  callerNamed DnsAaaaRecord (rd st) ->
  CreateChecksFirst DnsAaaaRecord st (resourceArmDnsAaaaRecordCreateOrUpdate env meta st).
Proof.
  intros Hnamed.
  destruct (resourceArmDnsAaaaRecordCreateOrUpdate env meta st) as [r st'] eqn:H.
  unfold resourceArmDnsAaaaRecordCreateOrUpdate in H.
  destruct st as [w [id isNew fields] cs]. simpl in Hnamed. subst isNew.
  run_in H; try read_tail env meta DnsAaaaRecord H;
    unfold CreateChecksFirst; give_new_calls; apply precheck_of_shape; shape_checked.
Qed.

Lemma create_checks_traffic_manager st :
  callerNamed TrafficManagerProfile (rd st) ->
  CreateChecksFirst TrafficManagerProfile st
    (resourceArmTrafficManagerProfileCreateUpdate env meta st).
Proof.
  intros Hnamed.
  destruct (resourceArmTrafficManagerProfileCreateUpdate env meta st) as [r st'] eqn:H.
  unfold resourceArmTrafficManagerProfileCreateUpdate in H.
  destruct st as [w [id isNew fields] cs]. simpl in Hnamed. subst isNew.
  run_in H; try read_tail env meta TrafficManagerProfile H;
    unfold CreateChecksFirst; give_new_calls; apply precheck_of_shape; shape_checked.
Qed.

Lemma create_checks_role_assignment st :
  callerNamed RoleAssignment (rd st) ->
  CreateChecksFirst RoleAssignment st (resourceArmRoleAssignmentCreate env meta st).
Proof.
  intros Hnamed.
  destruct (resourceArmRoleAssignmentCreate env meta st) as [r st'] eqn:H.
  unfold resourceArmRoleAssignmentCreate, roleDefinitionIdOf in H.
  destruct st as [w [id isNew fields] cs]. simpl in Hnamed.
  apply String.eqb_neq in Hnamed.
  exec_in H.
  repeat (break_in H; exec_in H; simplify_eq; try rewrite Hnamed in * ).
  all: try retry_tail.
  all: try read_tail env meta RoleAssignment H.
  all: unfold CreateChecksFirst; give_new_calls; apply precheck_of_shape.
  all: first [solve [shape_checked] | solve [shape_checked_after] | solve [shape_unreached]].
Qed.

End CreateChecks.

(** C3, as the code has it. For every adapter but the data lake store file,
    whose pre-check is disabled in the source, Create under a
    caller-supplied name issues the pre-check GET on the adapter's client
    before any write, and when that GET finds the resource (no failure other
    than not-found, identifier present) Create returns the import-required
    error for that identifier without calling anything else. *)
Theorem create_requires_import_of_existing_resource {W} (env : Env W) (meta : ArmClient W)
    (a : Adapter) (st : State W) :
  a <> DataLakeStoreFile ->
  callerNamed a (rd st) ->
  CreateChecksFirst a st (Create (resourceOf env meta a) st).
Proof.
  intros Hne Hnamed. destruct a; simpl; try contradiction.
  - by apply create_checks_scheduler.
  - by apply create_checks_eventhub.
  - by apply create_checks_metric_alert.
  - by apply create_checks_role_assignment.
  - by apply create_checks_log_analytics.
  - by apply create_checks_key_vault.
  - by apply create_checks_dns.
  - by apply create_checks_traffic_manager.
Qed.

(** Creating an event hub consumer group whose name the remote side already
    knows under the identifier "id1". *)
Lemma create_requires_import_of_existing_resource_witness :
  CreateChecksFirst EventHubConsumerGroup
    (start (sampleData EmptyString true (<["name" := VString "group"]> ∅)))
    (Create (resourceOf sampleEnv (scriptedClient (fun _ => okAnswer "id1"))
                        EventHubConsumerGroup)
            (start (sampleData EmptyString true (<["name" := VString "group"]> ∅)))).
Proof.
  apply (create_requires_import_of_existing_resource sampleEnv
           (scriptedClient (fun _ => okAnswer "id1")) EventHubConsumerGroup);
    [discriminate | reflexivity].
Defined.

(** C3 as stated fails: the data lake store file adapter uploads the file
    without any pre-check GET, even when the remote side would have answered
    with an existing resource. *)
Lemma data_lake_create_writes_without_precheck :
  ~ CreateChecksFirst DataLakeStoreFile
      (start (sampleData EmptyString true (<["remote_file_path" := VString "/f.txt"]> ∅)))
      (Create (resourceOf sampleEnv (scriptedClient (fun _ => okAnswer "id1"))
                          DataLakeStoreFile)
              (start (sampleData EmptyString true (<["remote_file_path" := VString "/f.txt"]> ∅)))).
Proof.
  intros (new & Hnew & Hwrite & _). vm_compute in Hnew.
  match type of Hnew with
  | ?w :: ?post = _ =>
      destruct (Hwrite [] w post (eq_sym Hnew) eq_refl) as (g & Hg & _)
  end.
  by apply not_elem_of_nil in Hg.
Qed.


(** ** Create and the follow-up GET *)

Section UniqueOccurrence.
Context {A : Type} (P : A -> Prop).


End UniqueOccurrence.










Ltac read_tail_full env meta a H :=
  lazymatch type of H with
  | _ ?st = (_, _) =>
      let rnew := fresh "rnew" in
      let Hc := fresh "Hc" in
      let Hgets := fresh "Hgets" in
      let Hid := fresh "Hid" in
      destruct (read_extends env meta a st _ _ H) as (rnew & Hc & Hgets & _ & Hid);
      cbv [calls] in Hc; rewrite <- ?app_assoc in Hc; simpl in Hid
  end.











Section CreateRereadLemmas.
Context {W : Type} (env : Env W) (meta : ArmClient W).








End CreateRereadLemmas.







(** ** The remote name of a log analytics solution *)

Section StringLemmas.

Lemma contains_head (sub : string) (c : Ascii.ascii) (s : string) :
  strings.Contains (String c s) sub = false ->
  String.prefix sub (String c s) = false /\ strings.Contains s sub = false.
Proof. cbn [strings.Contains]. intros H. apply orb_false_iff in H. exact H. Qed.

Lemma app_empty_l (s : string) : EmptyString +:+ s = s.
Proof. reflexivity. Qed.



Lemma contains_append_r (s rest sub : string) :
  String.prefix sub rest = true -> strings.Contains (s +:+ rest) sub = true.
Proof.
  intros H. induction s as [|c s IH].
  - rewrite app_empty_l. destruct rest; cbn [strings.Contains]; rewrite H; reflexivity.
  - change (String c s +:+ rest) with (String c (s +:+ rest)).
    cbn [strings.Contains]. rewrite IH. apply orb_true_r.
Qed.









End StringLemmas.





Section SolutionName.
Context {W : Type} (env : Env W) (meta : ArmClient W).






End SolutionName.





(** ** Only the role assignment retries its create call *)

Lemma countWrites_app (l1 l2 : list Call) :
  countWrites (l1 ++ l2) = (countWrites l1 + countWrites l2)%nat.
Proof. unfold countWrites. by rewrite filter_app, length_app. Qed.

Lemma countWrites_nil : countWrites [] = 0%nat.
Proof. reflexivity. Qed.

Lemma countWrites_single (c : Call) :
  countWrites [c] = if isWrite c then 1%nat else 0%nat.
Proof.
  unfold countWrites. destruct (isWrite c) eqn:E.
  - by rewrite (filter_cons_True (fun c => isWrite c = true)).
  - rewrite (filter_cons_False (fun c => isWrite c = true)); [reflexivity | congruence].
Qed.

Lemma countWrites_cons (c : Call) (l : list Call) :
  countWrites (c :: l) = ((if isWrite c then 1 else 0) + countWrites l)%nat.
Proof. by rewrite <- countWrites_single, <- countWrites_app. Qed.

Lemma countWrites_gets (l : list Call) :
  Forall (fun c => isGet c = true) l -> countWrites l = 0%nat.
Proof.
  induction 1 as [|c l Hc _ IH]; [reflexivity|].
  rewrite countWrites_cons, IH. destruct (isWrite c) eqn:E; [|reflexivity].
  exfalso. by apply (isGet_not_write c).
Qed.

Lemma countWrites_le_length (l : list Call) : (countWrites l <= length l)%nat.
Proof. unfold countWrites. apply length_filter. Qed.

(** An operation issues at most [n] write calls. *)
Definition WritesAtMost {W} (n : nat) (st : State W) (res : Res error * State W) : Prop :=
  let '(r, st') := res in
  exists new, calls st' = calls st ++ new /\ (countWrites new <= n)%nat.

Ltac count_writes :=
  rewrite ?countWrites_app, ?countWrites_cons, ?countWrites_nil;
  repeat match goal with
         | Hgets : Forall (fun c => isGet c = true) ?l |- context [countWrites ?l] =>
             rewrite (countWrites_gets l Hgets)
         end;
  cbv [isWrite call_verb]; simpl; lia.

Ltac at_most_one a H :=
  run_in H; try read_tail_full _ _ a H; unfold WritesAtMost; give_new_calls; count_writes.

Section SingleWrite.
Context {W : Type} (env : Env W) (meta : ArmClient W).

Lemma one_write_scheduler st :
  WritesAtMost 1 st (resourceArmSchedulerJobCollectionCreateUpdate env meta st).
Proof.
  destruct (resourceArmSchedulerJobCollectionCreateUpdate env meta st) as [r st'] eqn:H.
  unfold resourceArmSchedulerJobCollectionCreateUpdate in H.
  destruct st as [w [id isNew fields] cs].
  run_in H; try read_tail_full env meta SchedulerJobCollection H;
    unfold WritesAtMost; give_new_calls; count_writes.
Qed.

Lemma one_write_eventhub st :
  WritesAtMost 1 st (resourceArmEventHubConsumerGroupCreateUpdate env meta st).
Proof.
  destruct (resourceArmEventHubConsumerGroupCreateUpdate env meta st) as [r st'] eqn:H.
  unfold resourceArmEventHubConsumerGroupCreateUpdate in H.
  destruct st as [w [id isNew fields] cs].
  run_in H; try read_tail_full env meta EventHubConsumerGroup H;
    unfold WritesAtMost; give_new_calls; count_writes.
Qed.

Lemma one_write_metric_alert st :
  WritesAtMost 1 st (resourceArmMetricAlertRuleCreateUpdate env meta st).
Proof.
  destruct (resourceArmMetricAlertRuleCreateUpdate env meta st) as [r st'] eqn:H.
  unfold resourceArmMetricAlertRuleCreateUpdate in H.
  destruct st as [w [id isNew fields] cs].
  run_in H; try read_tail_full env meta MetricAlertRule H;
    unfold WritesAtMost; give_new_calls; count_writes.
Qed.

Lemma one_write_data_lake st :
  WritesAtMost 1 st (resourceArmDataLakeStoreFileCreate env meta st).
Proof.
  destruct (resourceArmDataLakeStoreFileCreate env meta st) as [r st'] eqn:H.
  unfold resourceArmDataLakeStoreFileCreate in H.
  destruct st as [w [id isNew fields] cs].
  run_in H; try read_tail_full env meta DataLakeStoreFile H;
    unfold WritesAtMost; give_new_calls; count_writes.
Qed.

Lemma one_write_log_analytics st :
  WritesAtMost 1 st (resourceArmLogAnalyticsSolutionCreateUpdate env meta st).
Proof.
  destruct (resourceArmLogAnalyticsSolutionCreateUpdate env meta st) as [r st'] eqn:H.
  unfold resourceArmLogAnalyticsSolutionCreateUpdate in H.
  destruct st as [w [id isNew fields] cs].
  run_in H; try read_tail_full env meta LogAnalyticsSolution H;
    unfold WritesAtMost; give_new_calls; count_writes.
Qed.

Lemma one_write_key_vault_create st :
  WritesAtMost 1 st (resourceArmKeyVaultKeyCreate env meta st).
Proof.
  destruct (resourceArmKeyVaultKeyCreate env meta st) as [r st'] eqn:H.
  unfold resourceArmKeyVaultKeyCreate in H.
  destruct st as [w [id isNew fields] cs].
  run_in H; try read_tail_full env meta KeyVaultKey H;
    unfold WritesAtMost; give_new_calls; count_writes.
Qed.

Lemma one_write_key_vault_update st :
  WritesAtMost 1 st (resourceArmKeyVaultKeyUpdate env meta st).
Proof.
  destruct (resourceArmKeyVaultKeyUpdate env meta st) as [r st'] eqn:H.
  unfold resourceArmKeyVaultKeyUpdate in H.
  destruct st as [w [id isNew fields] cs].
  run_in H; try read_tail_full env meta KeyVaultKey H;
    unfold WritesAtMost; give_new_calls; count_writes.
Qed.

Lemma one_write_dns st :
  WritesAtMost 1 st (resourceArmDnsAaaaRecordCreateOrUpdate env meta st).
Proof.
  destruct (resourceArmDnsAaaaRecordCreateOrUpdate env meta st) as [r st'] eqn:H.
  unfold resourceArmDnsAaaaRecordCreateOrUpdate in H.
  destruct st as [w [id isNew fields] cs].
  run_in H; try read_tail_full env meta DnsAaaaRecord H;
    unfold WritesAtMost; give_new_calls; count_writes.
Qed.

Lemma one_write_traffic_manager st :
  WritesAtMost 1 st (resourceArmTrafficManagerProfileCreateUpdate env meta st).
Proof.
  destruct (resourceArmTrafficManagerProfileCreateUpdate env meta st) as [r st'] eqn:H.
  unfold resourceArmTrafficManagerProfileCreateUpdate in H.
  destruct st as [w [id isNew fields] cs].
  run_in H; try read_tail_full env meta TrafficManagerProfile H;
    unfold WritesAtMost; give_new_calls; count_writes.
Qed.

End SingleWrite.

(** ** The role assignment's create call goes through the retry loop *)

(** The calls of the role assignment's Create: some calls that write
    nothing, then - unless Create gave up before - one run of the retry loop
    with the configured budget, then calls that write nothing; when the loop
    ended with an error, Create returns that error and issues nothing more. *)
Definition RetriesWithin {W} (budget : nat) (st : State W) (res : Res error * State W) : Prop :=
  let '(r, st') := res in
  exists pfx ws tail,
    calls st' = calls st ++ pfx ++ ws ++ tail /\
    countWrites pfx = 0%nat /\ countWrites tail = 0%nat /\
    (ws = [] \/
     exists r0, RetryTrace budget r0 ws /\
                (forall e, r0 = Val (Some e) -> r = r0 /\ tail = [])).

Lemma retry_trace_writes budget r ws :
  RetryTrace budget r ws -> (countWrites ws <= S budget)%nat.
Proof.
  intros (_ & Hlen & _). pose proof (countWrites_le_length ws). lia.
Qed.

Lemma retries_within_bound {W} budget (st : State W) res :
  RetriesWithin budget st res -> WritesAtMost (S budget) st res.
Proof.
  destruct res as [r st']. intros (pfx & ws & tail & Hc & Hpfx & Htail & Hws).
  exists (pfx ++ ws ++ tail). split; [exact Hc|].
  rewrite !countWrites_app, Hpfx, Htail.
  destruct Hws as [-> | (r0 & Ht & _)].
  - rewrite countWrites_nil. lia.
  - pose proof (retry_trace_writes _ _ _ Ht). lia.
Qed.

Ltac retry_whole :=
  try match goal with
      | Hr : Retry _ _ _ = (_, ?s) |- _ => is_var s; destruct s as [? [? ? ?] ?]
      end;
  match goal with
  | Hr : Retry _ _ _ = (_, _) |- _ =>
      let ws := fresh "ws" in
      let Hws := fresh "Hws" in
      let Htrace := fresh "Htrace" in
      destruct (retry_extends _ _ _ _ _ _ _ _ Hr) as (_ & ws & Hws & Htrace);
      cbv [calls] in Hws; rewrite <- ?app_assoc in Hws; try subst
  end.

Ltac no_writes := first [reflexivity | count_writes].

Ltac retried ws :=
  first
    [ eexists [], ws, []; split; [cbv [calls]; rewrite <- ?app_assoc, ?app_nil_r; simpl; reflexivity|];
      split; [no_writes|]; split; [no_writes|];
      right; eexists; split; [eassumption|]; intros ? He; first [discriminate He | split; reflexivity]
    | eexists [], ws, _; split; [cbv [calls]; rewrite <- ?app_assoc; simpl; reflexivity|];
      split; [no_writes|]; split; [no_writes|];
      right; eexists; split; [eassumption|]; intros ? He; first [discriminate He | split; reflexivity]
    | eexists [_], ws, []; split; [cbv [calls]; rewrite <- ?app_assoc, ?app_nil_r; simpl; reflexivity|];
      split; [no_writes|]; split; [no_writes|];
      right; eexists; split; [eassumption|]; intros ? He; first [discriminate He | split; reflexivity]
    | eexists [_], ws, _; split; [cbv [calls]; rewrite <- ?app_assoc; simpl; reflexivity|];
      split; [no_writes|]; split; [no_writes|];
      right; eexists; split; [eassumption|]; intros ? He; first [discriminate He | split; reflexivity]
    | eexists [_; _], ws, []; split; [cbv [calls]; rewrite <- ?app_assoc, ?app_nil_r; simpl; reflexivity|];
      split; [no_writes|]; split; [no_writes|];
      right; eexists; split; [eassumption|]; intros ? He; first [discriminate He | split; reflexivity]
    | eexists [_; _], ws, _; split; [cbv [calls]; rewrite <- ?app_assoc; simpl; reflexivity|];
      split; [no_writes|]; split; [no_writes|];
      right; eexists; split; [eassumption|]; intros ? He; first [discriminate He | split; reflexivity] ].

Ltac not_retried :=
  cbv [calls]; rewrite <- ?app_assoc;
  first
    [ exists [], [], []; split; [simpl; symmetry; apply app_nil_r|]
    | eexists _, [], []; split; [apply (f_equal (app _)); symmetry; apply app_nil_r|] ];
  split; [no_writes|]; split; [reflexivity|]; left; reflexivity.

Lemma role_assignment_create_retries {W} (env : Env W) (meta : ArmClient W) st :
  RetriesWithin (retryBudget env) st (resourceArmRoleAssignmentCreate env meta st).
Proof.
  destruct (resourceArmRoleAssignmentCreate env meta st) as [r st'] eqn:H.
  unfold resourceArmRoleAssignmentCreate, roleDefinitionIdOf in H.
  destruct st as [w [id isNew fields] cs].
  run_in H.
  all: try retry_whole.
  all: try read_tail_full env meta RoleAssignment H.
  all: try match goal with
           | Hc : (let (_, _, c) := ?s in c) = _ |- _ =>
               destruct s as [? ? ?]; cbv beta iota in Hc; subst
           end.
  all: unfold RetriesWithin.
  all: lazymatch goal with
       | Htrace : RetryTrace _ _ ?ws |- _ => retried ws
       | _ => not_retried
       end.
Qed.

(** C7. The role assignment's Create is the only operation that retries the
    remote create call. (1) The function handed to the retry loop issues
    exactly one create call and classifies every error it returns as
    retryable; a success gives nil. (2) The role assignment's Create runs
    that function inside the retry loop bounded by the create timeout: its
    writes are the attempts of one run of the loop, every attempt but the
    last having failed, at most one more than the attempts that fit into
    the timeout; the loop's result is the last attempt's error, nil once an
    attempt succeeds, and an error of the loop is what Create returns.
    (3) Create of every other adapter, and every Update, issues at most one
    write call. *)
Theorem role_assignment_create_alone_retries {W} (env : Env W) (meta : ArmClient W) :
  (forall scope name properties (st : State W),
     let '(r, st') := retryRoleAssignmentsClient meta scope name properties st in
     exists w, calls st' = calls st ++ [w] /\ rd st' = rd st /\
               isWrite w = true /\ call_client w = roleAssignmentsClient /\
               call_args w = [scope; name] /\
               r = Val (match out_err (call_outcome w) with
                        | Some e => RetryableError e
                        | None => None
                        end)) /\
  (forall scope name properties budget (st : State W),
     let '(r, st') := Retry budget (retryRoleAssignmentsClient meta scope name properties) st in
     rd st' = rd st /\ exists ws, calls st' = calls st ++ ws /\ RetryTrace budget r ws) /\
  (forall st : State W,
     RetriesWithin (retryBudget env) st (Create (resourceOf env meta RoleAssignment) st) /\
     WritesAtMost (S (retryBudget env)) st (Create (resourceOf env meta RoleAssignment) st)) /\
  (forall a (st : State W), a <> RoleAssignment ->
     WritesAtMost 1 st (Create (resourceOf env meta a) st)) /\
  (forall a update (st : State W), Update (resourceOf env meta a) = Some update ->
     WritesAtMost 1 st (update st)).
Proof.
  split; [|split; [|split; [|split]]].
  - intros scope name properties st.
    destruct (retry_function_classifies meta scope name properties st)
      as (w & Hstep & Hw & Hclient & Hargs).
    rewrite Hstep. exists w. repeat split; assumption.
  - intros scope name properties budget st.
    apply retry_trace.
  - intros st. split; [|apply retries_within_bound]; apply role_assignment_create_retries.
  - intros a st Ha. destruct a; try contradiction; simpl.
    + apply one_write_scheduler.
    + apply one_write_eventhub.
    + apply one_write_metric_alert.
    + apply one_write_data_lake.
    + apply one_write_log_analytics.
    + apply one_write_key_vault_create.
    + apply one_write_dns.
    + apply one_write_traffic_manager.
  - intros a update st Hu. destruct a; simpl in Hu; simplify_eq.
    + apply one_write_scheduler.
    + apply one_write_eventhub.
    + apply one_write_metric_alert.
    + apply one_write_log_analytics.
    + apply one_write_key_vault_update.
    + apply one_write_dns.
    + apply one_write_traffic_manager.
Qed.

(** A remote side that rejects the first call and accepts all later ones. *)
Definition failsOnce (id : string) (n : nat) : Answer :=
  match n with
  | O => failedAnswer 500
  | _ => okAnswer id
  end.

Definition sampleRoleAssignment : ResourceData :=
  sampleData EmptyString true
    (<["scope" := VString "/subscriptions/0"]>
       (<["role_definition_id" := VString "/roleDefinitions/reader"]>
          (<["principal_id" := VString "p1"]> ∅))).

(** With room for one more attempt, a create call that fails once is issued
    a second time, and Create then succeeds. *)
Lemma role_assignment_create_alone_retries_witness :
  RetriesWithin 1 (start sampleRoleAssignment)
    (Create (resourceOf sampleEnv (scriptedClient (failsOnce "id1")) RoleAssignment)
            (start sampleRoleAssignment)) /\
  (let '(r, st') := Create (resourceOf sampleEnv (scriptedClient (failsOnce "id1")) RoleAssignment)
                           (start sampleRoleAssignment) in
   r = Val None /\ countWrites (calls st') = 2%nat /\ rd_Id (rd st') = "id1").
Proof.
  split.
  - apply (role_assignment_create_alone_retries sampleEnv (scriptedClient (failsOnce "id1"))).
  - vm_compute. repeat split.
Defined.

(** ** Further properties of the pure helpers *)

(** *** Key vault key options *)

Lemma flatten_key_options_foldl (l : list string) (acc : list Value) :
  foldl (fun results option => results ++ [VString option]) acc l = acc ++ (VString <$> l).
Proof.
  revert acc. induction l as [|s l IH]; intros acc; simpl.
  - by rewrite app_nil_r.
  - rewrite IH, <- app_assoc. reflexivity.
Qed.

Lemma assertStrings_strings (l : list string) (acc : list string) :
  assertStrings (VString <$> l) acc = Val (acc ++ l).
Proof.
  revert acc. induction l as [|s l IH]; intros acc; simpl.
  - by rewrite app_nil_r.
  - rewrite IH, <- app_assoc. reflexivity.
Qed.

Lemma assertStrings_stuck (pre : list string) (v : Value) (post : list Value) (acc : list string) :
  isVString v = false ->
  exists reason, assertStrings ((VString <$> pre) ++ v :: post) acc = Panic reason.
Proof.
  intros Hv. revert acc. induction pre as [|s pre IH]; intros acc; simpl.
  - destruct v; try discriminate; eexists; reflexivity.
  - apply IH.
Qed.

(** The operations of a key survive the way from the remote key to the
    local state and back: flattening a list of operations gives as many
    values, and expanding a resource whose [key_opts] holds them gives the
    list back. Flattening a nil list panics, an unset [key_opts] expands to
    an empty (non-nil) list, and an entry that is not a string makes the
    expansion panic. *)
Theorem key_options_round_trip :
  (forall (l : list string) (d : ResourceData),
     exists vs, flattenKeyVaultKeyOptions (Some l) = Val vs /\ length vs = length l /\
                expandKeyVaultKeyOptions (rd_Set "key_opts" (VList vs) d) = Val (Some l)) /\
  (exists reason, flattenKeyVaultKeyOptions None = Panic reason) /\
  (forall d, rd_Get d "key_opts" = None -> expandKeyVaultKeyOptions d = Val (Some [])) /\
  (forall d pre v post, isVString v = false ->
     exists reason,
       expandKeyVaultKeyOptions (rd_Set "key_opts" (VList ((VString <$> pre) ++ v :: post)) d)
       = Panic reason).
Proof.
  split; [|split; [|split]].
  - intros l d. exists (VString <$> l).
    unfold flattenKeyVaultKeyOptions, expandKeyVaultKeyOptions, rd_GetList, rd_Get, rd_Set, deref.
    cbn [Res_bind rd_fields]. rewrite flatten_key_options_foldl, lookup_insert_eq.
    rewrite assertStrings_strings. cbn [Res_bind app].
    split; [reflexivity|]. split; [apply length_fmap | reflexivity].
  - eexists. reflexivity.
  - intros d Hd. unfold expandKeyVaultKeyOptions, rd_GetList. rewrite Hd. reflexivity.
  - intros d pre v post Hv.
    unfold expandKeyVaultKeyOptions, rd_GetList, rd_Get, rd_Set. cbn [rd_fields].
    rewrite lookup_insert_eq.
    destruct (assertStrings_stuck pre v post [] Hv) as [reason ->].
    exists reason. reflexivity.
Qed.

(** *** Log analytics solution plan *)

(** A plan all of whose four fields are set flattens to one block, and
    expanding a resource whose [plan] holds that block gives the plan back;
    a plan with a nil field makes the flattening panic, and a resource
    without a [plan] block makes the expansion panic. *)
Theorem solution_plan_round_trip :
  (forall name publisher promotionCode product (d : ResourceData),
     let plan := {| operationsmanagement.plan_Name := Some name;
                    operationsmanagement.Publisher := Some publisher;
                    operationsmanagement.PromotionCode := Some promotionCode;
                    operationsmanagement.Product := Some product |} in
     exists block, flattenAzureRmLogAnalyticsSolutionPlan plan = Val [block] /\
                   expandAzureRmLogAnalyticsSolutionPlan (rd_Set "plan" (VList [block]) d) = Val plan) /\
  (forall plan,
     operationsmanagement.plan_Name plan = None \/ operationsmanagement.Publisher plan = None \/
     operationsmanagement.PromotionCode plan = None \/ operationsmanagement.Product plan = None ->
     exists reason, flattenAzureRmLogAnalyticsSolutionPlan plan = Panic reason) /\
  (forall d, rd_GetList d "plan" = [] ->
     exists reason, expandAzureRmLogAnalyticsSolutionPlan d = Panic reason).
Proof.
  split; [|split].
  - intros name publisher promotionCode product d plan. eexists. split; [reflexivity|].
    unfold expandAzureRmLogAnalyticsSolutionPlan, rd_GetList, rd_Get, rd_Set. cbn [rd_fields].
    rewrite lookup_insert_eq. cbn [index0 Res_bind assertMap].
    rewrite !lookup_insert_ne by discriminate. rewrite lookup_insert_eq.
    cbn [assertString Res_bind].
    rewrite lookup_insert_eq. cbn [assertString Res_bind].
    rewrite !lookup_insert_ne by discriminate. rewrite lookup_insert_eq.
    cbn [assertString Res_bind].
    rewrite !lookup_insert_ne by discriminate. rewrite lookup_insert_eq.
    reflexivity.
  - intros [n pu pr po] H; cbn in H. unfold flattenAzureRmLogAnalyticsSolutionPlan.
    destruct n, po, pr, pu; cbn; try (eexists; reflexivity).
    destruct H as [H | [H | [H | H]]]; discriminate.
  - intros d Hd. unfold expandAzureRmLogAnalyticsSolutionPlan. rewrite Hd.
    eexists. reflexivity.
Qed.

(** *** DNS AAAA records without an address *)

Lemma flatten_aaaa_omap (rs : list dns.AaaaRecord) (acc : list string) :
  foldl (fun results record =>
           match dns.Ipv6Address record with
           | Some a => results ++ [a]
           | None => results
           end) acc rs
  = acc ++ omap dns.Ipv6Address rs.
Proof.
  revert acc. induction rs as [|r rs IH]; intros acc; simpl.
  - by rewrite app_nil_r.
  - rewrite IH. destruct (dns.Ipv6Address r); [rewrite <- app_assoc|]; reflexivity.
Qed.

Lemma omap_length_le {A B} (f : A -> option B) (l : list A) :
  (length (omap f l) <= length l)%nat.
Proof.
  unfold omap. induction l as [|x l IH]; [reflexivity|]. simpl. destruct (f x); simpl; lia.
Qed.

(** Flattening the records of a record set keeps the addresses that are
    set, in their order, and skips the records without an address; a nil
    list of records gives the empty list. So the result never has more
    entries than there are records, and an address is in the result exactly
    when some record carries it. *)
Theorem flatten_aaaa_skips_records_without_address :
  flattenAzureRmDnsAaaaRecords None = [] /\
  forall rs : list dns.AaaaRecord,
    flattenAzureRmDnsAaaaRecords (Some rs) = omap dns.Ipv6Address rs /\
    (length (flattenAzureRmDnsAaaaRecords (Some rs)) <= length rs)%nat /\
    (forall a, a ∈ flattenAzureRmDnsAaaaRecords (Some rs) <->
               exists r, r ∈ rs /\ dns.Ipv6Address r = Some a).
Proof.
  split; [reflexivity|]. intros rs.
  assert (H : flattenAzureRmDnsAaaaRecords (Some rs) = omap dns.Ipv6Address rs).
  { unfold flattenAzureRmDnsAaaaRecords. by rewrite flatten_aaaa_omap. }
  rewrite H. split; [reflexivity|]. split.
  - apply omap_length_le.
  - intros a. rewrite list_elem_of_omap. reflexivity.
Qed.

(** *** Case folding *)




(** *** The allocation method of a load balancer's private address *)


(** *** Preview roles *)

(** Every role definition name that contains "(Preview)" is rejected with
    the one error saying that preview roles are not supported, wherever the
    marker stands; a name without it passes; a value that is not a string is
    rejected with one error and no panic. There is never a warning. *)
Theorem preview_roles_are_rejected (k : string) :
  (forall before after,
     validateRoleDefinitionName (VString (before +:+ "(Preview)" +:+ after)) k
     = ([], [Errorf "Preview roles are not supported" []])) /\
  (forall v, strings.Contains v "(Preview)" = false ->
     validateRoleDefinitionName (VString v) k = ([], [])) /\
  (forall i, isVString i = false ->
     validateRoleDefinitionName i k = ([], [Errorf "expected type of %s to be string" [k]])).
Proof.
  split; [|split].
  - intros before after. unfold validateRoleDefinitionName.
    rewrite (contains_append_r before ("(Preview)" +:+ after) "(Preview)"); [reflexivity|].
    destruct after; reflexivity.
  - intros v Hv. unfold validateRoleDefinitionName. by rewrite Hv.
  - intros i Hi. destruct i; try discriminate; reflexivity.
Qed.

(** *** Set hashes of the traffic manager blocks *)

Section HashProperties.
Variable hashcode_String : string -> Z.


End HashProperties.

(** *** Webhook properties of a metric alert rule *)

(** Read copies the properties of a webhook action into the local state
    without the entry under "$type": every other key (the comparison is
    exact, so also a key that differs from "$type" in capitalisation only)
    is kept with its value. The copy panics exactly when a kept key has a
    nil value. *)
Theorem webhook_properties_drop_type_entry (props : gmap string (option string)) :
  (forall m, webhookProperties props = Val m ->
     m !! "$type" = None /\
     forall k v, k <> "$type" -> (m !! k = Some v <-> props !! k = Some (Some v))) /\
  ((exists m, webhookProperties props = Val m) <->
     forall k, k <> "$type" -> props !! k <> Some None).
Proof.
  unfold webhookProperties.
  set (kept := filter (fun kv : string * option string => kv.1 <> "$type") props).
  assert (Hkept : forall k, kept !! k = if decide (k = "$type") then None else props !! k).
  { intros k. unfold kept. destruct (decide (k = "$type")) as [-> | Hk].
    - apply map_lookup_filter_None. right. intros v _ Hne. by apply Hne.
    - destruct (props !! k) as [v|] eqn:Hp.
      + apply map_lookup_filter_Some. split; [exact Hp | exact Hk].
      + apply map_lookup_filter_None. left. exact Hp. }
  split.
  - intros m Hm. destruct (bool_decide _) eqn:Hall; [|discriminate].
    apply bool_decide_eq_true in Hall. injection Hm as <-. split.
    + rewrite lookup_omap, Hkept. reflexivity.
    + intros k v Hk. rewrite lookup_omap, Hkept.
      destruct (decide (k = "$type")); [contradiction|].
      destruct (props !! k) as [[w|]|] eqn:Hp; simpl; split; intros H; simplify_eq; reflexivity.
  - split.
    + intros [m Hm] k Hk Hp. destruct (bool_decide _) eqn:Hall; [|discriminate].
      apply bool_decide_eq_true in Hall. specialize (Hall k None). rewrite Hkept in Hall.
      destruct (decide (k = "$type")); [contradiction|]. specialize (Hall Hp). discriminate.
    + intros Hall. rewrite bool_decide_eq_true_2; [eexists; reflexivity|].
      intros k v Hk. rewrite Hkept in Hk.
      destruct (decide (k = "$type")); [discriminate|].
      destruct v; [reflexivity|]. exfalso. by apply (Hall k).
Qed.

(** *** Expanding a metric alert rule *)

Ltac break_goal :=
  repeat match goal with
         | |- context [match ?x with _ => _ end] =>
             lazymatch x with
             | context [match _ with _ => _ end] => fail
             | _ => destruct x eqn:?
             end
         end.

(** The expansion of a metric alert rule never returns an error and, when
    it returns, returns a rule. Of the [email_action] and [webhook_action]
    blocks only the first one is looked at. Without any such block the rule
    carries an empty (non-nil) list of actions and the expansion cannot
    panic; an empty description is sent as nil. *)
Theorem expand_alert_rule_uses_first_blocks_only (d : ResourceData) :
  (forall r e, expandAzureRmMetricThresholdAlertRule d = Val (r, e) ->
     e = None /\ exists rule, r = Some rule) /\
  (forall e0 rest rest',
     expandAzureRmMetricThresholdAlertRule (rd_Set "email_action" (VList (e0 :: rest)) d)
     = expandAzureRmMetricThresholdAlertRule (rd_Set "email_action" (VList (e0 :: rest')) d)) /\
  (forall w0 rest rest',
     expandAzureRmMetricThresholdAlertRule (rd_Set "webhook_action" (VList (w0 :: rest)) d)
     = expandAzureRmMetricThresholdAlertRule (rd_Set "webhook_action" (VList (w0 :: rest')) d)) /\
  (rd_GetList d "email_action" = [] -> rd_GetList d "webhook_action" = [] ->
   exists rule,
     expandAzureRmMetricThresholdAlertRule d = Val (Some rule, None) /\
     insights.Actions rule = Some [] /\
     insights.IsEnabled rule = Some (rd_GetBool d "enabled") /\
     (rd_Get d "description" = None -> insights.Description rule = None) /\
     (forall s, rd_Get d "description" = Some (VString s) ->
        insights.Description rule = if String.eqb s EmptyString then None else Some s)).
Proof.
  split; [|split; [|split]].
  - intros r e. unfold expandAzureRmMetricThresholdAlertRule.
    cbv beta zeta. unfold Res_bind. break_goal; intros H; simplify_eq; eauto.
  - intros e0 rest rest'. unfold expandAzureRmMetricThresholdAlertRule.
    unfold rd_GetList, rd_GetString, rd_GetFloat64, rd_GetBool, rd_GetOk, rd_Get, rd_Set.
    cbn [rd_fields]. rewrite !lookup_insert_eq.
    rewrite !lookup_insert_ne by discriminate. reflexivity.
  - intros w0 rest rest'. unfold expandAzureRmMetricThresholdAlertRule.
    unfold rd_GetList, rd_GetString, rd_GetFloat64, rd_GetBool, rd_GetOk, rd_Get, rd_Set.
    cbn [rd_fields]. rewrite !lookup_insert_eq.
    rewrite !lookup_insert_ne by discriminate. reflexivity.
  - intros He Hw. unfold expandAzureRmMetricThresholdAlertRule. rewrite He, Hw.
    cbn [Res_bind]. eexists. split; [reflexivity|]. cbn.
    split; [reflexivity|]. split; [reflexivity|]. unfold rd_GetOk. split.
    + intros ->. reflexivity.
    + intros s ->. cbn. destruct (String.eqb s EmptyString); reflexivity.
Qed.

(** *** The identifier of a data lake store file *)

Lemma replace_skips_rest (old new s : string) :
  strings.ReplaceAll_from old new s (String.length s) = EmptyString.
Proof.
  induction s as [|c s IH]; [reflexivity|]. cbn [String.length strings.ReplaceAll_from]. exact IH.
Qed.

Lemma prefix_refl (s : string) : String.prefix s s = true.
Proof.
  induction s as [|c s IH]; [reflexivity|]. cbn [String.prefix].
  destruct (Ascii.ascii_dec c c); [exact IH | contradiction].
Qed.

Lemma prefix_append (s t : string) : String.prefix s (s +:+ t) = true.
Proof.
  induction s as [|c s IH]; [by destruct t|].
  change (String c s +:+ t) with (String c (s +:+ t)). cbn [String.prefix].
  destruct (Ascii.ascii_dec c c); [exact IH | contradiction].
Qed.

Lemma replace_suffix_after (c0 : Ascii.ascii) (account suffix : string) :
  strings.Contains account (String c0 EmptyString) = false ->
  strings.ReplaceAll_from (String c0 suffix) EmptyString (account +:+ String c0 suffix) 0 = account.
Proof.
  induction account as [|c account IH]; intros Hdot.
  - rewrite app_empty_l. cbn [strings.ReplaceAll_from]. rewrite prefix_refl.
    replace (String.length (String c0 suffix) - 1)%nat with (String.length suffix)
      by (cbn [String.length]; lia).
    rewrite replace_skips_rest. reflexivity.
  - apply contains_head in Hdot. destruct Hdot as [Hhead Hdot].
    change (String c account +:+ String c0 suffix) with (String c (account +:+ String c0 suffix)).
    cbn [strings.ReplaceAll_from].
    cbn [String.prefix] in Hhead |- *.
    destruct (Ascii.ascii_dec c0 c) as [-> | Hc].
    + destruct account; discriminate Hhead.
    + rewrite (IH Hdot). reflexivity.
Qed.

(** Removing ".suffix" from "account.suffix" leaves the account name when
    the account name holds no dot. *)
Lemma replace_dns_suffix (account suffix : string) :
  strings.Contains account "." = false ->
  strings.ReplaceAll (account +:+ "." +:+ suffix) ("." +:+ suffix) EmptyString = account.
Proof.
  intros Hdot. unfold strings.ReplaceAll.
  exact (replace_suffix_after _ account suffix Hdot).
Qed.

(** The identifier Create composes for a data lake store file,
    "account.suffix/path", is taken apart again by
    [parseDataLakeStoreFileId] into the same account name and path,
    provided that the URL parser separates host and path at that place and
    the account name holds no dot. An identifier the URL parser rejects
    gives an error that quotes the identifier. *)
Theorem data_lake_identifier_round_trip {W} (env : Env W) (account suffix path : string) :
  url_Parse env ("https://" +:+ (account +:+ "." +:+ suffix +:+ path))
    = inl {| url_Host := account +:+ "." +:+ suffix; url_Path := path |} ->
  strings.Contains account "." = false ->
  parseDataLakeStoreFileId env (account +:+ "." +:+ suffix +:+ path) suffix
    = inl {| storageAccountName := account; filePath := path |}.
Proof.
  intros Hurl Hdot. unfold parseDataLakeStoreFileId. rewrite Hurl.
  cbn [url_Host url_Path]. rewrite (replace_dns_suffix account suffix Hdot). reflexivity.
Qed.

Lemma data_lake_identifier_round_trip_witness :
  parseDataLakeStoreFileId sampleEnv ("acct" +:+ "." +:+ "azuredatalakestore.net" +:+ "/f.txt")
    "azuredatalakestore.net"
  = inl {| storageAccountName := "acct"; filePath := "/f.txt" |}.
Proof.
  apply (data_lake_identifier_round_trip sampleEnv "acct" "azuredatalakestore.net" "/f.txt");
    reflexivity.
Defined.

(** An identifier that does not parse as a URL. *)
Theorem data_lake_identifier_rejected {W} (env : Env W) (input suffix : string) (e : Error) :
  url_Parse env ("https://" +:+ input) = inr e ->
  parseDataLakeStoreFileId env input suffix
    = inr (Errorf "Error parsing %q as URI: %+v" [input; Error_text e]).
Proof. intros H. unfold parseDataLakeStoreFileId. by rewrite H. Qed.

(** *** Retrieving a load balancer by its identifier *)

(** [retrieveLoadBalancerById] answers with a load balancer exactly when it
    says it exists, and then without an error. An identifier that does not
    parse gives an error without any call to the remote side. A failed GET
    whose status is 404 is no error: the answer is "does not exist" with a
    nil error; with any other status the error is returned, and a failed GET
    without a response makes the function panic. The lookup helpers find
    nothing in what a failed retrieval hands back. *)
Theorem retrieve_load_balancer_answers {W} (env : Env W)
    (loadBalancers_Get : string -> string -> string -> W -> LoadBalancerResult * error * W)
    (loadBalancerId : string) (w : W) :
  (forall lb found err w',
     retrieveLoadBalancerById env loadBalancers_Get loadBalancerId w = (Val (lb, found, err), w') ->
     (found = true <-> exists l, lb = Some l) /\
     (found = true -> err = None) /\
     (found = false -> forall name,
        findLoadBalancerRuleByName lb name = (None, -1, false) /\
        findLoadBalancerFrontEndIpConfigurationByName lb name = (None, -1, false))) /\
  (forall e, parseAzureResourceID env loadBalancerId = inr e ->
     retrieveLoadBalancerById env loadBalancers_Get loadBalancerId w
     = (Val (None, false,
             Some (Errorf "Error Getting Load Balancer Name and Group:: %+v" [Error_text e])), w)) /\
  (forall id, parseAzureResourceID env loadBalancerId = inl id ->
     let '(resp, err, w') :=
       loadBalancers_Get (ResourceGroup id) (pathOf id "loadBalancers") EmptyString w in
     let result := fst (retrieveLoadBalancerById env loadBalancers_Get loadBalancerId w) in
     snd (retrieveLoadBalancerById env loadBalancers_Get loadBalancerId w) = w' /\
     (err = None -> result = Val (Some (got_LoadBalancer resp), true, None)) /\
     (forall e, err = Some e -> ResponseWasNotFound (got_Response resp) = true ->
        result = Val (None, false, None)) /\
     (forall e status, err = Some e -> got_Response resp = Some {| StatusCode := status |} ->
        status <> StatusNotFound ->
        result = Val (None, false,
                      Some (Errorf "Error making Read request on Azure Load Balancer %s: %s"
                                   [pathOf id "loadBalancers"; Error_text e]))) /\
     (forall e, err = Some e -> got_Response resp = None -> exists reason, result = Panic reason)).
Proof.
  unfold retrieveLoadBalancerById, resourceGroupAndLBNameFromId.
  split; [|split].
  - intros lb found err w'.
    destruct (parseAzureResourceID env loadBalancerId) as [id | e].
    + destruct (loadBalancers_Get _ _ _ w) as [[resp [e|]] w1].
      * destruct (got_Response resp) as [[status]|]; cbn; [|discriminate].
        destruct (status =? StatusNotFound); intros H; simplify_eq;
          (split; [split; [discriminate | intros [? ?]; discriminate]|]);
          (split; [discriminate|]); intros _ name; split; reflexivity.
      * intros H; simplify_eq. split; [split; eauto|]. split; [reflexivity | discriminate].
    + intros H; simplify_eq.
      split; [split; [discriminate | intros [? ?]; discriminate]|].
      split; [discriminate|]. intros _ name; split; reflexivity.
  - intros e ->. reflexivity.
  - intros id ->.
    destruct (loadBalancers_Get _ _ _ w) as [[resp [e|]] w1]; cbn.
    + split; [reflexivity|]. split; [discriminate|]. split; [|split].
      * intros e' _ Hnf. unfold ResponseWasNotFound in Hnf.
        destruct (got_Response resp) as [[status]|]; [|discriminate]. cbn in *. by rewrite Hnf.
      * intros e' status He -> Hstatus. simplify_eq. cbn.
        destruct (Z.eqb_spec status StatusNotFound); [contradiction | reflexivity].
      * intros e' _ ->. eexists. reflexivity.
    + split; [reflexivity|]. split; [reflexivity|].
      split; [discriminate|]. split; discriminate.
Qed.
